(** * nomad-driver-lxc: a shallow embedding of the task driver

    The development follows the two Go files of the driver:

    - the container set-up helpers ([initializeContainer],
      [configureContainerNetwork], [mountEntries], [pathEscapesSandbox],
      [mountVolumes], [setResourceLimits]) and the monitor loop
      [waitTillStopped];
    - [lxc/driver.go] ([StartTask], [RecoverTask], [StopTask],
      [DestroyTask], [buildFingerprint]).

    The LXC runtime, the host file system, the clock and the MessagePack
    codec are outside the driver.  They are gathered in a record [Host] of
    oracles; every call the driver makes to the runtime is appended to a
    chronological trace, and the answer of the runtime may depend on the
    whole trace so far.  All theorems hold for every host. *)

From Stdlib Require Import ZArith Lia Ascii String List.
From stdpp Require Import base option list gmap strings pretty.

Open Scope string_scope.
Open Scope list_scope.
Open Scope Z_scope.

(** ** Go standard library: strings, strconv *)

Module GoStrings.

(** [strings.HasPrefix(s, prefix)] *)
Definition HasPrefix (s prefix : string) : bool := String.prefix prefix s.

(** [strings.Contains(s, substr)] *)
Fixpoint Contains (s substr : string) : bool :=
  if String.prefix substr s then true
  else match s with
       | EmptyString => false
       | String _ s' => Contains s' substr
       end.

Definition in_cutset (a : ascii) (cutset : string) : bool :=
  existsb (Ascii.eqb a) (list_ascii_of_string cutset).

(** [strings.TrimLeft(s, cutset)]: drops the leading bytes of [s] that
    occur in [cutset]. *)
Fixpoint TrimLeft (s cutset : string) : string :=
  match s with
  | EmptyString => EmptyString
  | String a s' => if in_cutset a cutset then TrimLeft s' cutset else s
  end.

(** [strings.Split(s, sep)] for a separator of one byte, the only use the
    driver makes of it.  The result has one more element than [s] has
    separators, so it is never empty. *)
Fixpoint Split (s : string) (sep : ascii) : list string :=
  match s with
  | EmptyString => [EmptyString]
  | String a s' =>
      if Ascii.eqb a sep then EmptyString :: Split s' sep
      else match Split s' sep with
           | [] => [String a EmptyString]
           | hd :: tl => String a hd :: tl
           end
  end.

(** [strings.Join(elems, sep)] *)
Definition Join (elems : list string) (sep : string) : string :=
  String.concat sep elems.

(** [strconv.FormatInt(n, 10)] *)
Definition FormatInt (n : Z) : string := pretty n.

(** The strings made of bytes below 0x80. *)
Definition is_ascii (s : string) : bool :=
  forallb (λ a, (nat_of_ascii a <? 128)%nat) (list_ascii_of_string s).

(** The digit of [n] in [strconv]'s table [lowerhex]. *)
Definition lowerhex (n : nat) : ascii :=
  nth n (list_ascii_of_string "0123456789abcdef") "0"%char.

(** What [strconv.Quote] writes for one byte.  A double quote and a
    backslash get a backslash before them; the other printable bytes
    (0x20 to 0x7e) are copied; the control characters that have a
    letter are written with it, the other bytes below 0x20 and the byte
    0x7f as backslash, x and two digits.  From 0x80 on Go decodes UTF-8
    and copies the printable runes; the byte is copied here, and what Go
    writes for the other runes and for broken UTF-8 is left out. *)
Definition quote_byte (a : ascii) : string :=
  let n := nat_of_ascii a in
  let backslash := String (ascii_of_nat 92) EmptyString in
  if (n =? 34)%nat || (n =? 92)%nat then backslash +:+ String a EmptyString
  else if (32 <=? n)%nat && (n <? 127)%nat then String a EmptyString
  else if (128 <=? n)%nat then String a EmptyString
  else if (n =? 7)%nat then backslash +:+ "a"
  else if (n =? 8)%nat then backslash +:+ "b"
  else if (n =? 12)%nat then backslash +:+ "f"
  else if (n =? 10)%nat then backslash +:+ "n"
  else if (n =? 13)%nat then backslash +:+ "r"
  else if (n =? 9)%nat then backslash +:+ "t"
  else if (n =? 11)%nat then backslash +:+ "v"
  else backslash +:+ "x"
         +:+ String (lowerhex (n / 16)) (String (lowerhex (n mod 16)) EmptyString).

Fixpoint quote_bytes (s : string) : string :=
  match s with
  | EmptyString => EmptyString
  | String a s' => quote_byte a +:+ quote_bytes s'
  end.

(** [strconv.Quote(s)] for a string of ASCII bytes ([is_ascii]). *)
Definition Quote (s : string) : string :=
  let dq := String (ascii_of_nat 34) EmptyString in dq +:+ quote_bytes s +:+ dq.

End GoStrings.

(** ** Go standard library: path/filepath on a Unix host

    [IsAbs] is part of every host.  [Clean], [Join] and [Rel] are the
    lexical algorithms of the Go library on slash-separated paths; the
    driver reaches [Join] and [Rel] through the [Host] record, and
    [unix_host] below installs these. *)

Module GoFilepath.
Import GoStrings.

Definition IsAbs (path : string) : bool := HasPrefix path "/".

(** One element of the path being cleaned, applied to the stack of
    elements kept so far (most recent first). *)
Definition clean_step (rooted : bool) (out : list string) (elem : string)
  : list string :=
  if String.eqb elem "" || String.eqb elem "." then out
  else if String.eqb elem ".." then
    match out with
    | top :: rest =>
        if String.eqb top ".." then elem :: out else rest
    | [] => if rooted then out else [elem]
    end
  else elem :: out.

Definition Clean (path : string) : string :=
  if String.eqb path "" then "."
  else
    let rooted := IsAbs path in
    let out := rev (fold_left (clean_step rooted) (Split path "/") []) in
    let body := GoStrings.Join out "/" in
    if rooted then "/" +:+ body
    else if String.eqb body "" then "." else body.

(** [filepath.Join(a, b)]: empty elements are ignored, the rest is joined
    with a slash and cleaned; all elements empty gives the empty string. *)
Definition Join (a b : string) : string :=
  match filter (λ e, bool_decide (e ≠ "")) [a; b] with
  | [] => ""
  | elems => Clean (GoStrings.Join elems "/")
  end.

(** The elements [Rel] walks over in a cleaned path. *)
Definition elements (p : string) : list string :=
  if String.eqb p "" then []
  else if String.eqb p "/" then [""]
  else Split p "/".

Fixpoint strip_common (b t : list string) : list string * list string :=
  match b, t with
  | x :: b', y :: t' => if String.eqb x y then strip_common b' t' else (b, t)
  | _, _ => (b, t)
  end.

(** [filepath.Rel(basepath, targpath)]; [None] is the error "can't make
    targpath relative to basepath".  A path that cleans to "." has no
    element, and a base that still has a ".." to undo once the common
    elements are gone has no relative path. *)
Definition Rel (basepath targpath : string) : option string :=
  let base := Clean basepath in
  let targ := Clean targpath in
  if String.eqb targ base then Some "."
  else
    let base := if String.eqb base "." then "" else base in
    let targ := if String.eqb targ "." then "" else targ in
    if negb (Bool.eqb (IsAbs base) (IsAbs targ)) then None
    else
      match strip_common (elements base) (elements targ) with
      | ([], trem) => Some (GoStrings.Join trem "/")
      | (b0 :: brem, trem) =>
          if String.eqb b0 ".." then None
          else Some (GoStrings.Join (map (λ _, "..") (b0 :: brem) ++ trem) "/")
      end.

End GoFilepath.

(** ** Errors

    A Go [error] is its message; [RecoverableError] is the wrapper of
    Nomad's [structs.NewRecoverableError]. *)

Inductive error : Type :=
| errorString (msg : string)
| RecoverableError (msg : string) (recoverable : bool).

Definition Error (e : error) : string :=
  match e with
  | errorString msg => msg
  | RecoverableError msg _ => msg
  end.

(** [fmt.Errorf(prefix + "%v", err)] *)
Definition Errorf (prefix : string) (err : error) : error :=
  errorString (prefix +:+ Error err).

Definition NewRecoverableError (err : error) (recoverable : bool) : error :=
  RecoverableError (Error err) recoverable.

(** [drivers.ErrTaskNotFound] *)
Definition ErrTaskNotFound : error := errorString "task not found for given id".

(** ** The types of go-lxc the driver uses *)

Module lxc.

Inductive Verbosity : Type := Quiet | Verbose.

Inductive LogLevel : Type :=
| TRACE | DEBUG | INFO | NOTICE | WARN | ERROR | CRIT | ALERT | FATAL.

(** A container reference is the pair given to [lxc.NewContainer];
    [c.Name()] reads the first component back. *)
Record Container : Type := { Name : string; ConfigPath : string }.

Record TemplateOptions : Type := {
  Template : string;
  Distro : string;
  Release : string;
  Arch : string;
  FlushCache : bool;
  DisableGPGValidation : bool;
  ExtraArgs : list string;
}.

(** [lxc.ByteSize] is a [float64] (the driver prints it with the verb
    [%.f]).  A value of that type which is an integer is represented by
    that integer. *)
Definition ByteSize : Type := Z.

Definition MB : ByteSize := 1048576.

(** The methods of [*lxc.Container] the driver calls. *)
Inductive method : Type :=
| SetVerbosity (v : Verbosity)
| SetLogLevel (l : LogLevel)
| SetLogFile (filename : string)
| SetConfigItem (key value : string)
| LoadConfigFile (path : string)
| Create (opt : TemplateOptions)
| Running
| Stop
| Destroy
| StartExecute (args : list string)
| SetCgroupItem (key value : string)
| SetMemoryLimit (limit : ByteSize)
| InitPid.

End lxc.

(** ** The types of Nomad's plugin interface the driver uses *)

Module drivers.

Record TaskDir : Type := {
  Dir : string;
  LocalDir : string;
  SharedAllocDir : string;
  SecretsDir : string;
}.

Record MountConfig : Type := {
  mount_TaskPath : string;
  mount_HostPath : string;
  mount_Readonly : bool;
}.

Record DeviceConfig : Type := {
  device_TaskPath : string;
  device_HostPath : string;
  device_Permissions : string;
}.

(** [MemoryMB] is [Resources.NomadResources.Memory.MemoryMB] and
    [CPUShares] is [Resources.LinuxResources.CPUShares], both [int64]. *)
Record Resources : Type := {
  MemoryMB : Z;
  CPUShares : Z;
}.

(** [Env] is a Go map; the driver only ranges over it, so it is kept as
    the sequence of pairs in the order the range statement yields them.
    [taskDir] is what the method [TaskDir()] returns. *)
Record TaskConfig : Type := {
  ID : string;
  Name : string;
  AllocID : string;
  Env : list (string * string);
  resources : Resources;
  Mounts : list MountConfig;
  Devices : list DeviceConfig;
  taskDir : TaskDir;
}.

Inductive TaskState : Type :=
| TaskStateUnknown | TaskStateRunning | TaskStateExited.

Record ExitResult : Type := {
  ExitCode : Z;
  Signal : Z;
  OOMKilled : bool;
  Err : option error;
}.

Definition emptyExitResult : ExitResult :=
  {| ExitCode := 0; Signal := 0; OOMKilled := false; Err := None |}.

(** [drivers.TaskHandle]; [DriverState] is the MessagePack encoding of
    the driver's own state, a value of the type [Blob] of encodings.
    [Config] is a pointer in Go: the handles of this type are the ones
    that carry their task configuration, and what the driver does with
    a handle whose [Config] is nil (it dereferences it) is not
    described. *)
Record TaskHandle (Blob : Type) : Type := {
  Version : Z;
  Config : TaskConfig;
  DriverState : option Blob;
}.
Arguments Version {Blob} _.
Arguments Config {Blob} _.
Arguments DriverState {Blob} _.

End drivers.

(** ** The configuration records of [lxc/driver.go] *)

Module Config.
Record t : Type := {
  Enabled : bool;
  AllowVolumes : bool;
  DefaultConfig : string;
  LXCPath : string;
  NetworkMode : string;
  GC_Container : bool;
}.
End Config.

Module TaskConfig.
Record t : Type := {
  Template : string;
  Distro : string;
  Release : string;
  Arch : string;
  ImageVariant : string;
  ImageServer : string;
  GPGKeyID : string;
  GPGKeyServer : string;
  DisableGPGValidation : bool;
  FlushCache : bool;
  ForceCache : bool;
  TemplateArgs : list string;
  LogLevel : string;
  Verbosity : string;
  Volumes : list string;
  NetworkMode : string;
  DefaultConfig : string;
  Command : list string;
  Environment : list string;
  Cgroup : string;
  PortMap : list (string * Z);
}.
End TaskConfig.

(** [TaskState] is the state encoded in the handle returned by
    [StartTask]; [StartedAt] is in nanoseconds.  [TaskConfig] is a pointer
    in Go: the states of this type are the ones that carry it. *)
Record TaskState : Type := {
  TaskState_TaskConfig : drivers.TaskConfig;
  ContainerName : string;
  StartedAt : Z;
}.

(** The handle the driver keeps per task.  The logger and the three CPU
    statistics accumulators, fresh at construction, are left out. *)
Record taskHandle : Type := {
  container : lxc.Container;
  initPid : Z;
  taskConfig : drivers.TaskConfig;
  procState : drivers.TaskState;
  startedAt : Z;
  exitResult : option drivers.ExitResult;
}.

Definition taskHandleVersion : Z := 1.

(** ** Effects

    What the driver does to the outside is recorded as a chronological
    list of calls; what it writes to its logger is kept apart. *)

Inductive call : Type :=
| lxc_NewContainer (name lxcpath : string)           (* lxc.NewContainer *)
| lxc_method (c : lxc.Container) (m : lxc.method)    (* c.m(...) *)
| asked_IsRunning (h : taskHandle)                   (* h.IsRunning() *)
| called_shutdown (h : taskHandle) (timeout : Z)     (* h.shutdown(timeout) *)
| spawned_run (h : taskHandle)                       (* go h.run() *)
| read_clock.                                        (* time.Now() *)

Inductive level : Type := Info | Warn | Error_.

Record world : Type := {
  calls : list call;
  logs : list (level * string);
  tasks : gmap string taskHandle;
}.

(** A Go call either returns a value, returns a non-nil error, or panics
    (the only panic modelled is an index out of range). *)
Inductive res (A : Type) : Type :=
| Ok (a : A)
| Err (e : error)
| Panic (msg : string).
Arguments Ok {A} a.
Arguments Err {A} e.
Arguments Panic {A} msg.

Definition M (A : Type) : Type := world → res A * world.

Global Instance M_ret : MRet M := λ A a w, (Ok a, w).

Global Instance M_bind : MBind M := λ A B f m w,
  match m w with
  | (Ok a, w') => f a w'
  | (Err e, w') => (Err e, w')
  | (Panic msg, w') => (Panic msg, w')
  end.

Definition throw {A} (e : error) : M A := λ w, (Err e, w).

Definition panic {A} (msg : string) : M A := λ w, (Panic msg, w).

(** [if err := m; err != nil { handler }]: the error of [m] becomes a
    value. *)
Definition catch {A} (m : M A) : M (A + error) := λ w,
  match m w with
  | (Ok a, w') => (Ok (inl a), w')
  | (Err e, w') => (Ok (inr e), w')
  | (Panic msg, w') => (Panic msg, w')
  end.

Definition log (l : level) (msg : string) : M unit := λ w,
  (Ok tt, {| calls := calls w; logs := logs w ++ [(l, msg)]; tasks := tasks w |}).

Definition record (c : call) (w : world) : world :=
  {| calls := calls w ++ [c]; logs := logs w; tasks := tasks w |}.

(** Modelled from the spec: the task store of the driver ([newTaskStore],
    [Get], [Set], [Delete]) is not among the source files; section 4.6
    describes it as a map keyed by task ID whose [Get] signals a missing
    key. *)
Definition taskStore_Get (id : string) : M (option taskHandle) := λ w,
  (Ok (tasks w !! id), w).

Definition taskStore_Set (id : string) (h : taskHandle) : M unit := λ w,
  (Ok tt, {| calls := calls w; logs := logs w; tasks := <[id := h]> (tasks w) |}).

Definition taskStore_Delete (id : string) : M unit := λ w,
  (Ok tt, {| calls := calls w; logs := logs w; tasks := delete id (tasks w) |}).

(** ** Numbers *)

(** [float64(m)] for an integer [m]: the nearest number with a mantissa of
    53 bits, ties to even.  No [int64] is large enough to overflow. *)
Definition float64_of_int (m : Z) : Z :=
  let a := Z.abs m in
  let e := Z.log2 a - 52 in
  if e <=? 0 then m
  else
    let q := a / 2 ^ e in
    let r := a mod 2 ^ e in
    let half := 2 ^ (e - 1) in
    let q' := if r <? half then q
              else if half <? r then q + 1
              else if Z.even q then q else q + 1 in
    Z.sgn m * (q' * 2 ^ e).

(** [lxc.ByteSize(memoryMB) * lxc.MB]: the conversion rounds, the product
    by a power of two is exact. *)
Definition memoryBytes (memoryMB : Z) : lxc.ByteSize :=
  float64_of_int memoryMB * lxc.MB.

(** [fmt.Sprintf("%.f", b)] for a [ByteSize] that is an integer. *)
Definition Sprintf_f (b : lxc.ByteSize) : string := GoStrings.FormatInt b.

(** [t.Round(time.Millisecond)] on nanoseconds: to the nearest multiple,
    halfway values up. *)
Definition time_Millisecond : Z := 1000000.
Definition time_Minute : Z := 60000000000.

Definition Round (t d : Z) : Z :=
  let r := t mod d in
  if r + r <? d then t - r else t + (d - r).

(** [%q] of a string: [fmt] prints it with [strconv.Quote]. *)
Definition Sprintf_q (s : string) : string := GoStrings.Quote s.

(** [q] is what [%q] prints for [s], as far as [GoStrings.Quote] follows
    the library: on the strings of ASCII bytes. *)
Definition quoted (s q : string) : Prop :=
  GoStrings.is_ascii s = true → q = Sprintf_q s.

(** ** The enumerated options *)

Definition verbosityLevels : gmap string lxc.Verbosity :=
  <[ "" := lxc.Quiet ]> (<[ "verbose" := lxc.Verbose ]> (<[ "quiet" := lxc.Quiet ]> ∅)).

Definition logLevels : gmap string lxc.LogLevel :=
  <[ "" := lxc.ERROR ]> (<[ "debug" := lxc.DEBUG ]> (<[ "error" := lxc.ERROR ]>
    (<[ "info" := lxc.INFO ]> (<[ "trace" := lxc.TRACE ]> (<[ "warn" := lxc.WARN ]> ∅))))).

(** ** The driver *)

Section Driver.

Context {Blob : Type}.

(** Everything the driver consults outside itself.  The answers of the
    runtime and of the clock depend on the calls made so far. *)
Record Host : Type := {
  (** [lxc.DefaultConfigPath()] *)
  lxc_DefaultConfigPath : string;
  (** [lxc.VersionAtLeast(2, 1, 0)] *)
  lxc_VersionAtLeast_2_1_0 : bool;
  (** the [error] returned by a call ([None] is [nil]) *)
  lxc_reply : list call → call → option error;
  (** [c.Running()] *)
  lxc_Running : list call → lxc.Container → bool;
  (** [c.InitPid()] *)
  lxc_InitPid : list call → lxc.Container → Z;
  (** [h.IsRunning()], of the handle file that is not among the sources;
      the poller changes what it answers between two calls *)
  IsRunning : list call → taskHandle → bool;
  (** [time.Now()], nanoseconds *)
  Now : list call → Z;
  filepath_Join : string → string → string;
  filepath_Rel : string → string → option string;
  (** [os.Stat(path)], reduced to [IsDir()]; [None] is an error *)
  os_Stat : string → option bool;
  (** [ldevices.DeviceFromPath(path, permissions)] followed by
      [CgroupString()] *)
  DeviceFromPath : string → string → string + error;
  (** [cfg.DecodeDriverConfig(&driverConfig)] *)
  DecodeDriverConfig : drivers.TaskConfig → TaskConfig.t + error;
  (** [handle.SetDriverState] and [handle.GetDriverState] *)
  MsgPackEncode : TaskState → Blob + error;
  MsgPackDecode : Blob → TaskState + error;
  (** the upgrade path for handles of version 0, not among the sources *)
  recoverPre09Task : drivers.TaskHandle Blob → M unit;
}.

Variable host : Host.
Variable config : Config.t.

(** *** Calls to the outside *)

Definition invoke (c : call) : M (option error) := λ w,
  (Ok (lxc_reply host (calls w) c), record c w).

Definition on (c : lxc.Container) (m : lxc.method) : M (option error) :=
  invoke (lxc_method c m).

(** [if err := m; err != nil { return wrap(err) }] *)
Definition orReturn (m : M (option error)) (wrap : error → error) : M unit :=
  err ← m;
  match err with
  | Some e => throw (wrap e)
  | None => mret tt
  end.

Definition NewContainer (name lxcpath : string) : M (lxc.Container + error) :=
  err ← invoke (lxc_NewContainer name lxcpath);
  match err with
  | Some e => mret (inr e)
  | None => mret (inl {| lxc.Name := name; lxc.ConfigPath := lxcpath |})
  end.

Definition Running (c : lxc.Container) : M bool := λ w,
  (Ok (lxc_Running host (calls w) c), record (lxc_method c lxc.Running) w).

Definition InitPid (c : lxc.Container) : M Z := λ w,
  (Ok (lxc_InitPid host (calls w) c), record (lxc_method c lxc.InitPid) w).

Definition handle_IsRunning (h : taskHandle) : M bool := λ w,
  (Ok (IsRunning host (calls w) h), record (asked_IsRunning h) w).

Definition time_Now : M Z := λ w,
  (Ok (Now host (calls w)), record read_clock w).

(** [h.shutdown(timeout)], of the handle file that is not among the
    sources *)
Definition handle_shutdown (h : taskHandle) (timeout : Z) : M (option error) :=
  invoke (called_shutdown h timeout).

(** [go h.run()] *)
Definition go_run (h : taskHandle) : M unit := λ w, (Ok tt, record (spawned_run h) w).

(** [s[i]] on a slice *)
Definition index (s : list string) (i : nat) : M string :=
  match s !! i with
  | Some x => mret x
  | None => panic "index out of range"
  end.

(** *** Container set-up *)

Definition lxcPath : string :=
  let lxcPath := Config.LXCPath config in
  if String.eqb lxcPath "" then lxc_DefaultConfigPath host else lxcPath.

Definition setEnvironment (c : lxc.Container) (envs : list string) : M unit :=
  foldr (λ env k, _ ← on c (lxc.SetConfigItem "lxc.environment" env); k) (mret tt) envs.

Definition initializeContainer (cfg : drivers.TaskConfig) (taskConfig : TaskConfig.t)
  : M lxc.Container :=
  let lxcPath := lxcPath in
  let containerName := drivers.Name cfg +:+ "-" +:+ drivers.AllocID cfg in
  r ← NewContainer containerName lxcPath;
  match r with
  | inr err => throw (Errorf "failed to initialize container: " err)
  | inl c =>
      log Info "NewContainer";;
      match verbosityLevels !! TaskConfig.Verbosity taskConfig with
      | Some v => _ ← on c (lxc.SetVerbosity v); mret tt
      | None =>
          throw (errorString
            "lxc driver config 'verbosity' can only be either quiet or verbose")
      end;;
      match logLevels !! TaskConfig.LogLevel taskConfig with
      | Some v => orReturn (on c (lxc.SetLogLevel v)) id
      | None =>
          throw (errorString
            "lxc driver config 'log_level' can only be trace, debug, info, warn or error")
      end;;
      let logFile :=
        filepath_Join host (drivers.Dir (drivers.taskDir cfg))
                      (drivers.Name cfg +:+ "-lxc.log") in
      orReturn (on c (lxc.SetLogFile logFile)) id;;
      (* set cgroup dir *)
      _ ← on c (lxc.SetConfigItem "lxc.cgroup.dir" (TaskConfig.Cgroup taskConfig));
      (* set environment *)
      setEnvironment c (TaskConfig.Environment taskConfig);;
      setEnvironment c (map (λ kv, kv.1 +:+ "=" +:+ kv.2) (drivers.Env cfg));;
      (* use task specific config, but fallback to global config *)
      let defaultConfig :=
        if String.eqb (TaskConfig.DefaultConfig taskConfig) ""
        then Config.DefaultConfig config
        else TaskConfig.DefaultConfig taskConfig in
      err ← on c (lxc.LoadConfigFile defaultConfig);
      match err with
      | Some _ => log Warn "failed to load default config"
      | None => mret tt
      end;;
      log Info "Done initializeContainer";;
      mret c
  end.

Definition networkTypeConfigPrefix : string :=
  if lxc_VersionAtLeast_2_1_0 host then "lxc.net.0." else "lxc.network.".

Definition configureContainerNetwork (c : lxc.Container) (taskConfig : TaskConfig.t)
  : M unit :=
  (* use task specific network mode, but fallback to global driver config *)
  let mode :=
    if String.eqb (TaskConfig.NetworkMode taskConfig) ""
    then Config.NetworkMode config
    else TaskConfig.NetworkMode taskConfig in
  let lxcKeyPrefix := networkTypeConfigPrefix in
  if String.eqb mode "host" then
    orReturn (on c (lxc.SetConfigItem (lxcKeyPrefix +:+ "type") "none"))
             (Errorf "error setting network type configuration 'none': ")
  else if String.eqb mode "bridge" then
    orReturn (on c (lxc.SetConfigItem (lxcKeyPrefix +:+ "type") "veth"))
             (Errorf "error setting network type configuration 'veth': ");;
    orReturn (on c (lxc.SetConfigItem (lxcKeyPrefix +:+ "link") "lxcbr0"))
             (Errorf "error setting network link configuration: ");;
    orReturn (on c (lxc.SetConfigItem (lxcKeyPrefix +:+ "flags") "up"))
             (Errorf "error setting network flags configuration: ")
  else throw (errorString "Network mode is undefined").

(** *** Mounts and devices *)

Definition formatMount (hostPath taskPath : string) (readOnly : bool) : M string :=
  typ ← match os_Stat host hostPath with
        | None =>
            log Warn "failed to find mount host path type, defaulting to dir type";;
            mret "dir"
        | Some isDir => mret (if isDir then "dir" else "file")
        end;
  let perm := if readOnly then "ro" else "rw" in
  (* LXC assumes paths are relative with respect to rootfs *)
  let target := GoStrings.TrimLeft taskPath "/" in
  mret (hostPath +:+ " " +:+ target +:+ " none " +:+ perm +:+ ",bind,create=" +:+ typ).

Fixpoint formatTaskMounts (mounts : list drivers.MountConfig) : M (list string) :=
  match mounts with
  | [] => mret []
  | m :: rest =>
      r ← formatMount (drivers.mount_HostPath m) (drivers.mount_TaskPath m)
                      (drivers.mount_Readonly m);
      rs ← formatTaskMounts rest;
      mret (r :: rs)
  end.

Fixpoint formatTaskDevices (devices : list drivers.DeviceConfig) : M (list string) :=
  match devices with
  | [] => mret []
  | m :: rest =>
      r ← formatMount (drivers.device_HostPath m) (drivers.device_TaskPath m)
                      (negb (GoStrings.Contains (drivers.device_Permissions m) "w"));
      rs ← formatTaskDevices rest;
      mret (r :: rs)
  end.

Definition pathEscapesSandbox (sandboxDir path : string) : bool :=
  match filepath_Rel host sandboxDir path with
  | None => true
  | Some rel => if GoStrings.HasPrefix rel ".." then true else false
  end.

(** The loop of [mountEntries] over the volumes of the task; [mounts] is
    the slice built so far. *)
Fixpoint mountEntries_volumes (cfg : drivers.TaskConfig) (volumesEnabled : bool)
    (volumes : list string) (mounts : list string) : M (list string) :=
  match volumes with
  | [] => mret mounts
  | volDesc :: rest =>
      (* the format was checked in Validate() *)
      log Info "get volume";;
      let paths := GoStrings.Split volDesc ":" in
      paths0 ← index paths 0;
      source ←
        (if GoFilepath.IsAbs paths0 then
           if negb volumesEnabled then
             throw (errorString
               "absolute bind-mount volume in config but volumes are disabled")
           else mret paths0
         else
           (* Relative source paths are treated as relative to alloc dir *)
           let paths0 := filepath_Join host (drivers.Dir (drivers.taskDir cfg)) paths0 in
           if negb volumesEnabled
              && pathEscapesSandbox (drivers.Dir (drivers.taskDir cfg)) paths0 then
             throw (errorString
               "bind-mount path escapes task directory but volumes are disabled")
           else mret paths0);
      (* LXC assumes paths are relative with respect to rootfs *)
      paths1 ← index paths 1;
      let target := GoStrings.TrimLeft paths1 "/" in
      mode ← index paths 2;
      pathType ← index paths 3;
      mountEntries_volumes cfg volumesEnabled rest
        (mounts ++ [source +:+ " " +:+ target +:+ " none " +:+ mode
                      +:+ ",bind,create=" +:+ pathType])
  end.

(** [mountEntries] computes the mount entries to be set on the
    container. *)
Definition mountEntries (cfg : drivers.TaskConfig) (taskConfig : TaskConfig.t)
  : M (list string) :=
  (* Bind mount the shared alloc dir and task local dir in the container *)
  let mounts := [
    drivers.LocalDir (drivers.taskDir cfg) +:+ " local none rw,bind,create=dir";
    drivers.SharedAllocDir (drivers.taskDir cfg) +:+ " alloc none rw,bind,create=dir";
    drivers.SecretsDir (drivers.taskDir cfg) +:+ " secrets none rw,bind,create=dir" ] in
  taskMounts ← formatTaskMounts (drivers.Mounts cfg);
  let mounts := mounts ++ taskMounts in
  taskDevices ← formatTaskDevices (drivers.Devices cfg);
  let mounts := mounts ++ taskDevices in
  let volumesEnabled := Config.AllowVolumes config in
  mountEntries_volumes cfg volumesEnabled (TaskConfig.Volumes taskConfig) mounts.

Fixpoint devicesCgroupEntries_loop (devices : list drivers.DeviceConfig)
  : M (list string) :=
  match devices with
  | [] => mret []
  | d :: rest =>
      match DeviceFromPath host (drivers.device_HostPath d)
                           (drivers.device_Permissions d) with
      | inr err => throw err
      | inl cgroupString =>
          entries ← devicesCgroupEntries_loop rest;
          mret (cgroupString :: entries)
      end
  end.

Definition devicesCgroupEntries (cfg : drivers.TaskConfig) : M (list string) :=
  devicesCgroupEntries_loop (drivers.Devices cfg).

(** [for _, x := range xs { if err := c.SetConfigItem(key, x); err != nil
    { return wrap(x, err) } }] *)
Fixpoint setConfigItems (c : lxc.Container) (key : string)
    (wrap : string → error → error) (xs : list string) : M unit :=
  match xs with
  | [] => mret tt
  | x :: rest =>
      orReturn (on c (lxc.SetConfigItem key x)) (wrap x);;
      setConfigItems c key wrap rest
  end.

Definition mountVolumes (c : lxc.Container) (cfg : drivers.TaskConfig)
    (taskConfig : TaskConfig.t) : M unit :=
  mounts ← mountEntries cfg taskConfig;
  devCgroupAllows ← devicesCgroupEntries cfg;
  setConfigItems c "lxc.mount.entry"
    (λ mnt, Errorf ("error setting bind mount " +:+ Sprintf_q mnt +:+ " error: "))
    mounts;;
  setConfigItems c "lxc.cgroup.devices.allow"
    (λ cgroupDev,
       Errorf ("error setting cgroup permission " +:+ Sprintf_q cgroupDev +:+ " error: "))
    devCgroupAllows.

(** *** Resource limits *)

Definition setResourceLimits (c : lxc.Container) (cfg : drivers.TaskConfig) : M unit :=
  let memoryMB := drivers.MemoryMB (drivers.resources cfg) in
  let cpuShares := drivers.CPUShares (drivers.resources cfg) in
  err ← on c (lxc.SetCgroupItem "memory.max" (Sprintf_f (memoryBytes memoryMB)));
  match err with
  | Some _ =>
      orReturn (on c (lxc.SetMemoryLimit (memoryBytes memoryMB)))
               (Errorf "unable to set memory limits: ")
  | None => mret tt
  end;;
  err ← on c (lxc.SetCgroupItem "cpu.weight" (GoStrings.FormatInt cpuShares));
  match err with
  | Some _ =>
      orReturn (on c (lxc.SetCgroupItem "cpu.shares" (GoStrings.FormatInt cpuShares)))
               (Errorf "unable to set cpu shares: ")
  | None => mret tt
  end.

Definition toLXCCreateOptions (taskConfig : TaskConfig.t) : lxc.TemplateOptions :=
  {| lxc.Template := TaskConfig.Template taskConfig;
     lxc.Distro := TaskConfig.Distro taskConfig;
     lxc.Release := TaskConfig.Release taskConfig;
     lxc.Arch := TaskConfig.Arch taskConfig;
     lxc.FlushCache := TaskConfig.FlushCache taskConfig;
     lxc.DisableGPGValidation := TaskConfig.DisableGPGValidation taskConfig;
     lxc.ExtraArgs := TaskConfig.TemplateArgs taskConfig |}.

(** *** [lxc/driver.go] *)

(** The closure [cleanup] of [StartTask]. *)
Definition cleanup (c : lxc.Container) : M unit :=
  running ← Running c;
  (if (running : bool) then
     err ← on c lxc.Stop;
     match err with
     | Some _ => log Error_ "failed to Stop during clean up from an error in Start"
     | None => mret tt
     end
   else mret tt : M unit);;
  err ← on c lxc.Destroy;
  match err with
  | Some _ => log Error_ "failed to Destroy during clean up from an error in Start"
  | None => mret tt
  end.

(** [if err := m; err != nil { handler(err) }] where the handler
    returns from the function. *)
Definition orElse {A} (m : M A) (handler : error → M A) : M A :=
  r ← catch m;
  match r with
  | inl a => mret a
  | inr err => handler err
  end.

Definition StartTask (cfg : drivers.TaskConfig) : M (drivers.TaskHandle Blob) :=
  found ← taskStore_Get (drivers.ID cfg);
  match found with
  | Some _ =>
      throw (errorString
        ("task with ID " +:+ Sprintf_q (drivers.ID cfg) +:+ " already started"))
  | None =>
      match DecodeDriverConfig host cfg with
      | inr err => throw (Errorf "failed to decode driver config: " err)
      | inl driverConfig =>
          log Info "starting lxc task driver";;
          log Info "starting lxc task";;
          c ← orElse (initializeContainer cfg driverConfig)
                (λ err, log Error_ "failed to initializeContainer";; throw err);
          let opt := toLXCCreateOptions driverConfig in
          orReturn (on c (lxc.Create opt)) (λ err, NewRecoverableError err true);;
          orElse (configureContainerNetwork c driverConfig)
            (λ err, cleanup c;; throw err);;
          orElse (mountVolumes c cfg driverConfig)
            (λ err, log Error_ "failed to mountVolumes";; cleanup c;; throw err);;
          orElse (orReturn (on c (lxc.StartExecute (TaskConfig.Command driverConfig))) id)
            (λ err, cleanup c;; throw (Errorf "unable to start container: err " err));;
          orElse (setResourceLimits c cfg)
            (λ err, cleanup c;; throw err);;
          pid ← InitPid c;
          now ← time_Now;
          let h := {| container := c;
                      initPid := pid;
                      taskConfig := cfg;
                      procState := drivers.TaskStateRunning;
                      startedAt := Round now time_Millisecond;
                      exitResult := None |} in
          let driverState := {| ContainerName := lxc.Name c;
                                TaskState_TaskConfig := cfg;
                                StartedAt := startedAt h |} in
          match MsgPackEncode host driverState with
          | inr err =>
              log Error_ "failed to start task, error setting driver state";;
              cleanup c;;
              throw (Errorf "failed to set driver state: " err)
          | inl blob =>
              let handle := {| drivers.Version := taskHandleVersion;
                               drivers.Config := cfg;
                               drivers.DriverState := Some blob |} in
              taskStore_Set (drivers.ID cfg) h;;
              go_run h;;
              mret handle
          end
      end
  end.

(** [RecoverTask].  The source reads [handle.Config.ID] and the ID of
    the [TaskConfig] of the decoded state without a nil check: this is
    the function on the handles and states that carry them. *)
Definition RecoverTask (handle : option (drivers.TaskHandle Blob)) : M unit :=
  log Info "recover lxc task";;
  match handle with
  | None => throw (errorString "error: handle cannot be nil")
  | Some handle =>
      (* COMPAT(0.10): pre 0.9 upgrade path check *)
      if drivers.Version handle =? 0 then recoverPre09Task host handle
      else
        found ← taskStore_Get (drivers.ID (drivers.Config handle));
        match found with
        | Some _ => mret tt
        | None =>
            match
              match drivers.DriverState handle with
              | Some blob => MsgPackDecode host blob
              | None => inr (errorString "EOF")
              end
            with
            | inr err => throw (Errorf "failed to decode task state from handle: " err)
            | inl taskState =>
                r ← NewContainer (ContainerName taskState) lxcPath;
                match r with
                | inr err => throw (Errorf "failed to create container ref: " err)
                | inl c =>
                    initPid ← InitPid c;
                    let h := {| container := c;
                                initPid := initPid;
                                taskConfig := TaskState_TaskConfig taskState;
                                procState := drivers.TaskStateRunning;
                                startedAt := StartedAt taskState;
                                exitResult := Some drivers.emptyExitResult |} in
                    taskStore_Set (drivers.ID (TaskState_TaskConfig taskState)) h;;
                    go_run h;;
                    mret tt
                end
            end
        end
  end.

Definition DestroyTask (taskID : string) (force : bool) : M unit :=
  log Info "destory lxc task";;
  found ← taskStore_Get taskID;
  match found with
  | None => throw ErrTaskNotFound
  | Some handle =>
      running ← handle_IsRunning handle;
      if running && negb force then
        log Info "destroy lxc task";;
        throw (errorString "cannot destroy running task")
      else
        running ← handle_IsRunning handle;
        (if (running : bool) then
           (* grace period is chosen arbitrary here *)
           err ← handle_shutdown handle (1 * time_Minute);
           match err with
           | Some _ => log Info "destory lxc task";; log Error_ "failed to destroy executor"
           | None => mret tt
           end
         else mret tt : M unit);;
        log Info "Destroying container";;
        (* delete the container itself *)
        err ← on (container handle) lxc.Destroy;
        match err with
        | Some _ =>
            log Info "destory lxc task";; log Error_ "failed to destroy lxc container"
        | None => mret tt
        end;;
        (* finally cleanup task map *)
        taskStore_Delete taskID;;
        mret tt
  end.

End Driver.

Arguments Host : clear implicits.

(** ** A concrete host

    A Unix host whose runtime answers by the call alone: [fails] gives the
    error of each call, [running] what [Running()] and [IsRunning()] answer.
    Driver state is encoded as itself. *)

Definition unix_host (fails : call → option error) (running : bool)
    (driverConfig : TaskConfig.t) : Host TaskState :=
  {| lxc_DefaultConfigPath := "/var/lib/lxc";
     lxc_VersionAtLeast_2_1_0 := true;
     lxc_reply := λ _ c, fails c;
     lxc_Running := λ _ _, running;
     lxc_InitPid := λ _ _, 4242;
     IsRunning := λ _ _, running;
     Now := λ _, 1700000000123456789;
     filepath_Join := GoFilepath.Join;
     filepath_Rel := GoFilepath.Rel;
     os_Stat := λ _, Some true;
     DeviceFromPath := λ path perms, inl ("c 1:3 " +:+ perms);
     DecodeDriverConfig := λ _, inl driverConfig;
     MsgPackEncode := inl;
     MsgPackDecode := inl;
     recoverPre09Task := λ _, throw (errorString "not supported") |}.

Definition never_fails : call → option error := λ _, None.

Definition example_config : Config.t :=
  {| Config.Enabled := true;
     Config.AllowVolumes := false;
     Config.DefaultConfig := "/etc/lxc/default.conf";
     Config.LXCPath := "";
     Config.NetworkMode := "bridge";
     Config.GC_Container := true |}.

Definition example_cfg : drivers.TaskConfig :=
  {| drivers.ID := "alloc-123/web";
     drivers.Name := "web";
     drivers.AllocID := "123";
     drivers.Env := [("PORT", "8080")];
     drivers.resources := {| drivers.MemoryMB := 256; drivers.CPUShares := 512 |};
     drivers.Mounts := [];
     drivers.Devices := [];
     drivers.taskDir := {| drivers.Dir := "/alloc/123/web";
                           drivers.LocalDir := "/alloc/123/web/local";
                           drivers.SharedAllocDir := "/alloc/123/alloc";
                           drivers.SecretsDir := "/alloc/123/web/secrets" |} |}.

Definition example_taskConfig (verbosity logLevel networkMode : string)
    (volumes : list string) : TaskConfig.t :=
  {| TaskConfig.Template := "/usr/share/lxc/templates/lxc-busybox";
     TaskConfig.Distro := "";
     TaskConfig.Release := "";
     TaskConfig.Arch := "";
     TaskConfig.ImageVariant := "";
     TaskConfig.ImageServer := "";
     TaskConfig.GPGKeyID := "";
     TaskConfig.GPGKeyServer := "";
     TaskConfig.DisableGPGValidation := false;
     TaskConfig.FlushCache := false;
     TaskConfig.ForceCache := false;
     TaskConfig.TemplateArgs := [];
     TaskConfig.LogLevel := logLevel;
     TaskConfig.Verbosity := verbosity;
     TaskConfig.Volumes := volumes;
     TaskConfig.NetworkMode := networkMode;
     TaskConfig.DefaultConfig := "";
     TaskConfig.Command := ["/bin/sleep"; "100"];
     TaskConfig.Environment := ["A=1"];
     TaskConfig.Cgroup := "nomad";
     TaskConfig.PortMap := [] |}.

Definition empty_world : world := {| calls := []; logs := []; tasks := ∅ |}.

Definition outcome {A} (r : res A * world) : res A * list call * list (level * string) :=
  (r.1, calls r.2, logs r.2).

(** ** Reading a run *)

(** The world [w] after the calls [cs] were made, nothing else changed. *)
Definition extend (w : world) (cs : list call) : world :=
  {| calls := calls w ++ cs; logs := logs w; tasks := tasks w |}.

(** The calls made between two worlds of one run. *)
Definition issued (w w' : world) : list call := drop (length (calls w)) (calls w').

Section Reading.

Context {Blob : Type}.
Variable host : Host Blob.
Variable config : Config.t.

(** Every call of [cs], made in order after the history [hist], returns
    a nil error. *)
Fixpoint accepted (hist : list call) (cs : list call) : bool :=
  match cs with
  | [] => true
  | c :: rest =>
      match lxc_reply host hist c with
      | None => accepted (hist ++ [c]) rest
      | Some _ => false
      end
  end.

(** The network mode in force for a task: the task-level value when it
    is not empty, else the driver-level default. *)
Definition resolved_mode (taskConfig : TaskConfig.t) : string :=
  if String.eqb (TaskConfig.NetworkMode taskConfig) ""
  then Config.NetworkMode config
  else TaskConfig.NetworkMode taskConfig.

(** A limit is tried on the modern key first and on the legacy one only
    if that fails: the calls made and the error left at the end. *)
Definition two_tier (hist : list call) (modern legacy : call)
  : option error * list call :=
  match lxc_reply host hist modern with
  | None => (None, [modern])
  | Some _ => (lxc_reply host (hist ++ [modern]) legacy, [modern; legacy])
  end.

(** *** What a run of [StartTask] shows *)

(** The container [StartTask] works on. *)
Definition taskContainer (cfg : drivers.TaskConfig) : lxc.Container :=
  {| lxc.Name := drivers.Name cfg +:+ "-" +:+ drivers.AllocID cfg;
     lxc.ConfigPath := lxcPath host config |}.

(** Among the calls [new] made after [hist], a [Create] returned nil:
    the container exists. *)
Fixpoint create_succeeded (hist new : list call) : bool :=
  match new with
  | [] => false
  | x :: rest =>
      match x, lxc_reply host hist x with
      | lxc_method _ (lxc.Create _), None => true
      | _, _ => create_succeeded (hist ++ [x]) rest
      end
  end.

(** The rollback from the history [hist]: ask whether the container
    runs, stop it if it does, destroy it. *)
Definition rollback_calls (hist : list call) (c : lxc.Container) : list call :=
  lxc_method c lxc.Running
    :: (if lxc_Running host hist c then [lxc_method c lxc.Stop] else [])
    ++ [lxc_method c lxc.Destroy].

(** What the rollback writes to the log: one line per failed step. *)
Definition rollback_logs (hist : list call) (c : lxc.Container)
  : list (level * string) :=
  let asked := hist ++ [lxc_method c lxc.Running] in
  let stopped :=
    if lxc_Running host hist c then asked ++ [lxc_method c lxc.Stop] else asked in
  (if lxc_Running host hist c then
     match lxc_reply host asked (lxc_method c lxc.Stop) with
     | Some _ => [(Error_, "failed to Stop during clean up from an error in Start")]
     | None => []
     end
   else [])
  ++ match lxc_reply host stopped (lxc_method c lxc.Destroy) with
     | Some _ => [(Error_, "failed to Destroy during clean up from an error in Start")]
     | None => []
     end.

(** The run from [w] to [w'] ends with the rollback of [c], started in
    some world [w2] the run went through. *)
Definition rolled_back (c : lxc.Container) (w w' : world) : Prop :=
  ∃ w2, (∃ pre, calls w2 = calls w ++ pre)
        ∧ calls w' = calls w2 ++ rollback_calls (calls w2) c
        ∧ logs w' = logs w2 ++ rollback_logs (calls w2) c.

(** The error [e] is the one a step of [StartTask] after the create
    step returns: network configuration, mount and device set-up, the
    start of the init process, the resource limits, or the encoding of
    the driver state.  For the third and the last, [StartTask] puts its
    own words before the message of the error. *)
Definition failed_step (cfg : drivers.TaskConfig) (dc : TaskConfig.t)
    (c : lxc.Container) (e : error) : Prop :=
  (∃ w w', configureContainerNetwork host config c dc w = (Err e, w'))
  ∨ (∃ w w', mountVolumes host config c cfg dc w = (Err e, w'))
  ∨ (∃ hist err,
       lxc_reply host hist (lxc_method c (lxc.StartExecute (TaskConfig.Command dc)))
       = Some err
       ∧ e = Errorf "unable to start container: err " err)
  ∨ (∃ w w', setResourceLimits host c cfg w = (Err e, w'))
  ∨ (∃ st err, MsgPackEncode host st = inr err
               ∧ e = Errorf "failed to set driver state: " err).

(** The host that answers [Stop] and [Destroy] by [f] and everything
    else as [host] does. *)
Definition with_rollback_replies (f : list call → call → option error) : Host Blob :=
  {| lxc_DefaultConfigPath := lxc_DefaultConfigPath host;
     lxc_VersionAtLeast_2_1_0 := lxc_VersionAtLeast_2_1_0 host;
     lxc_reply := λ hist c,
       match c with
       | lxc_method _ lxc.Stop | lxc_method _ lxc.Destroy => f hist c
       | _ => lxc_reply host hist c
       end;
     lxc_Running := lxc_Running host;
     lxc_InitPid := lxc_InitPid host;
     IsRunning := IsRunning host;
     Now := Now host;
     filepath_Join := filepath_Join host;
     filepath_Rel := filepath_Rel host;
     os_Stat := os_Stat host;
     DeviceFromPath := DeviceFromPath host;
     DecodeDriverConfig := DecodeDriverConfig host;
     MsgPackEncode := MsgPackEncode host;
     MsgPackDecode := MsgPackDecode host;
     recoverPre09Task := recoverPre09Task host |}.

(** *** The calls of the set-up helpers *)

Definition networkItem (c : lxc.Container) (k v : string) : call :=
  lxc_method c (lxc.SetConfigItem (networkTypeConfigPrefix host +:+ k) v).

Definition bridgeItems (c : lxc.Container) : list call :=
  [networkItem c "type" "veth"; networkItem c "link" "lxcbr0";
   networkItem c "flags" "up"].

Definition cgroupItem (c : lxc.Container) (k v : string) : call :=
  lxc_method c (lxc.SetCgroupItem k v).

Definition environmentItems (c : lxc.Container) (envs : list string) : list call :=
  map (λ env, lxc_method c (lxc.SetConfigItem "lxc.environment" env)) envs.

(** The base configuration file of a task: its own when given, else the
    global one. *)
Definition baseConfigFile (taskConfig : TaskConfig.t) : string :=
  if String.eqb (TaskConfig.DefaultConfig taskConfig) ""
  then Config.DefaultConfig config
  else TaskConfig.DefaultConfig taskConfig.

(** The settings of a task, in the order [initializeContainer] applies
    them once verbosity [v] and log level [l] are chosen. *)
Definition taskSettings (cfg : drivers.TaskConfig) (taskConfig : TaskConfig.t)
    (v : lxc.Verbosity) (l : lxc.LogLevel) : list call :=
  let c := taskContainer cfg in
  [lxc_method c (lxc.SetVerbosity v);
   lxc_method c (lxc.SetLogLevel l);
   lxc_method c (lxc.SetLogFile
     (filepath_Join host (drivers.Dir (drivers.taskDir cfg))
                    (drivers.Name cfg +:+ "-lxc.log")));
   lxc_method c (lxc.SetConfigItem "lxc.cgroup.dir" (TaskConfig.Cgroup taskConfig))]
  ++ environmentItems c (TaskConfig.Environment taskConfig)
  ++ environmentItems c (map (λ kv, kv.1 +:+ "=" +:+ kv.2) (drivers.Env cfg)).

(** *** Volumes *)

(** [paths[i]] of a volume string, empty when there is no such field. *)
Definition volume_field (volDesc : string) (i : nat) : string :=
  default "" (GoStrings.Split volDesc ":" !! i).

(** A volume string has the four fields [source:target:mode:type]. *)
Definition wellformed_volume (volDesc : string) : bool :=
  bool_decide (4 ≤ length (GoStrings.Split volDesc ":"))%nat.

(** The path of [source] relative to the task directory begins with
    two dots. *)
Definition needs_upward_traversal (cfg : drivers.TaskConfig) (source : string) : bool :=
  let dir := drivers.Dir (drivers.taskDir cfg) in
  match filepath_Rel host dir (filepath_Join host dir source) with
  | Some rel => GoStrings.HasPrefix rel ".."
  | None => false
  end.

(** The volume is refused when volumes are disabled. *)
Definition volume_refused (cfg : drivers.TaskConfig) (volDesc : string) : bool :=
  let source := volume_field volDesc 0 in
  let dir := drivers.Dir (drivers.taskDir cfg) in
  GoFilepath.IsAbs source
  || pathEscapesSandbox host dir (filepath_Join host dir source).

(** The mount entry of an accepted volume. *)
Definition volume_entry (cfg : drivers.TaskConfig) (volDesc : string) : string :=
  let source := volume_field volDesc 0 in
  let source :=
    if GoFilepath.IsAbs source then source
    else filepath_Join host (drivers.Dir (drivers.taskDir cfg)) source in
  source +:+ " " +:+ GoStrings.TrimLeft (volume_field volDesc 1) "/" +:+ " none "
    +:+ volume_field volDesc 2 +:+ ",bind,create=" +:+ volume_field volDesc 3.

End Reading.

(** The base file is loaded before every setting of the task: no call
    that sets verbosity, log level, log file or a configuration item comes
    before the first [LoadConfigFile]. *)
Fixpoint load_before_settings (cs : list call) : bool :=
  match cs with
  | [] => true
  | lxc_method _ (lxc.LoadConfigFile _) :: _ => true
  | lxc_method _ (lxc.SetVerbosity _) :: _
  | lxc_method _ (lxc.SetLogLevel _) :: _
  | lxc_method _ (lxc.SetLogFile _) :: _
  | lxc_method _ (lxc.SetConfigItem _ _) :: _ => false
  | _ :: rest => load_before_settings rest
  end.

Definition is_Create (x : call) : bool :=
  match x with
  | lxc_method _ (lxc.Create _) => true
  | _ => false
  end.

Definition is_rollback (x : call) : bool :=
  match x with
  | lxc_method _ lxc.Stop | lxc_method _ lxc.Destroy => true
  | _ => false
  end.

(** Both enumerated options of a task have a value of their table. *)
Definition enums_valid (taskConfig : TaskConfig.t) : Prop :=
  is_Some (verbosityLevels !! TaskConfig.Verbosity taskConfig)
  ∧ is_Some (logLevels !! TaskConfig.LogLevel taskConfig).

(** The accepted option values. *)
Definition verbosities : list string := [""; "quiet"; "verbose"].
Definition logLevelNames : list string := [""; "trace"; "debug"; "info"; "warn"; "error"].

Definition verbosityError : error :=
  errorString "lxc driver config 'verbosity' can only be either quiet or verbose".
Definition logLevelError : error :=
  errorString "lxc driver config 'log_level' can only be trace, debug, info, warn or error".

(** ** Invariants of runs *)

(** From [w] to [w'] the task store is untouched and the trace only grows,
    by calls that satisfy [P]. *)
Definition advances (P : call → Prop) (w w' : world) : Prop :=
  tasks w' = tasks w ∧ ∃ new, calls w' = calls w ++ new ∧ Forall P new.

(** A computation that advances the world whatever it returns. *)
Definition steady {A} (P : call → Prop) (m : M A) : Prop :=
  ∀ w, advances P w (m w).2.

(** A steady computation that never panics. *)
Definition tame {A} (P : call → Prop) (m : M A) : Prop :=
  ∀ w, advances P w (m w).2 ∧ ∀ msg, (m w).1 ≠ Panic msg.

(** Calls that neither create, stop nor destroy a container. *)
Definition harmless (x : call) : Prop := is_Create x = false ∧ is_rollback x = false.

Definition any_call (x : call) : Prop := True.

(** A task configuration [StartTask] cannot start: an option outside its
    table, a network mode that is neither host nor bridge, or, with
    volumes disabled, a well-formed volume list with a refused volume. *)
Definition invalid_config {Blob} (host : Host Blob) (config : Config.t)
    (cfg : drivers.TaskConfig) (dc : TaskConfig.t) : Prop :=
  TaskConfig.Verbosity dc ∉ verbosities
  ∨ TaskConfig.LogLevel dc ∉ logLevelNames
  ∨ (resolved_mode config dc ≠ "host" ∧ resolved_mode config dc ≠ "bridge")
  ∨ (Config.AllowVolumes config = false
     ∧ Forall (λ v, wellformed_volume v = true) (TaskConfig.Volumes dc)
     ∧ Exists (λ v, volume_refused host cfg v = true) (TaskConfig.Volumes dc)).

(** ** More hosts for the examples *)

(** [Stop] and [Destroy] fail, everything else succeeds. *)
Definition rollback_fails : call → option error := λ x,
  if is_rollback x then Some (errorString "device or resource busy") else None.

(** A host without the unified cgroup hierarchy: the modern keys are
    rejected. *)
Definition modern_keys_fail : call → option error := λ x,
  match x with
  | lxc_method _ (lxc.SetCgroupItem key _) =>
      if String.eqb key "memory.max" || String.eqb key "cpu.weight"
      then Some (errorString "no such file or directory") else None
  | _ => None
  end.

Definition example_container : lxc.Container :=
  {| lxc.Name := "web-123"; lxc.ConfigPath := "/var/lib/lxc" |}.

Definition with_memory (cfg : drivers.TaskConfig) (memoryMB : Z) : drivers.TaskConfig :=
  {| drivers.ID := drivers.ID cfg;
     drivers.Name := drivers.Name cfg;
     drivers.AllocID := drivers.AllocID cfg;
     drivers.Env := drivers.Env cfg;
     drivers.resources := {| drivers.MemoryMB := memoryMB;
                             drivers.CPUShares := drivers.CPUShares (drivers.resources cfg) |};
     drivers.Mounts := drivers.Mounts cfg;
     drivers.Devices := drivers.Devices cfg;
     drivers.taskDir := drivers.taskDir cfg |}.

Definition volumes_enabled (config : Config.t) : Config.t :=
  {| Config.Enabled := Config.Enabled config;
     Config.AllowVolumes := true;
     Config.DefaultConfig := Config.DefaultConfig config;
     Config.LXCPath := Config.LXCPath config;
     Config.NetworkMode := Config.NetworkMode config;
     Config.GC_Container := Config.GC_Container config |}.

Definition example_handle : taskHandle :=
  {| container := example_container;
     initPid := 4242;
     taskConfig := example_cfg;
     procState := drivers.TaskStateRunning;
     startedAt := 1700000000123000000;
     exitResult := None |}.



(** A driver that has the example task registered. *)
Definition world_with_task : world :=
  {| calls := []; logs := []; tasks := {[ drivers.ID example_cfg := example_handle ]} |}.

(** ** The rest of the driver

    [StopTask] and [buildFingerprint] of [lxc/driver.go], and the monitor
    loop [waitTillStopped]. *)

(** [drivers.HealthState] *)
Inductive HealthState : Type :=
| HealthStateUndetected | HealthStateUnhealthy | HealthStateHealthy.

(** [pstructs.Attribute], with the two constructors the driver uses. *)
Inductive Attribute : Type :=
| NewBoolAttribute (b : bool)
| NewStringAttribute (s : string).

(** [drivers.Fingerprint] *)
Record Fingerprint : Type := {
  Attributes : gmap string Attribute;
  Health : HealthState;
  HealthDescription : string;
}.

(** [containerMonitorIntv] is the interval at which the driver checks if
    the container is still alive, in nanoseconds. *)
Definition time_Second : Z := 1000000000.
Definition containerMonitorIntv : Z := 2 * time_Second.

(** What the monitor loop has done so far: the number of signals sent and
    the time spent asleep. *)
Record monitor : Type := { probes : nat; slept : Z }.

Section Plugin.

Context {Blob : Type}.
Variable host : Host Blob.
Variable config : Config.t.

(** [lxcVersion] is what [lxc.Version()] returns. *)
Definition buildFingerprint (lxcVersion : string) : Fingerprint :=
  let attrs : gmap string Attribute := ∅ in
  let '(health, desc, attrs) :=
    if Config.Enabled config && negb (String.eqb lxcVersion "") then
      (HealthStateHealthy, "ready",
       <[ "driver.lxc.version" := NewStringAttribute lxcVersion ]>
         (<[ "driver.lxc" := NewBoolAttribute true ]> attrs))
    else (HealthStateUndetected, "disabled", attrs) in
  let attrs :=
    if Config.AllowVolumes config
    then <[ "driver.lxc.volumes.enabled" := NewBoolAttribute true ]> attrs
    else attrs in
  {| Attributes := attrs; Health := health; HealthDescription := desc |}.

Definition StopTask (taskID : string) (timeout : Z) (signal : string) : M unit :=
  log Info "stop lxc task";;
  found ← taskStore_Get taskID;
  match found with
  | None => throw ErrTaskNotFound
  | Some handle =>
      err ← handle_shutdown host handle timeout;
      match err with
      | Some e =>
          log Info "stop lxc task";;
          throw (Errorf "executor Shutdown failed: " e)
      | None => mret tt
      end
  end.

(** *** The monitor loop

    [FindProcess] is [os.FindProcess]; [Signal pid n] is what
    [ps.Signal(syscall.Signal(0))] returns when [n] signals were sent
    before.  The loop has no exit but its [return]: [fuel] bounds the
    number of rounds looked at, and [None] says that the loop is still
    running after them. *)
Variable FindProcess : Z → option error.
Variable Signal : Z → nat → option error.

Fixpoint waitTillStopped_loop (fuel : nat) (pid : Z) (s : monitor)
  : option (bool * option error) * monitor :=
  match fuel with
  | O => (None, s)
  | S fuel =>
      match Signal pid (probes s) with
      | Some _ => (Some (true, None), {| probes := S (probes s); slept := slept s |})
      | None =>
          (* time.Sleep(containerMonitorIntv) *)
          waitTillStopped_loop fuel pid
            {| probes := S (probes s); slept := slept s + containerMonitorIntv |}
      end
  end.

Definition waitTillStopped (fuel : nat) (c : lxc.Container)
  : M (option (bool * option error) * monitor) :=
  pid ← InitPid host c;
  let s := {| probes := 0; slept := 0 |} in
  match FindProcess pid with
  | Some err => mret (Some (false, Some err), s)
  | None => mret (waitTillStopped_loop fuel pid s)
  end.

End Plugin.

(** ** Reading more runs *)

Definition logged (l : level) (msg : string) (w : world) : world :=
  {| calls := calls w; logs := logs w ++ [(l, msg)]; tasks := tasks w |}.

Definition stored (id : string) (h : taskHandle) (w : world) : world :=
  {| calls := calls w; logs := logs w; tasks := <[id := h]> (tasks w) |}.

Definition is_spawn (x : call) : bool :=
  match x with
  | spawned_run _ => true
  | _ => false
  end.

(** A method that sets an option, a configuration item or a limit of a
    container. *)
Definition is_setting (m : lxc.method) : bool :=
  match m with
  | lxc.SetVerbosity _ | lxc.SetLogLevel _ | lxc.SetLogFile _ | lxc.SetConfigItem _ _
  | lxc.LoadConfigFile _ | lxc.SetCgroupItem _ _ | lxc.SetMemoryLimit _ => true
  | _ => false
  end.

Section Planning.

Context {Blob : Type}.
Variable host : Host Blob.
Variable config : Config.t.

(** *** Mount entries *)

(** The type [formatMount] gives to a host path: a file only when the
    path is found and is not a directory. *)
Definition mount_type (hostPath : string) : string :=
  match os_Stat host hostPath with
  | Some false => "file"
  | _ => "dir"
  end.

Definition mount_entry (hostPath taskPath : string) (readOnly : bool) : string :=
  hostPath +:+ " " +:+ GoStrings.TrimLeft taskPath "/" +:+ " none "
    +:+ (if readOnly then "ro" else "rw") +:+ ",bind,create=" +:+ mount_type hostPath.

Definition fixedMounts (cfg : drivers.TaskConfig) : list string :=
  [drivers.LocalDir (drivers.taskDir cfg) +:+ " local none rw,bind,create=dir";
   drivers.SharedAllocDir (drivers.taskDir cfg) +:+ " alloc none rw,bind,create=dir";
   drivers.SecretsDir (drivers.taskDir cfg) +:+ " secrets none rw,bind,create=dir"].

Definition taskMountEntries (cfg : drivers.TaskConfig) : list string :=
  map (λ m, mount_entry (drivers.mount_HostPath m) (drivers.mount_TaskPath m)
              (drivers.mount_Readonly m))
      (drivers.Mounts cfg).

Definition taskDeviceEntries (cfg : drivers.TaskConfig) : list string :=
  map (λ d, mount_entry (drivers.device_HostPath d) (drivers.device_TaskPath d)
              (negb (GoStrings.Contains (drivers.device_Permissions d) "w")))
      (drivers.Devices cfg).

(** The mount entries of a task whose volumes are all accepted: the
    three directories of the task, its mounts, its devices, its
    volumes. *)
Definition plannedMounts (cfg : drivers.TaskConfig) (tc : TaskConfig.t) : list string :=
  fixedMounts cfg ++ taskMountEntries cfg ++ taskDeviceEntries cfg
    ++ map (volume_entry host cfg) (TaskConfig.Volumes tc).

Definition absoluteVolumeError : error :=
  errorString "absolute bind-mount volume in config but volumes are disabled".
Definition escapingVolumeError : error :=
  errorString "bind-mount path escapes task directory but volumes are disabled".

(** The device [d] resolves to the cgroup rule [entry]. *)
Definition device_resolves (d : drivers.DeviceConfig) (entry : string) : Prop :=
  DeviceFromPath host (drivers.device_HostPath d) (drivers.device_Permissions d)
  = inl entry.

(** *** The calls of [mountVolumes] *)

Definition mountItem (c : lxc.Container) (mnt : string) : call :=
  lxc_method c (lxc.SetConfigItem "lxc.mount.entry" mnt).

Definition deviceItem (c : lxc.Container) (cgroupDev : string) : call :=
  lxc_method c (lxc.SetConfigItem "lxc.cgroup.devices.allow" cgroupDev).

Definition mountError (mnt : string) : error → error :=
  Errorf ("error setting bind mount " +:+ Sprintf_q mnt +:+ " error: ").

Definition deviceError (cgroupDev : string) : error → error :=
  Errorf ("error setting cgroup permission " +:+ Sprintf_q cgroupDev +:+ " error: ").

(** *** The calls of the other steps of [StartTask] *)

Definition networkItems (c : lxc.Container) (dc : TaskConfig.t) : list call :=
  if String.eqb (resolved_mode config dc) "host"
  then [networkItem host c "type" "none"]
  else bridgeItems host c.

(** The calls of [setResourceLimits] after the history [hist]. *)
Definition limitItems (c : lxc.Container) (cfg : drivers.TaskConfig) (hist : list call)
  : list call :=
  let bytes := memoryBytes (drivers.MemoryMB (drivers.resources cfg)) in
  let cpuShares := GoStrings.FormatInt (drivers.CPUShares (drivers.resources cfg)) in
  let mem := two_tier host hist (cgroupItem c "memory.max" (GoStrings.FormatInt bytes))
               (lxc_method c (lxc.SetMemoryLimit bytes)) in
  let cpu := two_tier host (hist ++ mem.2) (cgroupItem c "cpu.weight" cpuShares)
               (cgroupItem c "cpu.shares" cpuShares) in
  mem.2 ++ cpu.2.

Definition createCall (cfg : drivers.TaskConfig) (dc : TaskConfig.t) : call :=
  lxc_method (taskContainer host config cfg) (lxc.Create (toLXCCreateOptions dc)).

Definition startCall (cfg : drivers.TaskConfig) (dc : TaskConfig.t) : call :=
  lxc_method (taskContainer host config cfg) (lxc.StartExecute (TaskConfig.Command dc)).

(** The calls of [initializeContainer] when it succeeds. *)
Definition initItems (cfg : drivers.TaskConfig) (dc : TaskConfig.t)
    (v : lxc.Verbosity) (l : lxc.LogLevel) : list call :=
  let c := taskContainer host config cfg in
  [lxc_NewContainer (lxc.Name c) (lxc.ConfigPath c)]
  ++ taskSettings host config cfg dc v l
  ++ [lxc_method c (lxc.LoadConfigFile (baseConfigFile config dc))].

(** The calls of [StartTask] up to the start of the init process, when
    the devices of the task resolve to the cgroup rules [ds]. *)
Definition setupItems (cfg : drivers.TaskConfig) (dc : TaskConfig.t)
    (v : lxc.Verbosity) (l : lxc.LogLevel) (ds : list string) : list call :=
  let c := taskContainer host config cfg in
  initItems cfg dc v l
  ++ [createCall cfg dc]
  ++ networkItems c dc
  ++ map (mountItem c) (plannedMounts cfg dc)
  ++ map (deviceItem c) ds
  ++ [startCall cfg dc].

(** *** The stages of [StartTask] *)

(** The world in which [StartTask] initializes the container. *)
Definition announced (w : world) : world :=
  logged Info "starting lxc task" (logged Info "starting lxc task driver" w).

(** The run from [w] has the container reference in the world [w1]. *)
Definition reached_create (cfg : drivers.TaskConfig) (w : world)
    (dc : TaskConfig.t) (w1 : world) : Prop :=
  tasks w !! drivers.ID cfg = None
  ∧ DecodeDriverConfig host cfg = inl dc
  ∧ initializeContainer host config cfg dc (announced w)
    = (Ok (taskContainer host config cfg), w1).

(** ... has created the container, ... *)
Definition reached_network (cfg : drivers.TaskConfig) (w : world)
    (dc : TaskConfig.t) (w2 : world) : Prop :=
  ∃ w1, reached_create cfg w dc w1
        ∧ lxc_reply host (calls w1) (createCall cfg dc) = None
        ∧ w2 = record (createCall cfg dc) w1.

(** ... has configured its network, ... *)
Definition reached_mounts (cfg : drivers.TaskConfig) (w : world)
    (dc : TaskConfig.t) (w3 : world) : Prop :=
  ∃ w2, reached_network cfg w dc w2
        ∧ configureContainerNetwork host config (taskContainer host config cfg) dc w2
          = (Ok tt, w3).

(** ... has set its mounts and devices, ... *)
Definition reached_start (cfg : drivers.TaskConfig) (w : world)
    (dc : TaskConfig.t) (w4 : world) : Prop :=
  ∃ w3, reached_mounts cfg w dc w3
        ∧ mountVolumes host config (taskContainer host config cfg) cfg dc w3
          = (Ok tt, w4).

(** ... has started its init process, ... *)
Definition reached_limits (cfg : drivers.TaskConfig) (w : world)
    (dc : TaskConfig.t) (w5 : world) : Prop :=
  ∃ w4, reached_start cfg w dc w4
        ∧ lxc_reply host (calls w4) (startCall cfg dc) = None
        ∧ w5 = record (startCall cfg dc) w4.

(** ... and has set its resource limits. *)
Definition reached_state (cfg : drivers.TaskConfig) (w : world)
    (dc : TaskConfig.t) (w6 : world) : Prop :=
  ∃ w5, reached_limits cfg w dc w5
        ∧ setResourceLimits host (taskContainer host config cfg) cfg w5 = (Ok tt, w6).

(** The handle and the driver state [StartTask] builds in the world
    [w6]. *)
Definition startedHandle (cfg : drivers.TaskConfig) (w6 : world) : taskHandle :=
  let c := taskContainer host config cfg in
  {| container := c;
     initPid := lxc_InitPid host (calls w6) c;
     taskConfig := cfg;
     procState := drivers.TaskStateRunning;
     startedAt := Round (Now host (calls w6 ++ [lxc_method c lxc.InitPid]))
                        time_Millisecond;
     exitResult := None |}.

Definition startedState (cfg : drivers.TaskConfig) (w6 : world) : TaskState :=
  {| TaskState_TaskConfig := cfg;
     ContainerName := lxc.Name (taskContainer host config cfg);
     StartedAt := startedAt (startedHandle cfg w6) |}.

(** The world [w6] after the process identifier and the clock were
    read. *)
Definition measured (cfg : drivers.TaskConfig) (w6 : world) : world :=
  record read_clock (record (lxc_method (taskContainer host config cfg) lxc.InitPid) w6).

(** The ways a run of [StartTask] from [w] ends: one constructor for
    each [return] of the function and one for the panic of
    [mountEntries]. *)
Inductive StartTask_path (cfg : drivers.TaskConfig) (w : world)
  : res (drivers.TaskHandle Blob) → world → Prop :=
| path_duplicate h :
    tasks w !! drivers.ID cfg = Some h →
    StartTask_path cfg w
      (Err (errorString
         ("task with ID " +:+ Sprintf_q (drivers.ID cfg) +:+ " already started"))) w
| path_decode err :
    tasks w !! drivers.ID cfg = None →
    DecodeDriverConfig host cfg = inr err →
    StartTask_path cfg w (Err (Errorf "failed to decode driver config: " err)) w
| path_initialize dc e w1 :
    tasks w !! drivers.ID cfg = None →
    DecodeDriverConfig host cfg = inl dc →
    initializeContainer host config cfg dc (announced w) = (Err e, w1) →
    StartTask_path cfg w (Err e) (logged Error_ "failed to initializeContainer" w1)
| path_create dc w1 err :
    reached_create cfg w dc w1 →
    lxc_reply host (calls w1) (createCall cfg dc) = Some err →
    StartTask_path cfg w (Err (NewRecoverableError err true))
      (record (createCall cfg dc) w1)
| path_network dc w2 e w3 w' :
    reached_network cfg w dc w2 →
    configureContainerNetwork host config (taskContainer host config cfg) dc w2
    = (Err e, w3) →
    cleanup host (taskContainer host config cfg) w3 = (Ok tt, w') →
    StartTask_path cfg w (Err e) w'
| path_mounts dc w3 e w4 w' :
    reached_mounts cfg w dc w3 →
    mountVolumes host config (taskContainer host config cfg) cfg dc w3 = (Err e, w4) →
    cleanup host (taskContainer host config cfg)
      (logged Error_ "failed to mountVolumes" w4) = (Ok tt, w') →
    StartTask_path cfg w (Err e) w'
| path_mounts_panic dc w3 msg w4 :
    reached_mounts cfg w dc w3 →
    mountVolumes host config (taskContainer host config cfg) cfg dc w3
    = (Panic msg, w4) →
    StartTask_path cfg w (Panic msg) w4
| path_start dc w4 err w' :
    reached_start cfg w dc w4 →
    lxc_reply host (calls w4) (startCall cfg dc) = Some err →
    cleanup host (taskContainer host config cfg) (record (startCall cfg dc) w4)
    = (Ok tt, w') →
    StartTask_path cfg w (Err (Errorf "unable to start container: err " err)) w'
| path_limits dc w5 e w6 w' :
    reached_limits cfg w dc w5 →
    setResourceLimits host (taskContainer host config cfg) cfg w5 = (Err e, w6) →
    cleanup host (taskContainer host config cfg) w6 = (Ok tt, w') →
    StartTask_path cfg w (Err e) w'
| path_state dc w6 err w' :
    reached_state cfg w dc w6 →
    MsgPackEncode host (startedState cfg w6) = inr err →
    cleanup host (taskContainer host config cfg)
      (logged Error_ "failed to start task, error setting driver state"
         (measured cfg w6)) = (Ok tt, w') →
    StartTask_path cfg w (Err (Errorf "failed to set driver state: " err)) w'
| path_started dc w6 blob :
    reached_state cfg w dc w6 →
    MsgPackEncode host (startedState cfg w6) = inl blob →
    StartTask_path cfg w
      (Ok {| drivers.Version := taskHandleVersion;
             drivers.Config := cfg;
             drivers.DriverState := Some blob |})
      (record (spawned_run (startedHandle cfg w6))
         (stored (drivers.ID cfg) (startedHandle cfg w6) (measured cfg w6))).

(** A step of [StartTask] after the create step fails in the run from
    [w]: the run has reached the step and the step returns an error in
    the very world the run is in.  [e] is the error [StartTask] makes
    of it (its own words come first for the start of the init process
    and for the driver state) and [wf] the world in which the rollback
    begins. *)
Inductive fails_after_create (cfg : drivers.TaskConfig) (w : world) (dc : TaskConfig.t)
  : error → world → Prop :=
| fails_network w2 e w3 :
    reached_network cfg w dc w2 →
    configureContainerNetwork host config (taskContainer host config cfg) dc w2
    = (Err e, w3) →
    fails_after_create cfg w dc e w3
| fails_mounts w3 e w4 :
    reached_mounts cfg w dc w3 →
    mountVolumes host config (taskContainer host config cfg) cfg dc w3 = (Err e, w4) →
    fails_after_create cfg w dc e (logged Error_ "failed to mountVolumes" w4)
| fails_start w4 err :
    reached_start cfg w dc w4 →
    lxc_reply host (calls w4) (startCall cfg dc) = Some err →
    fails_after_create cfg w dc (Errorf "unable to start container: err " err)
      (record (startCall cfg dc) w4)
| fails_limits w5 e w6 :
    reached_limits cfg w dc w5 →
    setResourceLimits host (taskContainer host config cfg) cfg w5 = (Err e, w6) →
    fails_after_create cfg w dc e w6
| fails_state w6 err :
    reached_state cfg w dc w6 →
    MsgPackEncode host (startedState cfg w6) = inr err →
    fails_after_create cfg w dc (Errorf "failed to set driver state: " err)
      (logged Error_ "failed to start task, error setting driver state"
         (measured cfg w6)).

(** *** Recovery *)

(** The driver state a handle carries, as [GetDriverState] reads it. *)
Definition handleState (handle : drivers.TaskHandle Blob) : TaskState + error :=
  match drivers.DriverState handle with
  | Some blob => MsgPackDecode host blob
  | None => inr (errorString "EOF")
  end.

(** The handle [RecoverTask] builds from the state [st] after the
    history [hist]. *)
Definition recoveredHandle (st : TaskState) (hist : list call) : taskHandle :=
  let c := {| lxc.Name := ContainerName st; lxc.ConfigPath := lxcPath host config |} in
  {| container := c;
     initPid := lxc_InitPid host (hist ++ [lxc_NewContainer (lxc.Name c) (lxc.ConfigPath c)]) c;
     taskConfig := TaskState_TaskConfig st;
     procState := drivers.TaskStateRunning;
     startedAt := StartedAt st;
     exitResult := Some drivers.emptyExitResult |}.

End Planning.

(** ** What a run depends on *)

(** The call is about the container [c]: the reference of [c], a method
    of [c], or the handle of [c]. *)
Definition targets (c : lxc.Container) (x : call) : Prop :=
  match x with
  | lxc_NewContainer name lxcpath => name = lxc.Name c ∧ lxcpath = lxc.ConfigPath c
  | lxc_method c' _ => c' = c
  | asked_IsRunning h | called_shutdown h _ | spawned_run h => container h = c
  | read_clock => True
  end.

(** The host that decodes the driver configuration of every task to [dc]
    and is [host] otherwise. *)
Definition with_decoded {Blob} (host : Host Blob) (dc : TaskConfig.t) : Host Blob :=
  {| lxc_DefaultConfigPath := lxc_DefaultConfigPath host;
     lxc_VersionAtLeast_2_1_0 := lxc_VersionAtLeast_2_1_0 host;
     lxc_reply := lxc_reply host;
     lxc_Running := lxc_Running host;
     lxc_InitPid := lxc_InitPid host;
     IsRunning := IsRunning host;
     Now := Now host;
     filepath_Join := filepath_Join host;
     filepath_Rel := filepath_Rel host;
     os_Stat := os_Stat host;
     DeviceFromPath := DeviceFromPath host;
     DecodeDriverConfig := λ _, inl dc;
     MsgPackEncode := MsgPackEncode host;
     MsgPackDecode := MsgPackDecode host;
     recoverPre09Task := recoverPre09Task host |}.

(** The task options without [image_variant], [image_server],
    [gpg_key_id], [gpg_key_server], [force_cache] and [portmap]. *)
Definition consulted (dc : TaskConfig.t) : TaskConfig.t :=
  {| TaskConfig.Template := TaskConfig.Template dc;
     TaskConfig.Distro := TaskConfig.Distro dc;
     TaskConfig.Release := TaskConfig.Release dc;
     TaskConfig.Arch := TaskConfig.Arch dc;
     TaskConfig.ImageVariant := "";
     TaskConfig.ImageServer := "";
     TaskConfig.GPGKeyID := "";
     TaskConfig.GPGKeyServer := "";
     TaskConfig.DisableGPGValidation := TaskConfig.DisableGPGValidation dc;
     TaskConfig.FlushCache := TaskConfig.FlushCache dc;
     TaskConfig.ForceCache := false;
     TaskConfig.TemplateArgs := TaskConfig.TemplateArgs dc;
     TaskConfig.LogLevel := TaskConfig.LogLevel dc;
     TaskConfig.Verbosity := TaskConfig.Verbosity dc;
     TaskConfig.Volumes := TaskConfig.Volumes dc;
     TaskConfig.NetworkMode := TaskConfig.NetworkMode dc;
     TaskConfig.DefaultConfig := TaskConfig.DefaultConfig dc;
     TaskConfig.Command := TaskConfig.Command dc;
     TaskConfig.Environment := TaskConfig.Environment dc;
     TaskConfig.Cgroup := TaskConfig.Cgroup dc;
     TaskConfig.PortMap := [] |}.

(** The driver options without [enabled] and [gc]. *)
Definition consulted_config (config : Config.t) : Config.t :=
  {| Config.Enabled := false;
     Config.AllowVolumes := Config.AllowVolumes config;
     Config.DefaultConfig := Config.DefaultConfig config;
     Config.LXCPath := Config.LXCPath config;
     Config.NetworkMode := Config.NetworkMode config;
     Config.GC_Container := false |}.

(** ** More examples *)

(** The example task with a read-only mount and a device. *)
Definition example_cfg_devices : drivers.TaskConfig :=
  {| drivers.ID := drivers.ID example_cfg;
     drivers.Name := drivers.Name example_cfg;
     drivers.AllocID := drivers.AllocID example_cfg;
     drivers.Env := drivers.Env example_cfg;
     drivers.resources := drivers.resources example_cfg;
     drivers.Mounts := [ {| drivers.mount_TaskPath := "/data";
                            drivers.mount_HostPath := "/srv/data";
                            drivers.mount_Readonly := true |} ];
     drivers.Devices := [ {| drivers.device_TaskPath := "/dev/null";
                             drivers.device_HostPath := "/dev/null";
                             drivers.device_Permissions := "rw" |} ];
     drivers.taskDir := drivers.taskDir example_cfg |}.

(** [Create] fails, everything else succeeds. *)
Definition create_fails : call → option error := λ x,
  if is_Create x then Some (errorString "template not found") else None.

(** The runtime refuses every configuration item and cannot load the base
    file. *)
Definition items_fail : call → option error := λ x,
  match x with
  | lxc_method _ (lxc.SetConfigItem _ _) | lxc_method _ (lxc.LoadConfigFile _) =>
      Some (errorString "invalid argument")
  | _ => None
  end.

(** The runtime refuses the cgroup rules of devices. *)
Definition device_items_fail : call → option error := λ x,
  match x with
  | lxc_method _ (lxc.SetConfigItem key _) =>
      if String.eqb key "lxc.cgroup.devices.allow"
      then Some (errorString "invalid argument") else None
  | _ => None
  end.

(** The state of the example task and a handle that carries it. *)
Definition example_TaskState : TaskState :=
  {| TaskState_TaskConfig := example_cfg;
     ContainerName := "web-123";
     StartedAt := 1700000000123000000 |}.

Definition example_recoverable : drivers.TaskHandle TaskState :=
  {| drivers.Version := taskHandleVersion;
     drivers.Config := example_cfg;
     drivers.DriverState := Some example_TaskState |}.

(** A process that is found and answers three signals before it is
    gone. *)
Definition example_FindProcess : Z → option error := λ _, None.

Definition example_Signal : Z → nat → option error := λ _ n,
  if (n <? 3)%nat then None else Some (errorString "os: process already finished").

(** The example options with an image server, a variant, a key and a port
    map. *)
Definition example_taskConfig_image : TaskConfig.t :=
  {| TaskConfig.Template := "/usr/share/lxc/templates/lxc-busybox";
     TaskConfig.Distro := "";
     TaskConfig.Release := "";
     TaskConfig.Arch := "";
     TaskConfig.ImageVariant := "cloud";
     TaskConfig.ImageServer := "images.example.org";
     TaskConfig.GPGKeyID := "0xBAD";
     TaskConfig.GPGKeyServer := "keys.example.org";
     TaskConfig.DisableGPGValidation := false;
     TaskConfig.FlushCache := false;
     TaskConfig.ForceCache := true;
     TaskConfig.TemplateArgs := [];
     TaskConfig.LogLevel := "";
     TaskConfig.Verbosity := "";
     TaskConfig.Volumes := [];
     TaskConfig.NetworkMode := "";
     TaskConfig.DefaultConfig := "";
     TaskConfig.Command := ["/bin/sleep"; "100"];
     TaskConfig.Environment := ["A=1"];
     TaskConfig.Cgroup := "nomad";
     TaskConfig.PortMap := [("http", 8080)] |}.

(** The example driver configuration, disabled. *)
Definition example_config_disabled : Config.t :=
  {| Config.Enabled := false;
     Config.AllowVolumes := Config.AllowVolumes example_config;
     Config.DefaultConfig := Config.DefaultConfig example_config;
     Config.LXCPath := Config.LXCPath example_config;
     Config.NetworkMode := Config.NetworkMode example_config;
     Config.GC_Container := false |}.

(** * Proofs *)

(** ** Worlds and traces *)

Lemma extend_nil w : extend w [] = w.
Proof. destruct w. unfold extend. simpl. by rewrite app_nil_r. Qed.

Lemma issued_app w w' new : calls w' = calls w ++ new → issued w w' = new.
Proof. unfold issued. intros ->. by rewrite drop_app_length. Qed.

(** Unfolds the wrappers around one runtime call, then the monad. *)
Ltac mrun :=
  unfold orReturn, orElse, catch, on, handle_shutdown, invoke, log, Running, InitPid,
    NewContainer, handle_IsRunning, time_Now, go_run, taskStore_Get, taskStore_Set,
    taskStore_Delete, index in *;
  unfold mbind, M_bind, mret, M_ret, throw, panic in *;
  simpl.

(** *** Steady and tame computations *)

Section Tame.

Context {Blob : Type}.
Variable host : Host Blob.
Variable P : call → Prop.

Lemma advances_refl w : advances P w w.
Proof. split; [done|]. exists []. by rewrite app_nil_r. Qed.

Lemma advances_trans w1 w2 w3 :
  advances P w1 w2 → advances P w2 w3 → advances P w1 w3.
Proof.
  intros [Ht1 (n1 & Hc1 & Hp1)] [Ht2 (n2 & Hc2 & Hp2)]. split; [congruence|].
  exists (n1 ++ n2). rewrite Hc2, Hc1, app_assoc. split; [done|].
  by apply Forall_app.
Qed.

Lemma tame_steady {A} (m : M A) : tame P m → steady P m.
Proof. intros H w. apply H. Qed.

Lemma tame_ret {A} (a : A) : tame P (mret a).
Proof. intros w. split; [apply advances_refl|done]. Qed.

Lemma tame_throw {A} e : tame P (@throw A e).
Proof. intros w. split; [apply advances_refl|done]. Qed.

Lemma tame_log l msg : tame P (log l msg).
Proof.
  intros w. split; [|done]. split; [done|]. exists []. simpl.
  by rewrite app_nil_r.
Qed.

Lemma tame_invoke c : P c → tame P (invoke host c).
Proof.
  intros Hc w. split; [|done]. split; [done|]. exists [c]. simpl. auto.
Qed.

Lemma tame_on c m : P (lxc_method c m) → tame P (on host c m).
Proof. apply tame_invoke. Qed.

Lemma tame_bind {A B} (m : M A) (f : A → M B) :
  tame P m → (∀ a, tame P (f a)) → tame P (m ≫= f).
Proof.
  intros Hm Hf w. destruct (Hm w) as [Hadv Hnp]. unfold mbind, M_bind.
  destruct (m w) as [[a|e|msg] w1]; simpl in *.
  - destruct (Hf a w1) as [Hadv' Hnp']. split; [|done].
    eapply advances_trans; eauto.
  - done.
  - by destruct (Hnp msg).
Qed.

Lemma tame_catch {A} (m : M A) : tame P m → tame P (catch m).
Proof.
  intros Hm w. destruct (Hm w) as [Hadv Hnp]. unfold catch.
  destruct (m w) as [[a|e|msg] w1]; simpl in *; try done.
  by destruct (Hnp msg).
Qed.

Lemma tame_orReturn m wrap : tame P m → tame P (orReturn m wrap).
Proof.
  intros Hm. apply tame_bind; [done|]. intros [e|]; [apply tame_throw|apply tame_ret].
Qed.

Lemma steady_ret {A} (a : A) : steady P (mret a).
Proof. apply tame_steady, tame_ret. Qed.

Lemma steady_throw {A} e : steady P (@throw A e).
Proof. apply tame_steady, tame_throw. Qed.

Lemma steady_panic {A} msg : steady P (@panic A msg).
Proof. intros w. apply advances_refl. Qed.

Lemma steady_bind {A B} (m : M A) (f : A → M B) :
  steady P m → (∀ a, steady P (f a)) → steady P (m ≫= f).
Proof.
  intros Hm Hf w. specialize (Hm w). unfold mbind, M_bind.
  destruct (m w) as [[a|e|msg] w1]; simpl in *; try done.
  eapply advances_trans; eauto. apply Hf.
Qed.

End Tame.

(** Solves [tame] goals along the structure of the computation. *)
Ltac tame_step :=
  first
    [ apply tame_ret | apply tame_throw | apply tame_log
    | apply tame_orReturn
    | apply tame_on; done
    | apply tame_invoke; done
    | apply tame_bind; [|intros ?]
    | match goal with
      | |- tame _ (match ?x with _ => _ end) => destruct x
      end ].

Ltac steady_step :=
  first
    [ apply steady_ret | apply steady_throw | apply steady_panic
    | apply tame_steady; apply tame_log
    | apply steady_bind; [|intros ?]
    | match goal with
      | |- steady _ (match ?x with _ => _ end) => destruct x
      end ].

(** ** Numbers *)

Lemma float64_of_int_exact m :
  - 2 ^ 53 ≤ m ≤ 2 ^ 53 → float64_of_int m = m.
Proof.
  intros Hm. unfold float64_of_int.
  destruct (Z.leb_spec (Z.log2 (Z.abs m) - 52) 0) as [|He]; [done|].
  assert (Ha : Z.abs m = 2 ^ 53).
  { assert (Z.abs m ≤ 2 ^ 53) by lia.
    destruct (Z.eq_dec (Z.abs m) (2 ^ 53)) as [|Hne]; [done|].
    assert (Hlt : Z.abs m < 2 ^ 53) by lia.
    destruct (Z.eq_dec (Z.abs m) 0) as [H0|H0].
    - rewrite H0 in He. simpl in He. lia.
    - apply Z.log2_lt_pow2 in Hlt; lia. }
  rewrite Ha. change (Z.log2 (2 ^ 53) - 52) with 1. simpl.
  change (2 ^ 53 / 2 ^ 1) with (2 ^ 52).
  lia.
Qed.

(** *** [initializeContainer] *)

Section Initialize.

Context {Blob : Type}.
Variable host : Host Blob.
Variable config : Config.t.

Lemma setEnvironment_run c envs w :
  setEnvironment host c envs w = (Ok tt, extend w (environmentItems c envs)).
Proof.
  revert w. induction envs as [|env envs IH]; intros w; simpl.
  - by rewrite extend_nil.
  - mrun. rewrite IH. unfold extend, record. simpl. by rewrite <- app_assoc.
Qed.

Lemma tame_setEnvironment c envs : tame harmless (setEnvironment host c envs).
Proof.
  induction envs as [|env envs IH]; simpl; repeat tame_step. done.
Qed.

Lemma tame_initializeContainer cfg tc :
  tame harmless (initializeContainer host config cfg tc).
Proof.
  unfold initializeContainer, NewContainer.
  repeat first [apply tame_setEnvironment | tame_step].
Qed.

Lemma initializeContainer_Ok cfg tc w c w' :
  initializeContainer host config cfg tc w = (Ok c, w') →
  ∃ v l,
    verbosityLevels !! TaskConfig.Verbosity tc = Some v
    ∧ logLevels !! TaskConfig.LogLevel tc = Some l
    ∧ c = taskContainer host config cfg
    ∧ calls w' =
        calls w
        ++ [lxc_NewContainer (lxc.Name c) (lxc.ConfigPath c)]
        ++ taskSettings host config cfg tc v l
        ++ [lxc_method c (lxc.LoadConfigFile (baseConfigFile config tc))].
Proof.
  unfold initializeContainer. mrun.
  destruct (lxc_reply host (calls w) _); [done|]. simpl.
  destruct (verbosityLevels !! _) as [v|]; [|done]. simpl.
  destruct (logLevels !! _) as [l|]; [|done]. simpl.
  destruct (lxc_reply host _ (lxc_method _ (lxc.SetLogLevel l))); [done|]. simpl.
  destruct (lxc_reply host _ (lxc_method _ (lxc.SetLogFile _))); [done|]. simpl.
  rewrite !setEnvironment_run. simpl.
  intros H. exists v, l. split; [done|]. split; [done|].
  assert (Hw : calls w' = calls w
        ++ [lxc_NewContainer (lxc.Name (taskContainer host config cfg))
              (lxc.ConfigPath (taskContainer host config cfg))]
        ++ taskSettings host config cfg tc v l
        ++ [lxc_method (taskContainer host config cfg)
              (lxc.LoadConfigFile (baseConfigFile config tc))]
      ∧ c = taskContainer host config cfg).
  { destruct (lxc_reply host _ (lxc_method _ (lxc.LoadConfigFile _)));
      simpl in H; injection H as <- <-; (split; [|done]); simpl;
      unfold taskSettings, baseConfigFile; simpl;
      rewrite <- !app_assoc; simpl; rewrite <- ?app_assoc; reflexivity. }
  destruct Hw as [Hw ->]. done.
Qed.

End Initialize.

(** *** Mount entries *)

Section Mounts.

Context {Blob : Type}.
Variable host : Host Blob.
Variable config : Config.t.

Lemma wellformed_volume_fields v :
  wellformed_volume v = true →
  ∃ p0 p1 p2 p3 rest, GoStrings.Split v ":" = p0 :: p1 :: p2 :: p3 :: rest.
Proof.
  unfold wellformed_volume. intros H. apply bool_decide_eq_true in H.
  destruct (GoStrings.Split v ":") as [|p0 [|p1 [|p2 [|p3 rest]]]];
    simpl in H; try lia. by eexists _, _, _, _, _.
Qed.

Lemma needs_upward_traversal_escapes cfg source :
  needs_upward_traversal host cfg source = true →
  pathEscapesSandbox host (drivers.Dir (drivers.taskDir cfg))
    (filepath_Join host (drivers.Dir (drivers.taskDir cfg)) source) = true.
Proof.
  unfold needs_upward_traversal, pathEscapesSandbox.
  destruct (filepath_Rel host _ _); [|done]. by intros ->.
Qed.

Lemma formatMount_run hostPath taskPath readOnly w :
  ∃ entry w', formatMount host hostPath taskPath readOnly w = (Ok entry, w')
              ∧ calls w' = calls w ∧ tasks w' = tasks w.
Proof.
  unfold formatMount. destruct (os_Stat host hostPath); mrun; by eexists _, _.
Qed.

Lemma formatTaskMounts_run mounts w :
  ∃ entries w', formatTaskMounts host mounts w = (Ok entries, w')
                ∧ calls w' = calls w ∧ tasks w' = tasks w.
Proof.
  revert w. induction mounts as [|m mounts IH]; intros w; simpl.
  - by eexists _, _.
  - unfold mbind, M_bind.
    destruct (formatMount_run (drivers.mount_HostPath m) (drivers.mount_TaskPath m)
                (drivers.mount_Readonly m) w) as (e & w1 & -> & Hc1 & Ht1).
    destruct (IH w1) as (es & w2 & -> & Hc2 & Ht2).
    eexists _, _. split; [reflexivity|]. split; congruence.
Qed.

Lemma formatTaskDevices_run devices w :
  ∃ entries w', formatTaskDevices host devices w = (Ok entries, w')
                ∧ calls w' = calls w ∧ tasks w' = tasks w.
Proof.
  revert w. induction devices as [|m devices IH]; intros w; simpl.
  - by eexists _, _.
  - unfold mbind, M_bind.
    destruct (formatMount_run (drivers.device_HostPath m) (drivers.device_TaskPath m)
                (negb (GoStrings.Contains (drivers.device_Permissions m) "w")) w)
      as (e & w1 & -> & Hc1 & Ht1).
    destruct (IH w1) as (es & w2 & -> & Hc2 & Ht2).
    eexists _, _. split; [reflexivity|]. split; congruence.
Qed.

(** With volumes enabled every well-formed volume gets its entry. *)
Lemma mountEntries_volumes_enabled cfg volumes mounts w :
  Forall (λ v, wellformed_volume v = true) volumes →
  ∃ w', mountEntries_volumes host cfg true volumes mounts w
        = (Ok (mounts ++ map (volume_entry host cfg) volumes), w')
        ∧ calls w' = calls w ∧ tasks w' = tasks w.
Proof.
  intros Hwf. revert mounts w.
  induction Hwf as [|v volumes Hv _ IH]; intros mounts w; simpl.
  - rewrite app_nil_r. by eexists.
  - destruct (wellformed_volume_fields v Hv) as (p0 & p1 & p2 & p3 & rest & Hs).
    unfold volume_entry, volume_field. rewrite Hs. mrun.
    destruct (GoFilepath.IsAbs p0); simpl.
    + edestruct IH as (w' & -> & Hc & Ht). eexists. rewrite <- app_assoc.
      split; [reflexivity|]. done.
    + edestruct IH as (w' & -> & Hc & Ht). eexists. rewrite <- app_assoc.
      split; [reflexivity|]. done.
Qed.

(** With volumes disabled a refused volume makes the loop return an
    error. *)
Lemma mountEntries_volumes_refused cfg volumes mounts w :
  Forall (λ v, wellformed_volume v = true) volumes →
  Exists (λ v, volume_refused host cfg v = true) volumes →
  ∃ e w', mountEntries_volumes host cfg false volumes mounts w = (Err e, w')
          ∧ calls w' = calls w ∧ tasks w' = tasks w.
Proof.
  intros Hwf. revert mounts w.
  induction Hwf as [|v volumes Hv _ IH]; intros mounts w Hex.
  - by apply Exists_nil in Hex.
  - simpl.
    destruct (wellformed_volume_fields v Hv) as (p0 & p1 & p2 & p3 & rest & Hs).
    apply Exists_cons in Hex. unfold volume_refused, volume_field in Hex.
    rewrite Hs in *. simpl in Hex. mrun.
    destruct (GoFilepath.IsAbs p0); simpl in *.
    { by eexists _, _. }
    destruct (pathEscapesSandbox host _ _); simpl in *.
    { by eexists _, _. }
    destruct Hex as [?|Hex]; [done|].
    edestruct IH as (e & w' & -> & Hc & Ht); [done|]. by eexists _, _.
Qed.

Lemma mountEntries_volumes_no_panic cfg enabled volumes mounts w :
  Forall (λ v, wellformed_volume v = true) volumes →
  ∀ msg, (mountEntries_volumes host cfg enabled volumes mounts w).1 ≠ Panic msg.
Proof.
  intros Hwf. revert mounts w.
  induction Hwf as [|v volumes Hv _ IH]; intros mounts w msg; simpl; [done|].
  destruct (wellformed_volume_fields v Hv) as (p0 & p1 & p2 & p3 & rest & Hs).
  rewrite Hs. mrun.
  destruct (GoFilepath.IsAbs p0), enabled; simpl; try done; try apply IH.
  destruct (pathEscapesSandbox host _ _); simpl; try done; apply IH.
Qed.

Lemma steady_mountEntries_volumes P cfg enabled volumes mounts :
  steady P (mountEntries_volumes host cfg enabled volumes mounts).
Proof.
  revert mounts. induction volumes as [|v volumes IH]; intros mounts; simpl.
  - apply steady_ret.
  - unfold index. repeat first [apply IH | steady_step].
Qed.

Lemma mountEntries_split cfg tc w :
  ∃ pre w1,
    calls w1 = calls w ∧ tasks w1 = tasks w
    ∧ mountEntries host config cfg tc w
      = mountEntries_volumes host cfg (Config.AllowVolumes config)
          (TaskConfig.Volumes tc) pre w1.
Proof.
  unfold mountEntries, mbind, M_bind.
  destruct (formatTaskMounts_run (drivers.Mounts cfg) w) as (ms & w1 & -> & Hc1 & Ht1).
  destruct (formatTaskDevices_run (drivers.Devices cfg) w1) as (ds & w2 & -> & Hc2 & Ht2).
  eexists _, w2. split; [congruence|]. split; [congruence|]. reflexivity.
Qed.

End Mounts.

(** *** [configureContainerNetwork] and [setResourceLimits] *)

Section Network.

Context {Blob : Type}.
Variable host : Host Blob.
Variable config : Config.t.

Lemma network_host c tc w :
  resolved_mode config tc = "host" →
  configureContainerNetwork host config c tc w =
    (match lxc_reply host (calls w) (networkItem host c "type" "none") with
     | None => Ok tt
     | Some e => Err (Errorf "error setting network type configuration 'none': " e)
     end, extend w [networkItem host c "type" "none"]).
Proof.
  unfold resolved_mode, configureContainerNetwork. intros ->. simpl.
  mrun. fold (networkItem host c "type" "none").
  by destruct (lxc_reply host (calls w) _).
Qed.

Lemma network_bridge c tc w :
  resolved_mode config tc = "bridge" →
  if accepted host (calls w) (bridgeItems host c)
  then configureContainerNetwork host config c tc w
       = (Ok tt, extend w (bridgeItems host c))
  else ∃ e n, (0 < n ≤ 3)%nat
    ∧ configureContainerNetwork host config c tc w
      = (Err e, extend w (take n (bridgeItems host c))).
Proof.
  unfold resolved_mode, configureContainerNetwork. intros ->. simpl.
  mrun. fold (networkItem host c "type" "veth") (networkItem host c "link" "lxcbr0")
    (networkItem host c "flags" "up").
  destruct (lxc_reply host (calls w) _) as [e1|]; simpl.
  { eexists _, 1%nat. split; [lia|reflexivity]. }
  destruct (lxc_reply host (calls w ++ _) _) as [e2|]; simpl.
  { eexists _, 2%nat. split; [lia|]. unfold extend, record. simpl.
    by rewrite <- app_assoc. }
  rewrite <- app_assoc. simpl.
  destruct (lxc_reply host (calls w ++ _) _) as [e3|]; simpl.
  { eexists _, 3%nat. split; [lia|]. unfold extend, record. simpl.
    by rewrite <- !app_assoc. }
  unfold extend, record. simpl. by rewrite <- !app_assoc.
Qed.

Lemma network_undefined c tc w :
  resolved_mode config tc ≠ "host" →
  resolved_mode config tc ≠ "bridge" →
  configureContainerNetwork host config c tc w =
    (Err (errorString "Network mode is undefined"), w).
Proof.
  unfold resolved_mode, configureContainerNetwork. intros H1 H2.
  apply String.eqb_neq in H1, H2. by rewrite H1, H2.
Qed.

Lemma setResourceLimits_run c cfg w :
  let memoryMB := drivers.MemoryMB (drivers.resources cfg) in
  let cpuShares := drivers.CPUShares (drivers.resources cfg) in
  let bytes := memoryBytes memoryMB in
  let mem := two_tier host (calls w)
               (cgroupItem c "memory.max" (GoStrings.FormatInt bytes))
               (lxc_method c (lxc.SetMemoryLimit bytes)) in
  let cpu := two_tier host (calls w ++ mem.2)
               (cgroupItem c "cpu.weight" (GoStrings.FormatInt cpuShares))
               (cgroupItem c "cpu.shares" (GoStrings.FormatInt cpuShares)) in
  setResourceLimits host c cfg w =
    match mem.1 with
    | Some e => (Err (Errorf "unable to set memory limits: " e), extend w mem.2)
    | None =>
        (match cpu.1 with
         | Some e => Err (Errorf "unable to set cpu shares: " e)
         | None => Ok tt
         end, extend w (mem.2 ++ cpu.2))
    end.
Proof.
  intros memoryMB cpuShares bytes. unfold setResourceLimits, two_tier, Sprintf_f.
  fold memoryMB cpuShares bytes. mrun.
  fold (cgroupItem c "memory.max" (GoStrings.FormatInt bytes)).
  fold (cgroupItem c "cpu.weight" (GoStrings.FormatInt cpuShares)).
  fold (cgroupItem c "cpu.shares" (GoStrings.FormatInt cpuShares)).
  unfold extend, record.
  repeat (match goal with
          | |- context [lxc_reply host ?h ?c] =>
              destruct (lxc_reply host h c) eqn:?; simpl
          end; rewrite <- ?app_assoc; simpl);
    try reflexivity.
Qed.

End Network.

(** *** [mountVolumes], [setResourceLimits], [cleanup] *)

Section Steps.

Context {Blob : Type}.
Variable host : Host Blob.
Variable config : Config.t.

Lemma tame_configureContainerNetwork c tc :
  tame any_call (configureContainerNetwork host config c tc).
Proof.
  unfold configureContainerNetwork.
  repeat first [tame_step | match goal with |- tame _ (if ?b then _ else _) => destruct b end].
Qed.

Lemma tame_devicesCgroupEntries_loop devices :
  tame any_call (devicesCgroupEntries_loop host devices).
Proof. induction devices as [|d devices IH]; simpl; repeat first [apply IH | tame_step]. Qed.

Lemma tame_setConfigItems c key wrap xs :
  tame any_call (setConfigItems host c key wrap xs).
Proof. induction xs as [|x xs IH]; simpl; repeat first [apply IH | tame_step]. Qed.

Lemma tame_setResourceLimits c cfg : tame any_call (setResourceLimits host c cfg).
Proof. unfold setResourceLimits. repeat tame_step. Qed.

Lemma steady_mountVolumes c cfg tc :
  steady any_call (mountVolumes host config c cfg tc).
Proof.
  unfold mountVolumes. apply steady_bind.
  { intros w. destruct (mountEntries_split host config cfg tc w)
      as (pre & w1 & Hc & Ht & ->).
    eapply advances_trans; [|apply steady_mountEntries_volumes].
    split; [done|]. exists []. by rewrite app_nil_r. }
  intros mounts. apply tame_steady.
  repeat first [apply tame_devicesCgroupEntries_loop | apply tame_setConfigItems | tame_step].
Qed.

Lemma mountVolumes_no_panic c cfg tc w :
  Forall (λ v, wellformed_volume v = true) (TaskConfig.Volumes tc) →
  ∀ msg, (mountVolumes host config c cfg tc w).1 ≠ Panic msg.
Proof.
  intros Hwf msg. unfold mountVolumes. unfold mbind at 1, M_bind at 1.
  destruct (mountEntries_split host config cfg tc w) as (pre & w1 & Hc & Ht & ->).
  pose proof (mountEntries_volumes_no_panic host cfg (Config.AllowVolumes config)
                _ pre w1 Hwf) as Hnp.
  destruct (mountEntries_volumes host cfg _ _ pre w1) as [[mounts|e|msg'] w2]; simpl in *.
  - assert (Ht' : tame any_call
      (devCgroupAllows ← devicesCgroupEntries host cfg;
       setConfigItems host c "lxc.mount.entry"
         (λ mnt, Errorf ("error setting bind mount " +:+ Sprintf_q mnt +:+ " error: "))
         mounts;;
       setConfigItems host c "lxc.cgroup.devices.allow"
         (λ cgroupDev,
            Errorf ("error setting cgroup permission " +:+ Sprintf_q cgroupDev
                    +:+ " error: "))
         devCgroupAllows)).
    { repeat first [apply tame_devicesCgroupEntries_loop | apply tame_setConfigItems
                   | tame_step]. }
    apply Ht'.
  - done.
  - by destruct (Hnp msg').
Qed.

Lemma mountVolumes_refused c cfg tc w :
  Forall (λ v, wellformed_volume v = true) (TaskConfig.Volumes tc) →
  Config.AllowVolumes config = false →
  Exists (λ v, volume_refused host cfg v = true) (TaskConfig.Volumes tc) →
  ∃ e w', mountVolumes host config c cfg tc w = (Err e, w').
Proof.
  intros Hwf Hoff Hex. unfold mountVolumes. unfold mbind at 1, M_bind at 1.
  destruct (mountEntries_split host config cfg tc w) as (pre & w1 & Hc & Ht & ->).
  rewrite Hoff.
  destruct (mountEntries_volumes_refused host cfg _ pre w1 Hwf Hex)
    as (e & w' & -> & _). by eexists _, _.
Qed.

Lemma cleanup_run c w :
  ∃ w', cleanup host c w = (Ok tt, w')
        ∧ calls w' = calls w ++ rollback_calls host (calls w) c
        ∧ logs w' = logs w ++ rollback_logs host (calls w) c
        ∧ tasks w' = tasks w.
Proof.
  unfold cleanup, rollback_calls, rollback_logs. mrun.
  destruct (lxc_Running host (calls w) c); simpl;
    repeat match goal with
           | |- context [lxc_reply host ?h ?x] => destruct (lxc_reply host h x); simpl
           end;
    eexists; (split; [reflexivity|]); simpl; rewrite <- ?app_assoc, ?app_nil_r; done.
Qed.

End Steps.

(** *** [StartTask] *)

Section Start.

Context {Blob : Type}.
Variable host : Host Blob.
Variable config : Config.t.

Lemma create_succeeded_skip hist l1 l2 :
  Forall (λ x, is_Create x = false) l1 →
  create_succeeded host hist (l1 ++ l2) = create_succeeded host (hist ++ l1) l2.
Proof.
  intros H. revert hist. induction H as [|x l1 Hx _ IH]; intros hist; simpl.
  - by rewrite app_nil_r.
  - rewrite IH, <- app_assoc. simpl.
    destruct x as [| c m | | | |]; try done. by destruct m.
Qed.

Lemma create_succeeded_none hist l :
  Forall (λ x, is_Create x = false) l → create_succeeded host hist l = false.
Proof.
  intros H. rewrite <- (app_nil_r l), create_succeeded_skip by done. done.
Qed.

Lemma harmless_not_Create l :
  Forall harmless l → Forall (λ x, is_Create x = false) l.
Proof. intros H. eapply Forall_impl; [exact H|]. by intros x [? ?]. Qed.

Lemma advances_relog P w w' ls :
  advances P w w' →
  advances P w {| calls := calls w'; logs := ls; tasks := tasks w' |}.
Proof. intros [Ht Hc]. by split. Qed.

Lemma advances_record P x w : P x → advances P w (record x w).
Proof. intros Hx. split; [done|]. exists [x]. simpl. auto. Qed.

Lemma created_after w ic w1 x w' :
  calls w1 = calls w ++ ic →
  Forall harmless ic →
  is_Create x = true →
  lxc_reply host (calls w1) x = None →
  advances any_call (record x w1) w' →
  create_succeeded host (calls w) (issued w w') = true.
Proof.
  intros Hc1 Hic Hx Hreply [_ (rest & Hc & _)]. simpl in Hc.
  rewrite (issued_app w w' (ic ++ x :: rest)).
  2: { rewrite Hc, Hc1, <- !app_assoc. done. }
  rewrite create_succeeded_skip by by apply harmless_not_Create.
  rewrite <- Hc1.
  destruct x as [| c m | | | |]; try done. destruct m; try done.
  simpl. by rewrite Hreply.
Qed.

(** The shape every failure after a successful [Create] takes. *)
Lemma rollback_case cfg dc w ic w1 x wf w' e :
  let c := taskContainer host config cfg in
  tasks w1 = tasks w →
  calls w1 = calls w ++ ic →
  Forall harmless ic →
  is_Create x = true →
  lxc_reply host (calls w1) x = None →
  advances any_call (record x w1) wf →
  calls w' = calls wf ++ rollback_calls host (calls wf) c
  ∧ logs w' = logs wf ++ rollback_logs host (calls wf) c
  ∧ tasks w' = tasks wf →
  DecodeDriverConfig host cfg = inl dc →
  enums_valid dc →
  failed_step host config cfg dc c e →
  tasks w' = tasks w
  ∧ (Forall harmless (issued w w')
     ∨ (∃ dc, DecodeDriverConfig host cfg = inl dc ∧ enums_valid dc
              ∧ if create_succeeded host (calls w) (issued w w')
                then rolled_back host c w w' ∧ failed_step host config cfg dc c e
                else Forall (λ x, is_rollback x = false) (issued w w'))).
Proof.
  intros c Ht1 Hc1 Hic Hx Hreply Hadv (Hc & Hl & Ht) Hdec Hvalid Hstep.
  assert (Hadv' : advances any_call (record x w1) w').
  { eapply advances_trans; [exact Hadv|]. split; [done|].
    eexists. split; [exact Hc|]. by apply Forall_forall. }
  split.
  { destruct Hadv as [Htf _]. simpl in Htf. congruence. }
  right. exists dc. split; [done|]. split; [done|].
  rewrite (created_after w ic w1 x w') by done.
  split; [|done].
  exists wf. split; [|done].
  destruct Hadv as [_ (rest & Hcf & _)]. simpl in Hcf.
  exists (ic ++ [x] ++ rest). rewrite Hcf, Hc1, <- !app_assoc. done.
Qed.

Lemma StartTask_outcome cfg w :
  let c := taskContainer host config cfg in
  match StartTask host config cfg w with
  | (Ok handle, w') =>
      ∃ dc blob pid now,
        tasks w !! drivers.ID cfg = None
        ∧ DecodeDriverConfig host cfg = inl dc
        ∧ enums_valid dc
        ∧ (resolved_mode config dc = "host" ∨ resolved_mode config dc = "bridge")
        ∧ (Forall (λ v, wellformed_volume v = true) (TaskConfig.Volumes dc) →
           Config.AllowVolumes config = false →
           Forall (λ v, volume_refused host cfg v = false) (TaskConfig.Volumes dc))
        ∧ MsgPackEncode host
            {| TaskState_TaskConfig := cfg;
               ContainerName := lxc.Name c;
               StartedAt := Round now time_Millisecond |} = inl blob
        ∧ handle = {| drivers.Version := taskHandleVersion;
                      drivers.Config := cfg;
                      drivers.DriverState := Some blob |}
        ∧ tasks w' = <[ drivers.ID cfg :=
                        {| container := c;
                           initPid := pid;
                           taskConfig := cfg;
                           procState := drivers.TaskStateRunning;
                           startedAt := Round now time_Millisecond;
                           exitResult := None |} ]> (tasks w)
        ∧ ∃ wl wl', (∃ pre, calls wl = calls w ++ pre)
                    ∧ setResourceLimits host c cfg wl = (Ok tt, wl')
  | (Err e, w') =>
      tasks w' = tasks w
      ∧ (Forall harmless (issued w w')
         ∨ (∃ dc, DecodeDriverConfig host cfg = inl dc ∧ enums_valid dc
                  ∧ if create_succeeded host (calls w) (issued w w')
                    then rolled_back host c w w' ∧ failed_step host config cfg dc c e
                    else Forall (λ x, is_rollback x = false) (issued w w')))
  | (Panic msg, w') =>
      ∃ dc, DecodeDriverConfig host cfg = inl dc
            ∧ enums_valid dc
            ∧ (resolved_mode config dc = "host" ∨ resolved_mode config dc = "bridge")
            ∧ ¬ Forall (λ v, wellformed_volume v = true) (TaskConfig.Volumes dc)
  end.
Proof.
  intros c. unfold StartTask. mrun.
  destruct (tasks w !! drivers.ID cfg) eqn:Hget.
  { simpl. split; [done|]. left. unfold issued. by rewrite drop_all. }
  destruct (DecodeDriverConfig host cfg) as [dc|err] eqn:Hdec.
  2: { simpl. split; [done|]. left. unfold issued. by rewrite drop_all. }
  match goal with
  | |- context [initializeContainer host config cfg dc ?w0] =>
      destruct (tame_initializeContainer host config cfg dc w0)
        as [[Ht1 (ic & Hc1 & Hic)] Hnp1];
      destruct (initializeContainer host config cfg dc w0) as [[c'|e|msg] w1] eqn:Hinit
  end; simpl in Ht1, Hc1, Hnp1.
  3: by destruct (Hnp1 msg).
  2: { split; [done|]. left. rewrite (issued_app w _ ic) by done. done. }
  destruct (initializeContainer_Ok host config cfg dc _ c' w1 Hinit)
    as (v & l & Hv & Hl & -> & _). fold c.
  assert (Hvalid : enums_valid dc) by (split; eauto).
  set (create := lxc_method c (lxc.Create (toLXCCreateOptions dc))).
  destruct (lxc_reply host (calls w1) create) as [e|] eqn:Hcreate; simpl.
  { split; [done|]. right. exists dc. split; [done|]. split; [done|].
    rewrite (issued_app w _ (ic ++ [create])).
    2: { simpl. rewrite Hc1, <- app_assoc. done. }
    rewrite create_succeeded_skip by by apply harmless_not_Create.
    subst create. simpl. rewrite <- Hc1, Hcreate.
    apply Forall_app. split; [|by repeat constructor].
    eapply Forall_impl; [exact Hic|]. by intros x [_ ?]. }
  pose proof (advances_record any_call create w1 I) as Hadv2.
  set (w2 := record create w1) in *.
  (* network *)
  destruct (tame_configureContainerNetwork host config c dc w2) as [Hadv3 Hnp3].
  destruct (configureContainerNetwork host config c dc w2) as [[[]|e|msg] w3] eqn:Hnet;
    simpl in Hadv3, Hnp3 |- *.
  3: by destruct (Hnp3 msg).
  2: { match goal with
       | |- context [cleanup host c ?wf] =>
           destruct (cleanup_run host c wf) as (w' & -> & Hw'); simpl;
           rewrite <- Hdec;
           apply (rollback_case cfg dc w ic w1 create wf w' e); try done
       end.
       left. by eexists _, _. }
  pose proof Hadv3 as Hadv3'.
  assert (Hmode : resolved_mode config dc = "host" ∨ resolved_mode config dc = "bridge").
  { destruct (decide (resolved_mode config dc = "host")) as [|Hh]; [by left|].
    destruct (decide (resolved_mode config dc = "bridge")) as [|Hb]; [by right|].
    rewrite network_undefined in Hnet by done. done. }
  (* mounts *)
  pose proof (steady_mountVolumes host config c cfg dc w3) as Hadv4.
  pose proof (mountVolumes_no_panic host config c cfg dc w3) as Hnp4.
  destruct (mountVolumes host config c cfg dc w3) as [[[]|e|msg] w4] eqn:Hmnt;
    simpl in Hadv4, Hnp4 |- *.
  3: { exists dc. split; [done|]. split; [done|]. split; [done|].
       intros Hwf. by destruct (Hnp4 Hwf msg). }
  2: { match goal with
       | |- context [cleanup host c ?wf] =>
           destruct (cleanup_run host c wf) as (w' & -> & Hw'); simpl;
           rewrite <- Hdec;
           apply (rollback_case cfg dc w ic w1 create wf w' e); try done
       end.
       - apply advances_relog. eapply advances_trans; eauto.
       - right; left. by eexists _, _. }
  pose proof (advances_trans _ _ _ _ Hadv3' Hadv4) as Hadv4'.
  (* start *)
  set (start := lxc_method c (lxc.StartExecute (TaskConfig.Command dc))).
  pose proof (advances_trans _ _ _ _ Hadv4' (advances_record any_call start w4 I)) as Hadv5.
  destruct (lxc_reply host (calls w4) start) as [e|] eqn:Hstart; simpl.
  { match goal with
    | |- context [cleanup host c ?wf] =>
        destruct (cleanup_run host c wf) as (w' & -> & Hw'); simpl;
        rewrite <- Hdec;
        apply (rollback_case cfg dc w ic w1 create wf w'
                 (Errorf "unable to start container: err " e)); try done
    end.
    right; right; left. by eexists _, _. }
  (* limits *)
  destruct (tame_setResourceLimits host c cfg (record start w4)) as [Hadv6 Hnp6].
  destruct (setResourceLimits host c cfg (record start w4)) as [[[]|e|msg] w6] eqn:Hlim;
    simpl in Hadv6, Hnp6 |- *.
  3: by destruct (Hnp6 msg).
  2: { match goal with
       | |- context [cleanup host c ?wf] =>
           destruct (cleanup_run host c wf) as (w' & -> & Hw'); simpl;
           rewrite <- Hdec;
           apply (rollback_case cfg dc w ic w1 create wf w' e); try done
       end.
       - eapply advances_trans; eauto.
       - right; right; right; left. by eexists _, _. }
  pose proof (advances_trans _ _ _ _ Hadv5 Hadv6) as Hadv6'.
  (* state *)
  match goal with
  | |- context [MsgPackEncode host ?st] =>
      destruct (MsgPackEncode host st) as [blob|e] eqn:Henc
  end; simpl.
  2: { match goal with
       | |- context [cleanup host c ?wf] =>
           destruct (cleanup_run host c wf) as (w' & -> & Hw'); simpl;
           rewrite <- Hdec;
           apply (rollback_case cfg dc w ic w1 create wf w'
                    (Errorf "failed to set driver state: " e)); try done
       end.
       - destruct Hadv6' as [Ht6 (n6 & Hc6 & _)]. split; simpl; [done|].
         exists (n6 ++ [lxc_method c lxc.InitPid; read_clock]).
         rewrite Hc6. subst w2. simpl. rewrite <- !app_assoc. split; [done|].
         by apply Forall_forall.
       - right; right; right; right. by eexists _, _. }
  eexists dc, blob, _, _. split; [done|]. split; [done|]. split; [done|].
  split; [done|].
  split.
  { intros Hwf Hoff.
    destruct (decide (Exists (λ v, volume_refused host cfg v = true)
                        (TaskConfig.Volumes dc))) as [Hex|Hex].
    - destruct (mountVolumes_refused host config c cfg dc w3 Hwf Hoff Hex)
        as (e & w' & Heq). congruence.
    - apply not_Exists_Forall in Hex; [|apply _].
      eapply Forall_impl; [exact Hex|]. simpl. intros x Hx.
      by destruct (volume_refused host cfg x). }
  split; [exact Henc|]. split; [done|]. split.
  { destruct Hadv6' as [Ht6 _]. simpl in *. by rewrite Ht6, Ht1. }
  exists (record start w4), w6. split; [|exact Hlim].
  destruct Hadv5 as [_ (n5 & Hc5 & _)]. exists (ic ++ [create] ++ n5).
  rewrite Hc5. subst w2. simpl. rewrite Hc1, <- !app_assoc. done.
Qed.

End Start.

(** *** The answers of [Stop] and [Destroy] do not reach the caller *)

Section Replies.

Context {Blob : Type}.
Variable host : Host Blob.
Variable config : Config.t.
Variable f : list call → call → option error.

Lemma cleanup_result (h : Host Blob) c w : (cleanup h c w).1 = Ok tt.
Proof. by destruct (cleanup_run h c w) as (w' & -> & _). Qed.

Ltac both_cleanups :=
  match goal with
  | |- context [cleanup (with_rollback_replies host f) ?c ?w0] =>
      let H1 := fresh in
      let H2 := fresh in
      pose proof (cleanup_result (with_rollback_replies host f) c w0) as H1;
      pose proof (cleanup_result host c w0) as H2;
      destruct (cleanup (with_rollback_replies host f) c w0) as [? ?], (cleanup host c w0) as [? ?];
      simpl in H1, H2; subst; simpl
  end.

Lemma StartTask_replies cfg w :
  (StartTask (with_rollback_replies host f) config cfg w).1 = (StartTask host config cfg w).1.
Proof.
  unfold StartTask.
  change (initializeContainer (with_rollback_replies host f))
    with (initializeContainer host).
  change (configureContainerNetwork (with_rollback_replies host f))
    with (configureContainerNetwork host).
  change (mountVolumes (with_rollback_replies host f)) with (mountVolumes host).
  change (setResourceLimits (with_rollback_replies host f)) with (setResourceLimits host).
  mrun.
  destruct (tasks w !! drivers.ID cfg); [done|].
  destruct (DecodeDriverConfig host cfg) as [dc|err]; [|done].
  match goal with
  | |- context [initializeContainer host config cfg dc ?w0] =>
      destruct (initializeContainer host config cfg dc w0) as [[c|e|msg] w1]
  end; simpl; try done.
  destruct (lxc_reply host (calls w1) _); simpl; [done|].
  match goal with
  | |- context [configureContainerNetwork host config c dc ?w0] =>
      destruct (configureContainerNetwork host config c dc w0) as [[[]|e|msg] w3]
  end; simpl; try done.
  2: by both_cleanups.
  match goal with
  | |- context [mountVolumes host config c cfg dc ?w0] =>
      destruct (mountVolumes host config c cfg dc w0) as [[[]|e|msg] w4]
  end; simpl; try done.
  2: by both_cleanups.
  destruct (lxc_reply host (calls w4) _); simpl.
  { by both_cleanups. }
  match goal with
  | |- context [setResourceLimits host c cfg ?w0] =>
      destruct (setResourceLimits host c cfg w0) as [[[]|e|msg] w6]
  end; simpl; try done.
  2: by both_cleanups.
  match goal with
  | |- context [MsgPackEncode host ?st] => destruct (MsgPackEncode host st)
  end; simpl; [done|].
  by both_cleanups.
Qed.

End Replies.

(** ** The claims *)

Section Claims.

Context {Blob : Type}.
Variable host : Host Blob.
Variable config : Config.t.

(** *** The option tables *)

Lemma verbosityLevels_None s : verbosityLevels !! s = None ↔ s ∉ verbosities.
Proof.
  unfold verbosityLevels, verbosities.
  rewrite !lookup_insert_None, lookup_empty. set_solver.
Qed.

Lemma logLevels_None s : logLevels !! s = None ↔ s ∉ logLevelNames.
Proof.
  unfold logLevels, logLevelNames.
  rewrite !lookup_insert_None, lookup_empty. set_solver.
Qed.

Lemma enums_valid_elem tc :
  enums_valid tc ↔
  TaskConfig.Verbosity tc ∈ verbosities ∧ TaskConfig.LogLevel tc ∈ logLevelNames.
Proof.
  unfold enums_valid.
  rewrite <- !not_eq_None_Some, verbosityLevels_None, logLevels_None.
  split; intros [H1 H2]; split.
  - by destruct (decide (TaskConfig.Verbosity tc ∈ verbosities)).
  - by destruct (decide (TaskConfig.LogLevel tc ∈ logLevelNames)).
  - tauto.
  - tauto.
Qed.

(** C5: the network mode is the task-level value when it is not empty,
    else the driver-level default.  Mode "host" sets the type directive
    to "none"; mode "bridge" sets type "veth", link "lxcbr0" and flags
    "up", in that order, stopping at the first directive the runtime
    refuses; every other mode, the empty one included, returns the
    error "Network mode is undefined" without setting anything. *)
Theorem configureContainerNetwork_by_mode c tc w :
  let mode := resolved_mode config tc in
  (mode = "host" →
     configureContainerNetwork host config c tc w =
       (match lxc_reply host (calls w) (networkItem host c "type" "none") with
        | None => Ok tt
        | Some e => Err (Errorf "error setting network type configuration 'none': " e)
        end, extend w [networkItem host c "type" "none"]))
  ∧ (mode = "bridge" →
       if accepted host (calls w) (bridgeItems host c)
       then configureContainerNetwork host config c tc w
            = (Ok tt, extend w (bridgeItems host c))
       else ∃ e n, (0 < n ≤ 3)%nat
         ∧ configureContainerNetwork host config c tc w
           = (Err e, extend w (take n (bridgeItems host c))))
  ∧ (mode ≠ "host" → mode ≠ "bridge" →
       configureContainerNetwork host config c tc w =
         (Err (errorString "Network mode is undefined"), w)).
Proof.
  intros mode. split; [|split].
  - apply network_host.
  - apply network_bridge.
  - apply network_undefined.
Qed.

(** C3, amended: [setResourceLimits] first sets "memory.max" to the
    byte count of the memory request and, only if that fails, calls the
    legacy memory limit with the same byte count; then it sets
    "cpu.weight" to the CPU shares and, only if that fails, "cpu.shares"
    to the same value.  It fails exactly when both tiers of the memory
    limit fail, or both tiers of the CPU limit do, and a task start that
    succeeds has set its limits.  The byte count of M megabytes is
    M * 1048576 when |M| is at most 2^53 (256 gives 268435456); beyond
    that M is first rounded to a float64. *)
Theorem setResourceLimits_two_tier c cfg w :
  let memoryMB := drivers.MemoryMB (drivers.resources cfg) in
  let cpuShares := drivers.CPUShares (drivers.resources cfg) in
  let bytes := memoryBytes memoryMB in
  let mem := two_tier host (calls w)
               (cgroupItem c "memory.max" (GoStrings.FormatInt bytes))
               (lxc_method c (lxc.SetMemoryLimit bytes)) in
  let cpu := two_tier host (calls w ++ mem.2)
               (cgroupItem c "cpu.weight" (GoStrings.FormatInt cpuShares))
               (cgroupItem c "cpu.shares" (GoStrings.FormatInt cpuShares)) in
  setResourceLimits host c cfg w =
    match mem.1 with
    | Some e => (Err (Errorf "unable to set memory limits: " e), extend w mem.2)
    | None =>
        (match cpu.1 with
         | Some e => Err (Errorf "unable to set cpu shares: " e)
         | None => Ok tt
         end, extend w (mem.2 ++ cpu.2))
    end
  ∧ (- 2 ^ 53 ≤ memoryMB ≤ 2 ^ 53 → bytes = memoryMB * 1048576)
  ∧ memoryBytes 256 = 268435456
  ∧ (∀ w0 handle w1,
       StartTask host config cfg w0 = (Ok handle, w1) →
       ∃ wl wl', (∃ pre, calls wl = calls w0 ++ pre)
                 ∧ setResourceLimits host (taskContainer host config cfg) cfg wl
                   = (Ok tt, wl')).
Proof.
  intros memoryMB cpuShares bytes mem cpu.
  split; [apply (setResourceLimits_run host c cfg w)|].
  split.
  { intros Hm. unfold bytes, memoryBytes, lxc.MB. by rewrite float64_of_int_exact. }
  split; [reflexivity|].
  intros w0 handle w1 Hrun.
  pose proof (StartTask_outcome host config cfg w0) as H. rewrite Hrun in H.
  simpl in H. destruct H as (dc & blob & pid & now & H). apply H.
Qed.

(** C6, amended: when [initializeContainer] succeeds, the calls it made
    are, in order: the container reference, verbosity, log level, log
    file, cgroup directory, the environment directives of the task and
    then of the task environment, and last the load of the base
    configuration file (the task's own path if given, else the global
    one).  The base file is loaded after the task-specific settings. *)
Theorem initializeContainer_loads_base_last cfg tc w c w' :
  initializeContainer host config cfg tc w = (Ok c, w') →
  ∃ v l,
    verbosityLevels !! TaskConfig.Verbosity tc = Some v
    ∧ logLevels !! TaskConfig.LogLevel tc = Some l
    ∧ c = taskContainer host config cfg
    ∧ calls w' =
        calls w
        ++ [lxc_NewContainer (lxc.Name c) (lxc.ConfigPath c)]
        ++ taskSettings host config cfg tc v l
        ++ [lxc_method c (lxc.LoadConfigFile (baseConfigFile config tc))].
Proof. apply initializeContainer_Ok. Qed.

(** C7, amended: once the container reference is obtained,
    [initializeContainer] returns the verbosity error exactly for a
    verbosity outside {"", quiet, verbose}, and the log-level error
    exactly for a valid verbosity with a log level outside {"", trace,
    debug, info, warn, error}.  Values of the tables are passed to the
    runtime as the table maps them (the empty value as Quiet and ERROR),
    and then the only errors left are those the runtime returns. *)
Theorem initializeContainer_validation cfg tc w :
  let c := taskContainer host config cfg in
  let run := initializeContainer host config cfg tc w in
  lxc_reply host (calls w) (lxc_NewContainer (lxc.Name c) (lxc.ConfigPath c)) = None →
  (TaskConfig.Verbosity tc ∉ verbosities → run.1 = Err verbosityError)
  ∧ (TaskConfig.Verbosity tc ∈ verbosities →
     TaskConfig.LogLevel tc ∉ logLevelNames → run.1 = Err logLevelError)
  ∧ (TaskConfig.Verbosity tc ∈ verbosities →
     TaskConfig.LogLevel tc ∈ logLevelNames →
     ∃ v l,
       verbosityLevels !! TaskConfig.Verbosity tc = Some v
       ∧ logLevels !! TaskConfig.LogLevel tc = Some l
       ∧ lxc_method c (lxc.SetVerbosity v) ∈ issued w run.2
       ∧ lxc_method c (lxc.SetLogLevel l) ∈ issued w run.2
       ∧ (run.1 = Ok c
          ∨ ∃ hist m e, lxc_reply host hist (lxc_method c m) = Some e
                        ∧ run.1 = Err e))
  ∧ verbosityLevels !! "" = Some lxc.Quiet
  ∧ verbosityLevels !! "quiet" = Some lxc.Quiet
  ∧ verbosityLevels !! "verbose" = Some lxc.Verbose
  ∧ logLevels !! "" = Some lxc.ERROR
  ∧ logLevels !! "trace" = Some lxc.TRACE
  ∧ logLevels !! "debug" = Some lxc.DEBUG
  ∧ logLevels !! "info" = Some lxc.INFO
  ∧ logLevels !! "warn" = Some lxc.WARN
  ∧ logLevels !! "error" = Some lxc.ERROR.
Proof.
  intros c run Hnew. subst run. unfold initializeContainer. mrun.
  fold c. change (drivers.Name cfg +:+ "-" +:+ drivers.AllocID cfg) with (lxc.Name c).
  change (lxcPath host config) with (lxc.ConfigPath c).
  rewrite Hnew. simpl.
  split; [|split; [|split; [|by repeat split]]].
  - intros Hv. apply verbosityLevels_None in Hv. by rewrite Hv.
  - intros Hv Hl. apply logLevels_None in Hl.
    destruct (verbosityLevels !! _) as [v|] eqn:Ev.
    2: by apply verbosityLevels_None in Ev.
    simpl. by rewrite Hl.
  - intros Hv Hl.
    destruct (verbosityLevels !! _) as [v|] eqn:Ev.
    2: by apply verbosityLevels_None in Ev.
    destruct (logLevels !! _) as [l|] eqn:El.
    2: by apply logLevels_None in El.
    exists v, l. split; [done|]. split; [done|]. simpl.
    destruct (lxc_reply host _ (lxc_method _ (lxc.SetLogLevel l))) as [e|] eqn:E1; simpl.
    { unfold issued. simpl. rewrite <- !app_assoc, drop_app_length.
      split; [set_solver|]. split; [set_solver|]. right. by eexists _, _, _. }
    destruct (lxc_reply host _ (lxc_method _ (lxc.SetLogFile _))) as [e|] eqn:E2; simpl.
    { unfold issued. simpl. rewrite <- !app_assoc, drop_app_length.
      split; [set_solver|]. split; [set_solver|]. right. by eexists _, _, _. }
    rewrite !setEnvironment_run. simpl.
    destruct (lxc_reply host _ (lxc_method _ (lxc.LoadConfigFile _))); simpl;
      unfold issued; simpl; rewrite <- !app_assoc, drop_app_length;
      (split; [set_solver|]); (split; [set_solver|]); by left.
Qed.

(** *** Starting a task *)

Lemma harmless_not_rollback l :
  Forall harmless l → Forall (λ x, is_rollback x = false) l.
Proof. intros H. eapply Forall_impl; [exact H|]. by intros x [? ?]. Qed.

(** An invalid configuration makes [StartTask] return an error. *)
Lemma StartTask_invalid cfg dc w :
  DecodeDriverConfig host cfg = inl dc →
  invalid_config host config cfg dc →
  ∃ e w',
    StartTask host config cfg w = (Err e, w')
    ∧ tasks w' = tasks w
    ∧ (¬ enums_valid dc → Forall harmless (issued w w'))
    ∧ if create_succeeded host (calls w) (issued w w')
      then rolled_back host (taskContainer host config cfg) w w'
      else Forall (λ x, is_rollback x = false) (issued w w').
Proof.
  intros Hdec Hinv. pose proof (StartTask_outcome host config cfg w) as H.
  destruct (StartTask host config cfg w) as [[handle|e|msg] w']; simpl in H.
  - exfalso. destruct H as (dc' & blob & pid & now & _ & Hdec' & Hen & Hmode & Hvol & _).
    assert (dc' = dc) as -> by congruence.
    apply enums_valid_elem in Hen. destruct Hen as [Hv Hl].
    destruct Hinv as [?|[?|[[? ?]|(Hoff & Hwf & Hex)]]]; try done.
    + by destruct Hmode.
    + apply Exists_exists in Hex. destruct Hex as (v & Hin & Hv').
      specialize (Hvol Hwf Hoff). rewrite Forall_forall in Hvol.
      specialize (Hvol v Hin). congruence.
  - exists e, w'. split; [done|]. destruct H as [Ht [Hharm|(dc' & Hdec' & Hen & Hif)]].
    + split; [done|]. split; [done|].
      rewrite create_succeeded_none by by apply harmless_not_Create.
      by apply harmless_not_rollback.
    + assert (dc' = dc) as -> by congruence. split; [done|]. split; [done|].
      destruct (create_succeeded host (calls w) (issued w w')); [apply Hif|done].
  - exfalso. destruct H as (dc' & Hdec' & Hen & Hmode & Hnwf).
    assert (dc' = dc) as -> by congruence.
    apply enums_valid_elem in Hen. destruct Hen as [Hv Hl].
    destruct Hinv as [?|[?|[[? ?]|(Hoff & Hwf & Hex)]]]; try done.
    by destruct Hmode.
Qed.

(** C2: for volume strings of the form source:target:mode:type.  With
    volume support disabled, a volume whose source is absolute, or whose
    source resolved against the task directory has a relative path that
    begins with two dots, makes [mountEntries] return an error, and
    [StartTask] with it.  With volume support enabled [mountEntries]
    succeeds and every volume has its mount entry, whatever its
    source. *)
Theorem mountEntries_volume_policy cfg tc w :
  Forall (λ v, wellformed_volume v = true) (TaskConfig.Volumes tc) →
  (Config.AllowVolumes config = false →
   ∀ v, v ∈ TaskConfig.Volumes tc →
        GoFilepath.IsAbs (volume_field v 0) = true
        ∨ needs_upward_traversal host cfg (volume_field v 0) = true →
        (∃ e w', mountEntries host config cfg tc w = (Err e, w'))
        ∧ (DecodeDriverConfig host cfg = inl tc →
           ∃ e w', StartTask host config cfg w = (Err e, w')))
  ∧ (Config.AllowVolumes config = true →
     ∃ pre w',
       mountEntries host config cfg tc w
       = (Ok (pre ++ map (volume_entry host cfg) (TaskConfig.Volumes tc)), w')).
Proof.
  intros Hwf. split.
  - intros Hoff v Hin Hv.
    assert (Hex : Exists (λ v, volume_refused host cfg v = true) (TaskConfig.Volumes tc)).
    { apply Exists_exists. exists v. split; [done|]. unfold volume_refused.
      destruct Hv as [->|Hv]; [done|].
      rewrite (needs_upward_traversal_escapes host cfg _ Hv). apply orb_true_r. }
    split.
    + destruct (mountEntries_split host config cfg tc w) as (pre & w1 & _ & _ & ->).
      rewrite Hoff.
      destruct (mountEntries_volumes_refused host cfg _ pre w1 Hwf Hex)
        as (e & w' & -> & _). by eexists _, _.
    + intros Hdec.
      destruct (StartTask_invalid cfg tc w Hdec) as (e & w' & -> & _).
      { right; right; right. done. }
      by eexists _, _.
  - intros Hon.
    destruct (mountEntries_split host config cfg tc w) as (pre & w1 & _ & _ & ->).
    rewrite Hon.
    destruct (mountEntries_volumes_enabled host cfg _ pre w1 Hwf) as (w' & -> & _).
    by eexists _, _.
Qed.

(** C4, amended: an invalid task configuration makes [StartTask] fail
    and leaves the task store as it was.  A bad verbosity or log level
    is refused before the create step: no [Create], [Stop] or [Destroy]
    is called.  An undefined network mode, a volume refused because
    volumes are disabled or a sandbox escape are found only after the
    create step: if the container was created, the run ends with its
    rollback; if not, no rollback was needed and none is made. *)
Theorem StartTask_invalid_config cfg dc w :
  DecodeDriverConfig host cfg = inl dc →
  invalid_config host config cfg dc →
  ∃ e w',
    StartTask host config cfg w = (Err e, w')
    ∧ tasks w' = tasks w
    ∧ (TaskConfig.Verbosity dc ∉ verbosities ∨ TaskConfig.LogLevel dc ∉ logLevelNames →
       Forall harmless (issued w w'))
    ∧ if create_succeeded host (calls w) (issued w w')
      then rolled_back host (taskContainer host config cfg) w w'
      else Forall (λ x, is_rollback x = false) (issued w w').
Proof.
  intros Hdec Hinv.
  destruct (StartTask_invalid cfg dc w Hdec Hinv) as (e & w' & Hrun & Ht & Hen & Hif).
  exists e, w'. split; [done|]. split; [done|]. split; [|done].
  intros Hbad. apply Hen. rewrite enums_valid_elem. tauto.
Qed.

End Claims.

Section Lifecycle.

Context {Blob : Type}.
Variable host : Host Blob.
Variable config : Config.t.

(** C8: the handle returned by a successful [StartTask] carries the
    encoding of the container name, the task configuration and the start
    time.  If decoding undoes encoding, [RecoverTask] on that handle, in
    a driver that does not have the task and whose runtime gives the
    container reference, registers under the same task ID a handle in
    state Running with the container name, the task ID and the start
    time of the handle [StartTask] registered, and starts its monitor. *)
Theorem StartTask_RecoverTask_roundtrip cfg w handle w1 w2 :
  (∀ st blob, MsgPackEncode host st = inl blob → MsgPackDecode host blob = inl st) →
  StartTask host config cfg w = (Ok handle, w1) →
  tasks w2 !! drivers.ID cfg = None →
  lxc_reply host (calls w2)
    (lxc_NewContainer (lxc.Name (taskContainer host config cfg)) (lxcPath host config))
    = None →
  ∃ h0 h w3,
    tasks w1 !! drivers.ID cfg = Some h0
    ∧ RecoverTask host config (Some handle) w2 = (Ok tt, w3)
    ∧ tasks w3 = <[ drivers.ID cfg := h ]> (tasks w2)
    ∧ lxc.Name (container h) = lxc.Name (container h0)
    ∧ drivers.ID (taskConfig h) = drivers.ID (taskConfig h0)
    ∧ drivers.ID (taskConfig h) = drivers.ID cfg
    ∧ startedAt h = startedAt h0
    ∧ procState h = drivers.TaskStateRunning
    ∧ spawned_run h ∈ issued w2 w3.
Proof.
  intros Hcodec Hrun Hfree Hnew.
  pose proof (StartTask_outcome host config cfg w) as H. rewrite Hrun in H.
  simpl in H. destruct H as (dc & blob & pid & now & _ & _ & _ & _ & _ & Henc & -> & Ht1 & _).
  apply Hcodec in Henc.
  eexists _, _, _. split.
  { rewrite Ht1. apply lookup_insert_eq. }
  unfold RecoverTask. mrun. rewrite Hfree, Henc. simpl. simpl in Hnew.
  rewrite Hnew. simpl.
  split; [reflexivity|]. simpl. split; [done|]. repeat (split; [done|]).
  unfold issued. simpl. rewrite <- !app_assoc, drop_app_length. set_solver.
Qed.


(** C10: for a registered task, [DestroyTask] returns the error
    "cannot destroy running task" and leaves the task store as it was
    exactly when the handle reports running and force is not set.
    Otherwise it ends with the call that destroys the container,
    removes the entry of the task and returns nil, whatever the shutdown
    and the destroy return. *)
Theorem DestroyTask_outcome taskID force w handle :
  tasks w !! taskID = Some handle →
  ∃ w',
    if IsRunning host (calls w) handle && negb force
    then DestroyTask host taskID force w
         = (Err (errorString "cannot destroy running task"), w')
         ∧ tasks w' = tasks w
    else DestroyTask host taskID force w = (Ok tt, w')
         ∧ tasks w' = delete taskID (tasks w)
         ∧ last (calls w') = Some (lxc_method (container handle) lxc.Destroy).
Proof.
  intros Hget. unfold DestroyTask. mrun. rewrite Hget. simpl.
  destruct (IsRunning host (calls w) handle && negb force); simpl.
  { by eexists. }
  destruct (IsRunning host (calls w ++ _) handle); simpl;
    repeat match goal with
           | |- context [lxc_reply host ?h ?x] => destruct (lxc_reply host h x); simpl
           end;
    eexists; (split; [reflexivity|]); (split; [done|]); simpl;
    apply last_snoc.
Qed.

End Lifecycle.

(** ** The claims on concrete runs *)

(** C2 on a run: with volumes disabled a source that climbs out of the
    task directory is refused by [mountEntries] and by [StartTask]; with
    volumes enabled the same volume and an absolute one get their
    entries. *)
Lemma mountEntries_volume_policy_witness :
  let volumes := ["../../../etc:/mnt/etc:ro:dir"; "/srv/data:/data:rw:dir"] in
  let tc := example_taskConfig "" "" "" volumes in
  let host := unix_host never_fails false tc in
  ((∃ e w', mountEntries host example_config example_cfg tc empty_world = (Err e, w'))
   ∧ (∃ e w', StartTask host example_config example_cfg empty_world = (Err e, w')))
  ∧ (∃ pre w',
       mountEntries host (volumes_enabled example_config) example_cfg tc empty_world
       = (Ok (pre ++ ["/etc mnt/etc none ro,bind,create=dir";
                      "/srv/data data none rw,bind,create=dir"]), w')).
Proof.
  intros volumes tc host.
  assert (Hwf : Forall (λ v, wellformed_volume v = true) (TaskConfig.Volumes tc))
    by (repeat constructor).
  split.
  - destruct (mountEntries_volume_policy host example_config example_cfg tc empty_world Hwf)
      as [Hoff _].
    destruct (Hoff eq_refl "../../../etc:/mnt/etc:ro:dir") as [H1 H2].
    + vm_compute. left.
    + right. vm_compute. reflexivity.
    + split; [exact H1|]. apply H2. reflexivity.
  - destruct (mountEntries_volume_policy host (volumes_enabled example_config) example_cfg
                tc empty_world Hwf) as [_ Hon].
    exact (Hon eq_refl).
Defined.

(** C3 fails on the code: a request of 2^53 + 1 megabytes is rounded when
    it becomes a [ByteSize], so the value written to "memory.max" is not
    the product by 1048576. *)
Lemma setResourceLimits_rounds_large_requests :
  let host := unix_host never_fails false (example_taskConfig "" "" "" []) in
  let cfg := with_memory example_cfg 9007199254740993 in
  calls (setResourceLimits host example_container cfg empty_world).2
  = [cgroupItem example_container "memory.max" "9444732965739290427392";
     cgroupItem example_container "cpu.weight" "512"]
  ∧ GoStrings.FormatInt (9007199254740993 * 1048576) = "9444732965739291475968".
Proof. vm_compute. split; reflexivity. Qed.

(** C3 on a run: 256 megabytes on a host that refuses the modern keys.
    Both limits fall back to the legacy call with the same value. *)
Lemma setResourceLimits_two_tier_witness :
  let host := unix_host modern_keys_fail false (example_taskConfig "" "" "" []) in
  setResourceLimits host example_container example_cfg empty_world
  = (Ok tt,
     extend empty_world
       [cgroupItem example_container "memory.max" "268435456";
        lxc_method example_container (lxc.SetMemoryLimit 268435456);
        cgroupItem example_container "cpu.weight" "512";
        cgroupItem example_container "cpu.shares" "512"]).
Proof.
  intros host.
  destruct (setResourceLimits_two_tier host example_config example_container example_cfg
              empty_world) as [Hrun _].
  exact Hrun.
Defined.

(** C4 fails on the code: with an undefined network mode, and with an
    absolute volume while volumes are disabled, [StartTask] creates the
    container first and then rolls it back. *)
Lemma StartTask_validates_after_create :
  let run dc := StartTask (unix_host never_fails false dc) example_config example_cfg
                  empty_world in
  let mode := run (example_taskConfig "" "" "none" []) in
  let volume := run (example_taskConfig "" "" "" ["/etc:/mnt/etc:ro:dir"]) in
  (mode.1 = Err (errorString "Network mode is undefined")
   ∧ existsb is_Create (calls mode.2) = true
   ∧ existsb is_rollback (calls mode.2) = true
   ∧ last (calls mode.2) = Some (lxc_method example_container lxc.Destroy))
  ∧ (volume.1
     = Err (errorString "absolute bind-mount volume in config but volumes are disabled")
     ∧ existsb is_Create (calls volume.2) = true
     ∧ existsb is_rollback (calls volume.2) = true
     ∧ last (calls volume.2) = Some (lxc_method example_container lxc.Destroy)).
Proof. vm_compute. repeat split; reflexivity. Qed.

(** C4 on a run: the undefined mode "none". *)
Lemma StartTask_invalid_config_witness :
  let dc := example_taskConfig "" "" "none" [] in
  let host := unix_host never_fails false dc in
  ∃ e w',
    StartTask host example_config example_cfg empty_world = (Err e, w')
    ∧ tasks w' = tasks empty_world
    ∧ (TaskConfig.Verbosity dc ∉ verbosities ∨ TaskConfig.LogLevel dc ∉ logLevelNames →
       Forall harmless (issued empty_world w'))
    ∧ if create_succeeded host (calls empty_world) (issued empty_world w')
      then rolled_back host (taskContainer host example_config example_cfg) empty_world w'
      else Forall (λ x, is_rollback x = false) (issued empty_world w').
Proof.
  intros dc host.
  apply (StartTask_invalid_config host example_config example_cfg dc empty_world).
  - reflexivity.
  - right; right; left. vm_compute. split; discriminate.
Defined.

(** C5 on a run: no mode in the task, "bridge" in the driver. *)
Lemma configureContainerNetwork_by_mode_witness :
  let tc := example_taskConfig "" "" "" [] in
  let host := unix_host never_fails false tc in
  configureContainerNetwork host example_config example_container tc empty_world
  = (Ok tt,
     extend empty_world
       [lxc_method example_container (lxc.SetConfigItem "lxc.net.0.type" "veth");
        lxc_method example_container (lxc.SetConfigItem "lxc.net.0.link" "lxcbr0");
        lxc_method example_container (lxc.SetConfigItem "lxc.net.0.flags" "up")]).
Proof.
  intros tc host.
  destruct (configureContainerNetwork_by_mode host example_config example_container tc
              empty_world) as (_ & Hbridge & _).
  exact (Hbridge eq_refl).
Defined.

(** C6 fails on the code: the settings of the task come before the load
    of the base file, which is the last call. *)
Lemma initializeContainer_loads_after_settings :
  let tc := example_taskConfig "verbose" "debug" "" [] in
  let run := initializeContainer (unix_host never_fails false tc) example_config
               example_cfg tc empty_world in
  run.1 = Ok example_container
  ∧ load_before_settings (calls run.2) = false
  ∧ last (calls run.2)
    = Some (lxc_method example_container (lxc.LoadConfigFile "/etc/lxc/default.conf")).
Proof. vm_compute. repeat split; reflexivity. Qed.

(** C6 on a run. *)
Lemma initializeContainer_loads_base_last_witness :
  let tc := example_taskConfig "verbose" "debug" "" [] in
  let host := unix_host never_fails false tc in
  let run := initializeContainer host example_config example_cfg tc empty_world in
  ∃ v l,
    verbosityLevels !! "verbose" = Some v
    ∧ logLevels !! "debug" = Some l
    ∧ example_container = taskContainer host example_config example_cfg
    ∧ calls run.2 =
        [lxc_NewContainer "web-123" "/var/lib/lxc"]
        ++ taskSettings host example_config example_cfg tc v l
        ++ [lxc_method example_container (lxc.LoadConfigFile "/etc/lxc/default.conf")].
Proof.
  intros tc host run.
  assert (H : initializeContainer host example_config example_cfg tc empty_world
              = (Ok example_container, run.2)) by (vm_compute; reflexivity).
  exact (initializeContainer_loads_base_last host example_config example_cfg tc
           empty_world example_container run.2 H).
Defined.

(** C7 fails on the code: the empty verbosity and the empty log level are
    in neither set of the claim, and [initializeContainer] accepts them. *)
Lemma initializeContainer_accepts_empty_options :
  let tc := example_taskConfig "" "" "" [] in
  let run := initializeContainer (unix_host never_fails false tc) example_config
               example_cfg tc empty_world in
  run.1 = Ok example_container
  ∧ bool_decide ("" ∈ ["quiet"; "verbose"]) = false
  ∧ bool_decide ("" ∈ ["trace"; "debug"; "info"; "warn"; "error"]) = false
  ∧ lxc_method example_container (lxc.SetVerbosity lxc.Quiet) ∈ calls run.2
  ∧ lxc_method example_container (lxc.SetLogLevel lxc.ERROR) ∈ calls run.2.
Proof.
  split; [vm_compute; reflexivity|]. split; [vm_compute; reflexivity|].
  split; [vm_compute; reflexivity|]. vm_compute. split; set_solver.
Qed.

(** C7 on a run: the verbosity "loud" is refused. *)
Lemma initializeContainer_validation_witness :
  let tc := example_taskConfig "loud" "debug" "" [] in
  let host := unix_host never_fails false tc in
  (initializeContainer host example_config example_cfg tc empty_world).1
  = Err verbosityError.
Proof.
  intros tc host.
  destruct (initializeContainer_validation host example_config example_cfg tc empty_world
              eq_refl) as (Hbad & _).
  apply Hbad. vm_compute. set_solver.
Defined.

(** C8 on a run: the task is started in one driver and recovered in a
    fresh one. *)
Lemma StartTask_RecoverTask_roundtrip_witness :
  let host := unix_host never_fails true (example_taskConfig "" "" "" []) in
  let run := StartTask host example_config example_cfg empty_world in
  ∃ handle h0 h w3,
    run.1 = Ok handle
    ∧ tasks run.2 !! drivers.ID example_cfg = Some h0
    ∧ RecoverTask host example_config (Some handle) empty_world = (Ok tt, w3)
    ∧ tasks w3 = <[ drivers.ID example_cfg := h ]> (tasks empty_world)
    ∧ lxc.Name (container h) = lxc.Name (container h0)
    ∧ drivers.ID (taskConfig h) = drivers.ID (taskConfig h0)
    ∧ drivers.ID (taskConfig h) = drivers.ID example_cfg
    ∧ startedAt h = startedAt h0
    ∧ procState h = drivers.TaskStateRunning
    ∧ spawned_run h ∈ issued empty_world w3.
Proof.
  intros host run.
  assert (Hcodec : ∀ st blob, MsgPackEncode host st = inl blob →
                              MsgPackDecode host blob = inl st).
  { intros st blob H. simpl in *. congruence. }
  destruct run as [[handle| |] w1] eqn:Hrun; try (vm_compute in Hrun; discriminate).
  destruct (StartTask_RecoverTask_roundtrip host example_config example_cfg empty_world
              handle w1 empty_world Hcodec Hrun eq_refl eq_refl)
    as (h0 & h & w3 & H).
  exists handle, h0, h, w3. split; [reflexivity|]. exact H.
Defined.



(** C10 on a run: the task runs, force is set, and the shutdown and the
    destroy both fail. *)
Lemma DestroyTask_outcome_witness :
  let fails := λ x, match x with
                    | called_shutdown _ _ => Some (errorString "timeout")
                    | _ => rollback_fails x
                    end in
  let host := unix_host fails true (example_taskConfig "" "" "" []) in
  ∃ w', DestroyTask host (drivers.ID example_cfg) true world_with_task = (Ok tt, w')
        ∧ tasks w' = delete (drivers.ID example_cfg) (tasks world_with_task)
        ∧ last (calls w') = Some (lxc_method example_container lxc.Destroy).
Proof.
  intros fails host.
  assert (Hget : tasks world_with_task !! drivers.ID example_cfg = Some example_handle)
    by (vm_compute; reflexivity).
  exact (DestroyTask_outcome host (drivers.ID example_cfg) true world_with_task
           example_handle Hget).
Defined.

(** * The rest of the helpers *)

(** ** Mount entries *)

Section Planned.

Context {Blob : Type}.
Variable host : Host Blob.
Variable config : Config.t.

(** [%q] puts a backslash before a double quote and before a
    backslash. *)
Lemma Sprintf_q_escapes :
  let dq := String (ascii_of_nat 34) EmptyString in
  let backslash := String (ascii_of_nat 92) EmptyString in
  Sprintf_q ("a" +:+ dq +:+ "b" +:+ backslash +:+ "c")
  = dq +:+ "a" +:+ backslash +:+ dq +:+ "b" +:+ backslash +:+ backslash +:+ "c" +:+ dq.
Proof. reflexivity. Qed.

Lemma TrimLeft_relative s : GoFilepath.IsAbs (GoStrings.TrimLeft s "/") = false.
Proof.
  induction s as [|a s IH]; simpl; [done|].
  unfold GoStrings.in_cutset. simpl.
  destruct (Ascii.eqb a "/") eqn:E; simpl; [done|].
  unfold GoFilepath.IsAbs, GoStrings.HasPrefix.
  change (String.prefix "/" (String a s))
    with (if ascii_dec "/" a then String.prefix "" s else false).
  destruct (ascii_dec "/" a) as [<-|]; [|done].
  by rewrite Ascii.eqb_refl in E.
Qed.

(** [TrimLeft s "/"] is [s] without the slashes it begins with. *)
Lemma TrimLeft_slashes s :
  ∃ n, s = string_of_list_ascii (replicate n "/"%char) +:+ GoStrings.TrimLeft s "/".
Proof.
  induction s as [|a s [n IH]]; [by exists 0%nat|].
  simpl. unfold GoStrings.in_cutset. simpl.
  destruct (Ascii.eqb a "/") eqn:E; simpl.
  - apply Ascii.eqb_eq in E. subst a. exists (S n). exact (f_equal (String "/") IH).
  - by exists 0%nat.
Qed.

Lemma formatMount_entry hostPath taskPath readOnly w :
  formatMount host hostPath taskPath readOnly w
  = (Ok (mount_entry host hostPath taskPath readOnly),
     match os_Stat host hostPath with
     | None => logged Warn "failed to find mount host path type, defaulting to dir type" w
     | Some _ => w
     end).
Proof.
  unfold formatMount, mount_entry, mount_type.
  by destruct (os_Stat host hostPath) as [[]|].
Qed.

Lemma formatMount_entry' hostPath taskPath readOnly w :
  ∃ w', formatMount host hostPath taskPath readOnly w
        = (Ok (mount_entry host hostPath taskPath readOnly), w')
        ∧ calls w' = calls w ∧ tasks w' = tasks w.
Proof.
  rewrite formatMount_entry. eexists. split; [reflexivity|].
  by destruct (os_Stat host hostPath).
Qed.

Lemma formatTaskMounts_entries mounts w :
  ∃ w', formatTaskMounts host mounts w
        = (Ok (map (λ m, mount_entry host (drivers.mount_HostPath m)
                           (drivers.mount_TaskPath m) (drivers.mount_Readonly m)) mounts),
           w')
        ∧ calls w' = calls w ∧ tasks w' = tasks w.
Proof.
  revert w. induction mounts as [|m mounts IH]; intros w; simpl.
  - by eexists.
  - unfold mbind, M_bind.
    destruct (formatMount_entry' (drivers.mount_HostPath m) (drivers.mount_TaskPath m)
                (drivers.mount_Readonly m) w) as (w1 & -> & Hc1 & Ht1).
    destruct (IH w1) as (w2 & -> & Hc2 & Ht2).
    eexists. split; [reflexivity|]. split; congruence.
Qed.

Lemma formatTaskDevices_entries devices w :
  ∃ w', formatTaskDevices host devices w
        = (Ok (map (λ d, mount_entry host (drivers.device_HostPath d)
                           (drivers.device_TaskPath d)
                           (negb (GoStrings.Contains (drivers.device_Permissions d) "w")))
                   devices),
           w')
        ∧ calls w' = calls w ∧ tasks w' = tasks w.
Proof.
  revert w. induction devices as [|m devices IH]; intros w; simpl.
  - by eexists.
  - unfold mbind, M_bind.
    destruct (formatMount_entry' (drivers.device_HostPath m) (drivers.device_TaskPath m)
                (negb (GoStrings.Contains (drivers.device_Permissions m) "w")) w)
      as (w1 & -> & Hc1 & Ht1).
    destruct (IH w1) as (w2 & -> & Hc2 & Ht2).
    eexists. split; [reflexivity|]. split; congruence.
Qed.

(** [mountEntries] is its loop over the volumes, started from the
    entries of the task directories, mounts and devices. *)
Lemma mountEntries_plan cfg tc w :
  ∃ w1,
    calls w1 = calls w ∧ tasks w1 = tasks w
    ∧ mountEntries host config cfg tc w
      = mountEntries_volumes host cfg (Config.AllowVolumes config) (TaskConfig.Volumes tc)
          (fixedMounts cfg ++ taskMountEntries host cfg ++ taskDeviceEntries host cfg) w1.
Proof.
  unfold mountEntries, mbind, M_bind.
  destruct (formatTaskMounts_entries (drivers.Mounts cfg) w) as (w1 & -> & Hc1 & Ht1).
  destruct (formatTaskDevices_entries (drivers.Devices cfg) w1) as (w2 & -> & Hc2 & Ht2).
  exists w2. split; [congruence|]. split; [congruence|].
  unfold fixedMounts, taskMountEntries, taskDeviceEntries. by rewrite <- app_assoc.
Qed.

Lemma mountEntries_volumes_Ok cfg enabled volumes mounts w r w' :
  mountEntries_volumes host cfg enabled volumes mounts w = (Ok r, w') →
  r = mounts ++ map (volume_entry host cfg) volumes
  ∧ calls w' = calls w ∧ tasks w' = tasks w
  ∧ Forall (λ v, wellformed_volume v = true) volumes
  ∧ (enabled = false → Forall (λ v, volume_refused host cfg v = false) volumes).
Proof.
  revert mounts w. induction volumes as [|v volumes IH]; intros mounts w H; simpl in H.
  - injection H as <- <-. rewrite app_nil_r. by repeat split.
  - destruct (GoStrings.Split v ":") as [|p0 [|p1 [|p2 [|p3 rest]]]] eqn:Hs;
      mrun;
      repeat match type of H with
             | context [GoFilepath.IsAbs ?p] =>
                 destruct (GoFilepath.IsAbs p) eqn:Habs; simpl in H
             | context [negb ?e] => is_var e; destruct e; simpl in H
             | context [pathEscapesSandbox host ?a ?b] =>
                 destruct (pathEscapesSandbox host a b) eqn:Hesc; simpl in H
             end; try done;
      apply IH in H; destruct H as (Hr & Hc & Ht & Hwf & Hoff); subst r;
      (split; [rewrite <- app_assoc; simpl; do 2 f_equal;
               unfold volume_entry, volume_field; rewrite Hs; simpl; by rewrite ?Habs|]);
      (split; [done|]); (split; [done|]);
      (split; [constructor; [unfold wellformed_volume; by rewrite Hs|done]|]);
      intros Hen; try done; constructor; [|by apply Hoff];
      unfold volume_refused, volume_field; rewrite Hs; simpl; by rewrite Habs, Hesc.
Qed.

Lemma mountEntries_volumes_malformed cfg volumes mounts w :
  forallb wellformed_volume volumes = false →
  (mountEntries_volumes host cfg true volumes mounts w).1 = Panic "index out of range".
Proof.
  revert mounts w. induction volumes as [|v volumes IH]; intros mounts w H; simpl in H.
  { done. }
  simpl. unfold wellformed_volume in H.
  destruct (GoStrings.Split v ":") as [|p0 [|p1 [|p2 [|p3 rest]]]] eqn:Hs;
    mrun; try done; destruct (GoFilepath.IsAbs p0); simpl; try done;
    apply IH; done.
Qed.

Lemma mountEntries_volumes_disabled cfg volumes mounts w :
  Forall (λ v, wellformed_volume v = true) volumes →
  (mountEntries_volumes host cfg false volumes mounts w).1 =
    match find (volume_refused host cfg) volumes with
    | Some v =>
        Err (if GoFilepath.IsAbs (volume_field v 0)
             then absoluteVolumeError else escapingVolumeError)
    | None => Ok (mounts ++ map (volume_entry host cfg) volumes)
    end.
Proof.
  intros Hwf. revert mounts w.
  induction Hwf as [|v volumes Hv _ IH]; intros mounts w; simpl.
  { by rewrite app_nil_r. }
  destruct (wellformed_volume_fields v Hv) as (p0 & p1 & p2 & p3 & rest & Hs).
  assert (H0 : volume_field v 0 = p0) by (unfold volume_field; by rewrite Hs).
  assert (H1 : volume_field v 1 = p1) by (unfold volume_field; by rewrite Hs).
  assert (H2 : volume_field v 2 = p2) by (unfold volume_field; by rewrite Hs).
  assert (H3 : volume_field v 3 = p3) by (unfold volume_field; by rewrite Hs).
  unfold volume_refused at 1, volume_entry at 1. rewrite Hs, H0, H1, H2, H3. mrun.
  destruct (GoFilepath.IsAbs p0) eqn:Habs; simpl.
  { by rewrite H0, Habs. }
  destruct (pathEscapesSandbox host _ _); simpl.
  { by rewrite H0, Habs. }
  rewrite IH. destruct (find _ volumes); [done|].
  by rewrite <- app_assoc.
Qed.

(** ** Devices *)

Lemma devicesCgroupEntries_loop_run devices w :
  match devicesCgroupEntries_loop host devices w with
  | (Ok entries, w') => w' = w ∧ Forall2 (device_resolves host) devices entries
  | (Err e, w') =>
      w' = w
      ∧ ∃ pre d post entries,
          devices = pre ++ d :: post
          ∧ Forall2 (device_resolves host) pre entries
          ∧ DeviceFromPath host (drivers.device_HostPath d)
              (drivers.device_Permissions d) = inr e
  | (Panic _, _) => False
  end.
Proof.
  induction devices as [|d devices IH]; simpl.
  { split; [done|]. constructor. }
  destruct (DeviceFromPath host _ _) as [entry|e] eqn:Hd; simpl.
  - unfold mbind, M_bind.
    destruct (devicesCgroupEntries_loop host devices w) as [[es|e|msg] w1]; simpl.
    + destruct IH as [-> IH]. split; [done|]. by constructor.
    + destruct IH as [-> (pre & d' & post & es & -> & Hpre & He)]. split; [done|].
      exists (d :: pre), d', post, (entry :: es). split; [done|]. split; [|done].
      by constructor.
    + done.
  - split; [done|]. exists [], d, devices, []. split; [done|]. split; [constructor|done].
Qed.

(** ** [setConfigItems] and [mountVolumes] *)

Lemma setConfigItems_run c key wrap xs w :
  match setConfigItems host c key wrap xs w with
  | (Ok _, w') => w' = extend w (map (λ x, lxc_method c (lxc.SetConfigItem key x)) xs)
  | (Err e, w') =>
      ∃ pre x post err,
        xs = pre ++ x :: post
        ∧ w' = extend w (map (λ x, lxc_method c (lxc.SetConfigItem key x)) (pre ++ [x]))
        ∧ lxc_reply host
            (calls w ++ map (λ x, lxc_method c (lxc.SetConfigItem key x)) pre)
            (lxc_method c (lxc.SetConfigItem key x)) = Some err
        ∧ e = wrap x err
  | (Panic _, _) => False
  end.
Proof.
  revert w. induction xs as [|x xs IH]; intros w; simpl.
  { by rewrite extend_nil. }
  mrun. destruct (lxc_reply host (calls w) _) as [err|] eqn:Hr; simpl.
  - exists [], x, xs, err. simpl. rewrite app_nil_r. done.
  - specialize (IH (record (lxc_method c (lxc.SetConfigItem key x)) w)).
    destruct (setConfigItems host c key wrap xs _) as [[[]|e|msg] w1]; simpl in *.
    + rewrite IH. unfold extend, record. simpl. by rewrite <- app_assoc.
    + destruct IH as (pre & x' & post & err & -> & -> & Hr' & ->).
      exists (x :: pre), x', post, err. split; [done|]. split.
      { unfold extend, record. simpl. by rewrite <- app_assoc. }
      split; [|done]. simpl. by rewrite <- app_assoc in Hr'.
    + done.
Qed.

End Planned.

(** ** The steps of [StartTask], one by one *)

Section AStep.

Context {Blob : Type}.
Variable host : Host Blob.
Variable config : Config.t.

Lemma mountEntries_volumes_Panic cfg enabled volumes mounts w msg w' :
  mountEntries_volumes host cfg enabled volumes mounts w = (Panic msg, w') →
  msg = "index out of range".
Proof.
  revert mounts w. induction volumes as [|v volumes IH]; intros mounts w H; simpl in H.
  { done. }
  destruct (GoStrings.Split v ":") as [|p0 [|p1 [|p2 [|p3 rest]]]] eqn:Hs;
    mrun;
    repeat match type of H with
           | context [GoFilepath.IsAbs ?p] =>
               destruct (GoFilepath.IsAbs p) eqn:Habs; simpl in H
           | context [negb ?e] => is_var e; destruct e; simpl in H
           | context [pathEscapesSandbox host ?a ?b] =>
               destruct (pathEscapesSandbox host a b) eqn:Hesc; simpl in H
           end; try done; try congruence; by apply IH in H.
Qed.

(** [mountEntries] makes no call and leaves the task store alone,
    whatever it returns. *)
Lemma mountEntries_quiet cfg tc w :
  calls (mountEntries host config cfg tc w).2 = calls w
  ∧ tasks (mountEntries host config cfg tc w).2 = tasks w.
Proof.
  destruct (mountEntries_plan host config cfg tc w) as (w1 & Hc & Ht & ->).
  destruct (steady_mountEntries_volumes host (λ _, False) cfg (Config.AllowVolumes config)
              (TaskConfig.Volumes tc)
              (fixedMounts cfg ++ taskMountEntries host cfg ++ taskDeviceEntries host cfg) w1)
    as [Ht' (new & Hc' & Hnew)].
  destruct new as [|x new]; [|by inversion Hnew].
  rewrite app_nil_r in Hc'. split; congruence.
Qed.

Lemma mountEntries_Ok cfg tc w ms w' :
  mountEntries host config cfg tc w = (Ok ms, w') →
  ms = plannedMounts host cfg tc
  ∧ Forall (λ v, wellformed_volume v = true) (TaskConfig.Volumes tc)
  ∧ (Config.AllowVolumes config = false →
     Forall (λ v, volume_refused host cfg v = false) (TaskConfig.Volumes tc)).
Proof.
  intros H. destruct (mountEntries_plan host config cfg tc w) as (w1 & Hc & Ht & Heq).
  rewrite Heq in H. apply mountEntries_volumes_Ok in H.
  destruct H as (-> & _ & _ & Hwf & Hoff). split; [|done].
  unfold plannedMounts. by rewrite <- !app_assoc.
Qed.

Lemma mountEntries_Panic cfg tc w msg w' :
  mountEntries host config cfg tc w = (Panic msg, w') →
  msg = "index out of range"
  ∧ ¬ Forall (λ v, wellformed_volume v = true) (TaskConfig.Volumes tc).
Proof.
  intros H. destruct (mountEntries_plan host config cfg tc w) as (w1 & Hc & Ht & Heq).
  rewrite Heq in H. split; [by eapply mountEntries_volumes_Panic|].
  intros Hwf.
  eapply (mountEntries_volumes_no_panic host cfg _ _ _ w1 Hwf msg). by rewrite H.
Qed.

(** What [mountVolumes] did, by what it returned. *)
Lemma mountVolumes_run c cfg tc w :
  match mountVolumes host config c cfg tc w with
  | (Ok _, w') =>
      ∃ ds, (mountEntries host config cfg tc w).1 = Ok (plannedMounts host cfg tc)
            ∧ Forall2 (device_resolves host) (drivers.Devices cfg) ds
            ∧ calls w' = calls w ++ map (mountItem c) (plannedMounts host cfg tc)
                           ++ map (deviceItem c) ds
            ∧ tasks w' = tasks w
  | (Err e, w') =>
      tasks w' = tasks w
      ∧ ((calls w' = calls w
          ∧ ((mountEntries host config cfg tc w).1 = Err e
             ∨ ∃ d, d ∈ drivers.Devices cfg
                    ∧ DeviceFromPath host (drivers.device_HostPath d)
                        (drivers.device_Permissions d) = inr e))
         ∨ ∃ pre x err,
             calls w' = calls w ++ pre ++ [x]
             ∧ lxc_reply host (calls w ++ pre) x = Some err
             ∧ Forall (λ y, ∃ k v, y = lxc_method c (lxc.SetConfigItem k v)) (pre ++ [x])
             ∧ ((∃ mnt, mnt ∈ plannedMounts host cfg tc
                        ∧ x = mountItem c mnt ∧ e = mountError mnt err)
                ∨ ∃ dev, x = deviceItem c dev ∧ e = deviceError dev err))
  | (Panic msg, w') =>
      msg = "index out of range"
      ∧ ¬ Forall (λ v, wellformed_volume v = true) (TaskConfig.Volumes tc)
      ∧ calls w' = calls w ∧ tasks w' = tasks w
  end.
Proof.
  unfold mountVolumes. unfold mbind at 1, M_bind at 1.
  remember (plannedMounts host cfg tc) as pm eqn:Hpm.
  destruct (mountEntries_quiet cfg tc w) as [Hc1 Ht1].
  destruct (mountEntries host config cfg tc w) as [[ms|e|msg] w1] eqn:Hme; simpl in *.
  3: { apply mountEntries_Panic in Hme. by destruct Hme. }
  2: { split; [done|]. left. by split; [|left]. }
  destruct (mountEntries_Ok cfg tc w ms w1 Hme) as (-> & _).
  rewrite <- Hpm in *. clear Hpm Hme.
  unfold devicesCgroupEntries. unfold mbind at 1, M_bind at 1.
  pose proof (devicesCgroupEntries_loop_run host (drivers.Devices cfg) w1) as Hdev.
  destruct (devicesCgroupEntries_loop host (drivers.Devices cfg) w1) as [[ds|e|msg] w2];
    simpl in *; [|destruct Hdev as [-> (pre & d & post & es & Hd & _ & He)]|done].
  2: { split; [done|]. left. split; [done|]. right. exists d. split; [|done].
       rewrite Hd. set_solver. }
  destruct Hdev as [-> Hds]. unfold mbind, M_bind.
  pose proof (setConfigItems_run host c "lxc.mount.entry"
    (λ mnt, Errorf ("error setting bind mount " +:+ Sprintf_q mnt +:+ " error: "))
    pm w1) as Hm.
  destruct (setConfigItems host c "lxc.mount.entry" _ _ w1) as [[[]|e|msg] w3];
    simpl in *; [|destruct Hm as (pre & x & post & err & Hx & -> & Hr & ->)|done].
  2: { split; [done|]. right.
       exists (map (mountItem c) pre), (mountItem c x), err. simpl.
       rewrite map_app, Hc1. split; [done|]. split; [by rewrite <- Hc1|].
       split.
       { apply Forall_app. split; [|repeat constructor; by eexists _, _].
         apply Forall_map, Forall_forall. intros z _. by eexists _, _. }
       left. exists x. split; [|done]. rewrite Hx. set_solver. }
  subst w3.
  pose proof (setConfigItems_run host c "lxc.cgroup.devices.allow"
    (λ cgroupDev,
       Errorf ("error setting cgroup permission " +:+ Sprintf_q cgroupDev +:+ " error: "))
    ds (extend w1 (map (mountItem c) pm))) as Hd.
  fold (mountItem c) in *.
  destruct (setConfigItems host c "lxc.cgroup.devices.allow" _ _ _) as [[[]|e|msg] w4];
    simpl in *; [|destruct Hd as (pre & x & post & err & Hx & -> & Hr & ->)|done].
  - subst w4. exists ds. split; [done|]. split; [done|]. simpl.
    rewrite Hc1, <- app_assoc. done.
  - split; [done|]. right.
    exists (map (mountItem c) pm ++ map (deviceItem c) pre),
      (deviceItem c x), err. simpl.
    rewrite map_app, Hc1, <- !app_assoc. split; [done|].
    split; [by rewrite Hc1, <- app_assoc in Hr|].
    split.
    { rewrite !Forall_app. repeat split.
      - apply Forall_map, Forall_forall. intros z _. by eexists _, _.
      - apply Forall_map, Forall_forall. intros z _. by eexists _, _.
      - repeat constructor. by eexists _, _. }
    right. by exists x.
Qed.

Lemma configureContainerNetwork_Ok c dc w w' :
  configureContainerNetwork host config c dc w = (Ok tt, w') →
  (resolved_mode config dc = "host" ∨ resolved_mode config dc = "bridge")
  ∧ w' = extend w (networkItems host config c dc).
Proof.
  intros H. unfold networkItems.
  destruct (decide (resolved_mode config dc = "host")) as [Hh|Hh].
  { rewrite network_host in H by done. rewrite Hh. simpl.
    destruct (lxc_reply host (calls w) _); [done|]. injection H as <-. by split; [left|]. }
  destruct (decide (resolved_mode config dc = "bridge")) as [Hb|Hb].
  { pose proof (network_bridge host config c dc w Hb) as Hrun.
    apply String.eqb_neq in Hh. rewrite Hh.
    destruct (accepted host (calls w) (bridgeItems host c)).
    - rewrite Hrun in H. injection H as <-. by split; [right|].
    - destruct Hrun as (e & n & _ & Hrun). by rewrite Hrun in H. }
  by rewrite network_undefined in H.
Qed.

Lemma setResourceLimits_Ok c cfg w w' :
  setResourceLimits host c cfg w = (Ok tt, w') →
  w' = extend w (limitItems host c cfg (calls w)).
Proof.
  intros H. pose proof (setResourceLimits_run host c cfg w) as Hrun. cbv zeta in Hrun.
  rewrite Hrun in H. unfold limitItems.
  destruct (two_tier host (calls w) _ _).1; [done|].
  destruct (two_tier host (calls w ++ _) _ _).1; [done|]. by injection H as <-.
Qed.

(** *** The steps before and after [Create] only set things

    Whatever they return, the set-up steps make no other call than
    [lxc.NewContainer] and the setting methods, on the container they
    are given. *)

Lemma tame_bind_with {A B} (R : A → Prop) P (m : M A) (f : A → M B) :
  tame P m →
  (∀ w a w', m w = (Ok a, w') → R a) →
  (∀ a, R a → tame P (f a)) →
  tame P (m ≫= f).
Proof.
  intros Hm HR Hf w. destruct (Hm w) as [Hadv Hnp]. unfold mbind, M_bind.
  destruct (m w) as [[a|e|msg] w1] eqn:Hrun; simpl in *.
  - destruct (Hf a (HR w a w1 Hrun) w1) as [Hadv' Hnp']. split; [|done].
    eapply advances_trans; eauto.
  - done.
  - by destruct (Hnp msg).
Qed.

Section Settings.

Variable P : call → Prop.
Variable Q : lxc.Container → Prop.
Hypothesis P_setting : ∀ c m, Q c → is_setting m = true → P (lxc_method c m).

Ltac setting_step :=
  first
    [ apply tame_ret | apply tame_throw | apply tame_log
    | apply tame_orReturn
    | apply tame_on; apply P_setting; [assumption|reflexivity]
    | apply tame_bind; [|intros ?]
    | match goal with
      | |- tame _ (match ?x with _ => _ end) => destruct x
      | |- tame _ (if ?b then _ else _) => destruct b
      end ].

Lemma setting_setEnvironment c envs : Q c → tame P (setEnvironment host c envs).
Proof.
  intros HQ. induction envs as [|env envs IH]; simpl;
    repeat first [apply IH | setting_step].
Qed.

Lemma setting_configureContainerNetwork c tc :
  Q c → tame P (configureContainerNetwork host config c tc).
Proof. intros HQ. unfold configureContainerNetwork. repeat setting_step. Qed.

Lemma setting_mountVolumes c cfg tc w :
  Q c → advances P w (mountVolumes host config c cfg tc w).2.
Proof.
  intros HQ. pose proof (mountVolumes_run c cfg tc w) as H.
  remember (plannedMounts host cfg tc) as pm eqn:Hpm. clear Hpm.
  destruct (mountVolumes host config c cfg tc w) as [[[]|e|msg] w']; simpl in *.
  - destruct H as (ds & _ & _ & Hc & Ht). split; [done|]. eexists. split; [exact Hc|].
    apply Forall_app. split; apply Forall_map, Forall_forall; intros z _;
      by apply P_setting.
  - destruct H as [Ht [[Hc _]|(pre & x & err & Hc & _ & Hall & _)]]; (split; [done|]).
    + exists []. by rewrite app_nil_r.
    + eexists. split; [exact Hc|]. eapply Forall_impl; [exact Hall|].
      intros y (k & v & ->). by apply P_setting.
  - destruct H as (_ & _ & Hc & Ht). split; [done|]. exists []. by rewrite app_nil_r.
Qed.

Lemma setting_setResourceLimits c cfg : Q c → tame P (setResourceLimits host c cfg).
Proof. intros HQ. unfold setResourceLimits. repeat setting_step. Qed.

Hypothesis P_NewContainer : ∀ name lxcpath,
  Q {| lxc.Name := name; lxc.ConfigPath := lxcpath |} → P (lxc_NewContainer name lxcpath).

Lemma setting_initializeContainer cfg tc :
  Q (taskContainer host config cfg) →
  tame P (initializeContainer host config cfg tc).
Proof.
  intros HQ. unfold initializeContainer.
  apply (tame_bind_with (λ r, ∀ c, r = inl c → c = taskContainer host config cfg)).
  - unfold NewContainer. apply tame_bind.
    + apply tame_invoke, P_NewContainer, HQ.
    + intros [e|]; apply tame_ret.
  - intros w r w' H c ->. unfold NewContainer in H. mrun.
    destruct (lxc_reply host (calls w) _); [discriminate|]. by injection H as <- _.
  - intros [c|e] Hr; [|apply tame_throw]. rewrite (Hr c eq_refl).
    repeat first [apply setting_setEnvironment; assumption | setting_step].
Qed.

End Settings.

End AStep.

(** ** The runs of [StartTask] *)

Section Paths.

Context {Blob : Type}.
Variable host : Host Blob.
Variable config : Config.t.

(** Every run of [StartTask] is one of the paths. *)
Lemma StartTask_paths cfg w r w' :
  StartTask host config cfg w = (r, w') → StartTask_path host config cfg w r w'.
Proof.
  unfold StartTask. mrun. intros H.
  destruct (tasks w !! drivers.ID cfg) eqn:Hget.
  { injection H as <- <-. by eapply path_duplicate. }
  destruct (DecodeDriverConfig host cfg) as [dc|err] eqn:Hdec.
  2: { injection H as <- <-. by apply path_decode. }
  match type of H with
  | context [initializeContainer host config cfg dc ?w0] =>
      change w0 with (announced w) in H
  end.
  destruct (tame_initializeContainer host config cfg dc (announced w)) as [_ Hnp1].
  destruct (initializeContainer host config cfg dc (announced w)) as [[c|e|msg] w1] eqn:Hinit;
    simpl in H.
  3: by destruct (Hnp1 msg).
  2: { injection H as <- <-. by eapply path_initialize. }
  destruct (initializeContainer_Ok host config cfg dc _ c w1 Hinit)
    as (v & l & _ & _ & -> & _).
  assert (H1 : reached_create host config cfg w dc w1) by done.
  change (lxc_method (taskContainer host config cfg) (lxc.Create (toLXCCreateOptions dc)))
    with (createCall host config cfg dc) in H.
  destruct (lxc_reply host (calls w1) (createCall host config cfg dc)) as [err|] eqn:Hcreate;
    simpl in H.
  { injection H as <- <-. by eapply path_create. }
  assert (H2 : reached_network host config cfg w dc (record (createCall host config cfg dc) w1)).
  { by exists w1. }
  match type of H with
  | context [configureContainerNetwork host config ?c dc ?w2] =>
      change w2 with (record (createCall host config cfg dc) w1) in H;
      destruct (tame_configureContainerNetwork host config c dc
                  (record (createCall host config cfg dc) w1)) as [_ Hnp3];
      destruct (configureContainerNetwork host config c dc
                  (record (createCall host config cfg dc) w1)) as [[[]|e|msg] w3] eqn:Hnet
  end; simpl in H.
  3: by destruct (Hnp3 msg).
  2: { destruct (cleanup_run host (taskContainer host config cfg) w3) as (wc & Hcl & _).
       rewrite Hcl in H. simpl in H. injection H as <- <-. by eapply path_network. }
  assert (H3 : reached_mounts host config cfg w dc w3) by (by eexists).
  destruct (mountVolumes host config (taskContainer host config cfg) cfg dc w3)
    as [[[]|e|msg] w4] eqn:Hmnt; simpl in H.
  3: { injection H as <- <-. by eapply path_mounts_panic. }
  2: { match type of H with
       | context [cleanup host ?c ?wf] =>
           change wf with (logged Error_ "failed to mountVolumes" w4) in H;
           destruct (cleanup_run host c (logged Error_ "failed to mountVolumes" w4))
             as (wc & Hcl & _)
       end.
       rewrite Hcl in H. simpl in H. injection H as <- <-. by eapply path_mounts. }
  assert (H4 : reached_start host config cfg w dc w4) by (by eexists).
  change (lxc_method (taskContainer host config cfg)
            (lxc.StartExecute (TaskConfig.Command dc)))
    with (startCall host config cfg dc) in H.
  destruct (lxc_reply host (calls w4) (startCall host config cfg dc)) as [err|] eqn:Hstart;
    simpl in H.
  { match type of H with
    | context [cleanup host ?c ?wf] =>
        change wf with (record (startCall host config cfg dc) w4) in H;
        destruct (cleanup_run host c (record (startCall host config cfg dc) w4))
          as (wc & Hcl & _)
    end.
    rewrite Hcl in H. simpl in H. injection H as <- <-. by eapply path_start. }
  assert (H5 : reached_limits host config cfg w dc (record (startCall host config cfg dc) w4)).
  { by exists w4. }
  match type of H with
  | context [setResourceLimits host ?c cfg ?w5] =>
      change w5 with (record (startCall host config cfg dc) w4) in H;
      destruct (tame_setResourceLimits host c cfg
                  (record (startCall host config cfg dc) w4)) as [_ Hnp6];
      destruct (setResourceLimits host c cfg
                  (record (startCall host config cfg dc) w4)) as [[[]|e|msg] w6] eqn:Hlim
  end; simpl in H.
  3: by destruct (Hnp6 msg).
  2: { destruct (cleanup_run host (taskContainer host config cfg) w6) as (wc & Hcl & _).
       rewrite Hcl in H. simpl in H. injection H as <- <-. by eapply path_limits. }
  assert (H6 : reached_state host config cfg w dc w6) by (by eexists).
  match type of H with
  | context [MsgPackEncode host ?st] =>
      change st with (startedState host config cfg w6) in H
  end.
  destruct (MsgPackEncode host (startedState host config cfg w6)) as [blob|err] eqn:Henc;
    simpl in H.
  - injection H as <- <-. by eapply path_started.
  - match type of H with
    | context [cleanup host ?c ?wf] =>
        change wf with
          (logged Error_ "failed to start task, error setting driver state"
             (measured host config cfg w6)) in H;
        destruct (cleanup_run host c
                    (logged Error_ "failed to start task, error setting driver state"
                       (measured host config cfg w6))) as (wc & Hcl & _)
    end.
    rewrite Hcl in H. simpl in H. injection H as <- <-. by eapply path_state.
Qed.

End Paths.

(** ** The stages of a run *)

Section Stages.

Context {Blob : Type}.
Variable host : Host Blob.
Variable config : Config.t.

(** *** What was called when a stage is reached *)

Lemma reached_create_trace cfg w dc w1 :
  reached_create host config cfg w dc w1 →
  ∃ v l,
    verbosityLevels !! TaskConfig.Verbosity dc = Some v
    ∧ logLevels !! TaskConfig.LogLevel dc = Some l
    ∧ calls w1 = calls w ++ initItems host config cfg dc v l
    ∧ tasks w1 = tasks w.
Proof.
  intros (Hget & Hdec & Hinit).
  destruct (initializeContainer_Ok host config cfg dc _ _ w1 Hinit)
    as (v & l & Hv & Hl & _ & Hc).
  exists v, l. split; [done|]. split; [done|]. split; [exact Hc|].
  destruct (tame_initializeContainer host config cfg dc (announced w)) as [[Ht _] _].
  by rewrite Hinit in Ht.
Qed.

Lemma reached_start_trace cfg w dc w4 :
  reached_start host config cfg w dc w4 →
  ∃ v l ds,
    verbosityLevels !! TaskConfig.Verbosity dc = Some v
    ∧ logLevels !! TaskConfig.LogLevel dc = Some l
    ∧ (resolved_mode config dc = "host" ∨ resolved_mode config dc = "bridge")
    ∧ Forall2 (device_resolves host) (drivers.Devices cfg) ds
    ∧ calls w4 ++ [startCall host config cfg dc]
      = calls w ++ setupItems host config cfg dc v l ds
    ∧ tasks w4 = tasks w.
Proof.
  intros (w3 & (w2 & (w1 & H1 & Hcreate & ->) & Hnet) & Hmnt).
  destruct (reached_create_trace cfg w dc w1 H1) as (v & l & Hv & Hl & Hc1 & Ht1).
  apply configureContainerNetwork_Ok in Hnet. destruct Hnet as [Hmode ->].
  pose proof (mountVolumes_run host config (taskContainer host config cfg) cfg dc
                (extend (record (createCall host config cfg dc) w1)
                   (networkItems host config (taskContainer host config cfg) dc))) as Hrun.
  rewrite Hmnt in Hrun. destruct Hrun as (ds & _ & Hds & Hc4 & Ht4).
  exists v, l, ds. split; [done|]. split; [done|]. split; [done|]. split; [done|].
  split; [|by rewrite Ht4].
  rewrite Hc4. unfold setupItems, extend, record. cbn [calls].
  rewrite Hc1, <- !app_assoc. done.
Qed.

Lemma reached_state_trace cfg w dc w6 :
  reached_state host config cfg w dc w6 →
  ∃ v l ds,
    verbosityLevels !! TaskConfig.Verbosity dc = Some v
    ∧ logLevels !! TaskConfig.LogLevel dc = Some l
    ∧ (resolved_mode config dc = "host" ∨ resolved_mode config dc = "bridge")
    ∧ Forall2 (device_resolves host) (drivers.Devices cfg) ds
    ∧ calls w6
      = calls w ++ setupItems host config cfg dc v l ds
        ++ limitItems host (taskContainer host config cfg) cfg
             (calls w ++ setupItems host config cfg dc v l ds)
    ∧ tasks w6 = tasks w.
Proof.
  intros (w5 & (w4 & H4 & Hstart & ->) & Hlim).
  destruct (reached_start_trace cfg w dc w4 H4)
    as (v & l & ds & Hv & Hl & Hmode & Hds & Hc4 & Ht4).
  apply setResourceLimits_Ok in Hlim. subst w6.
  exists v, l, ds. split; [done|]. split; [done|]. split; [done|]. split; [done|].
  unfold extend, record. cbn [calls]. rewrite Hc4, <- app_assoc. done.
Qed.

(** *** What may have been called when a stage is reached

    [P] holds of every call a run may make on a container that
    satisfies [Q]. *)

Section Reached.

Variable P : call → Prop.
Variable Q : lxc.Container → Prop.
Hypothesis P_NewContainer : ∀ name lxcpath,
  Q {| lxc.Name := name; lxc.ConfigPath := lxcpath |} → P (lxc_NewContainer name lxcpath).
Hypothesis P_setting : ∀ c m, Q c → is_setting m = true → P (lxc_method c m).
Hypothesis P_Create : ∀ c opt, Q c → P (lxc_method c (lxc.Create opt)).
Hypothesis P_StartExecute : ∀ c args, Q c → P (lxc_method c (lxc.StartExecute args)).

Variable cfg : drivers.TaskConfig.
Hypothesis Q_task : Q (taskContainer host config cfg).

Lemma announced_advances w w' : advances P (announced w) w' → advances P w w'.
Proof. by intros [Ht Hc]. Qed.

Lemma failed_initialize dc w e w1 :
  initializeContainer host config cfg dc (announced w) = (Err e, w1) →
  advances P w w1.
Proof.
  intros H. apply announced_advances.
  destruct (setting_initializeContainer host config P Q P_setting P_NewContainer cfg dc
              Q_task (announced w)) as [Hadv _].
  by rewrite H in Hadv.
Qed.

Lemma reached_create_advances w dc w1 :
  reached_create host config cfg w dc w1 → advances P w w1.
Proof.
  intros (_ & _ & H). apply announced_advances.
  destruct (setting_initializeContainer host config P Q P_setting P_NewContainer cfg dc
              Q_task (announced w)) as [Hadv _].
  by rewrite H in Hadv.
Qed.

Lemma reached_network_advances w dc w2 :
  reached_network host config cfg w dc w2 → advances P w w2.
Proof.
  intros (w1 & H1 & _ & ->). eapply advances_trans.
  - by eapply reached_create_advances.
  - by apply advances_record, P_Create.
Qed.

Lemma after_network w dc w2 r w3 :
  reached_network host config cfg w dc w2 →
  configureContainerNetwork host config (taskContainer host config cfg) dc w2 = (r, w3) →
  advances P w w3.
Proof.
  intros H2 H. eapply advances_trans; [by eapply reached_network_advances|].
  destruct (setting_configureContainerNetwork host config P Q P_setting
              (taskContainer host config cfg) dc Q_task w2) as [Hadv _].
  by rewrite H in Hadv.
Qed.

Lemma after_mounts w dc w3 r w4 :
  reached_mounts host config cfg w dc w3 →
  mountVolumes host config (taskContainer host config cfg) cfg dc w3 = (r, w4) →
  advances P w w4.
Proof.
  intros (w2 & H2 & Hnet) H. eapply advances_trans; [by eapply after_network|].
  pose proof (setting_mountVolumes host config P Q P_setting
                (taskContainer host config cfg) cfg dc w3 Q_task) as Hadv.
  by rewrite H in Hadv.
Qed.

Lemma reached_limits_advances w dc w5 :
  reached_limits host config cfg w dc w5 → advances P w w5.
Proof.
  intros (w4 & (w3 & H3 & Hmnt) & _ & ->). eapply advances_trans.
  - by eapply after_mounts.
  - by apply advances_record, P_StartExecute.
Qed.

Lemma after_limits w dc w5 r w6 :
  reached_limits host config cfg w dc w5 →
  setResourceLimits host (taskContainer host config cfg) cfg w5 = (r, w6) →
  advances P w w6.
Proof.
  intros H5 H. eapply advances_trans; [by eapply reached_limits_advances|].
  destruct (setting_setResourceLimits host P Q P_setting
              (taskContainer host config cfg) cfg Q_task w5) as [Hadv _].
  by rewrite H in Hadv.
Qed.

(** The rollback and the two readings before the driver state is
    encoded. *)
Hypothesis P_rollback : ∀ c m,
  Q c → is_rollback (lxc_method c m) = true → P (lxc_method c m).
Hypothesis P_Running : ∀ c, Q c → P (lxc_method c lxc.Running).
Hypothesis P_InitPid : ∀ c, Q c → P (lxc_method c lxc.InitPid).
Hypothesis P_clock : P read_clock.

Lemma cleanup_advances w w' :
  cleanup host (taskContainer host config cfg) w = (Ok tt, w') → advances P w w'.
Proof.
  intros H.
  destruct (cleanup_run host (taskContainer host config cfg) w) as (w2 & Heq & Hc & _ & Ht).
  rewrite Heq in H. injection H as <-. split; [done|]. eexists. split; [exact Hc|].
  unfold rollback_calls.
  destruct (lxc_Running host (calls w) _); repeat constructor;
    first [by apply P_Running | by apply P_rollback].
Qed.

Lemma measured_advances w6 : advances P w6 (measured host config cfg w6).
Proof.
  unfold measured. eapply advances_trans; apply advances_record;
    [by apply P_InitPid|apply P_clock].
Qed.

(** A run that does not succeed leaves the task store alone and makes
    no other call than these. *)
Lemma failed_advances w r w' :
  StartTask_path host config cfg w r w' →
  (∀ handle, r ≠ Ok handle) →
  advances P w w'.
Proof.
  intros Hpath Hr. destruct Hpath as
    [ h Hget | err Hget Hdec | dc e w1 Hget Hdec Hinit | dc w1 err H1 Hcreate
    | dc w2 e w3 w' H2 Hnet Hcl | dc w3 e w4 w' H3 Hmnt Hcl | dc w3 msg w4 H3 Hmnt
    | dc w4 err w' H4 Hstart Hcl | dc w5 e w6 w' H5 Hlim Hcl
    | dc w6 err w' H6 Henc Hcl | dc w6 blob H6 Henc ].
  - apply advances_refl.
  - apply advances_refl.
  - apply (advances_relog P w w1). by eapply failed_initialize.
  - eapply advances_trans; [by eapply reached_create_advances|].
    by apply advances_record, P_Create.
  - eapply advances_trans; [by eapply after_network|]. by apply cleanup_advances in Hcl.
  - eapply advances_trans; [by eapply after_mounts|]. by apply cleanup_advances in Hcl.
  - by eapply after_mounts.
  - destruct H4 as (w3 & H3 & Hmnt).
    eapply advances_trans; [by eapply after_mounts|].
    eapply advances_trans; [|by apply cleanup_advances in Hcl].
    by apply advances_record, P_StartExecute.
  - eapply advances_trans; [by eapply after_limits|]. by apply cleanup_advances in Hcl.
  - destruct H6 as (w5 & H5 & Hlim).
    eapply advances_trans; [by eapply after_limits|].
    eapply advances_trans; [|by apply cleanup_advances in Hcl].
    apply (advances_relog P w6). apply measured_advances.
  - by edestruct Hr.
Qed.

End Reached.

(** *** After the container was created *)

Lemma reached_mounts_from cfg w dc w3 :
  reached_mounts host config cfg w dc w3 →
  ∃ w2, reached_network host config cfg w dc w2 ∧ advances any_call w2 w3.
Proof.
  intros (w2 & H2 & Hnet). exists w2. split; [done|].
  destruct (tame_configureContainerNetwork host config (taskContainer host config cfg)
              dc w2) as [Hadv _].
  by rewrite Hnet in Hadv.
Qed.

Lemma after_mounts_from cfg w dc w3 r w4 :
  reached_mounts host config cfg w dc w3 →
  mountVolumes host config (taskContainer host config cfg) cfg dc w3 = (r, w4) →
  ∃ w2, reached_network host config cfg w dc w2 ∧ advances any_call w2 w4.
Proof.
  intros H3 Hmnt. destruct (reached_mounts_from cfg w dc w3 H3) as (w2 & H2 & Hadv).
  exists w2. split; [done|]. eapply advances_trans; [exact Hadv|].
  pose proof (steady_mountVolumes host config (taskContainer host config cfg) cfg dc w3)
    as Hadv'.
  by rewrite Hmnt in Hadv'.
Qed.

Lemma started_from cfg w dc w4 :
  reached_start host config cfg w dc w4 →
  ∃ w2, reached_network host config cfg w dc w2
        ∧ advances any_call w2 (record (startCall host config cfg dc) w4).
Proof.
  intros (w3 & H3 & Hmnt).
  destruct (after_mounts_from cfg w dc w3 _ w4 H3 Hmnt) as (w2 & H2 & Hadv).
  exists w2. split; [done|]. eapply advances_trans; [exact Hadv|].
  by apply advances_record.
Qed.

Lemma after_limits_from cfg w dc w5 r w6 :
  reached_limits host config cfg w dc w5 →
  setResourceLimits host (taskContainer host config cfg) cfg w5 = (r, w6) →
  ∃ w2, reached_network host config cfg w dc w2 ∧ advances any_call w2 w6.
Proof.
  intros (w4 & H4 & _ & ->) Hlim.
  destruct (started_from cfg w dc w4 H4) as (w2 & H2 & Hadv).
  exists w2. split; [done|]. eapply advances_trans; [exact Hadv|].
  destruct (tame_setResourceLimits host (taskContainer host config cfg) cfg
              (record (startCall host config cfg dc) w4)) as [Hadv' _].
  by rewrite Hlim in Hadv'.
Qed.

Lemma cleanup_from c w w' :
  cleanup host c w = (Ok tt, w') →
  advances any_call w w' ∧ last (calls w') = Some (lxc_method c lxc.Destroy).
Proof.
  intros H. destruct (cleanup_run host c w) as (w2 & Heq & Hc & _ & Ht).
  rewrite Heq in H. injection H as <-. split.
  - split; [done|]. eexists. split; [exact Hc|]. by apply Forall_forall.
  - rewrite Hc. unfold rollback_calls.
    change (lxc_method c lxc.Running
              :: (if lxc_Running host (calls w) c then [lxc_method c lxc.Stop] else [])
              ++ [lxc_method c lxc.Destroy])
      with ((lxc_method c lxc.Running
               :: (if lxc_Running host (calls w) c then [lxc_method c lxc.Stop] else []))
            ++ [lxc_method c lxc.Destroy]).
    rewrite app_assoc. apply last_snoc.
Qed.

Lemma reached_network_created cfg w dc w2 w' :
  reached_network host config cfg w dc w2 →
  (∃ new, calls w' = calls w2 ++ new) →
  create_succeeded host (calls w) (issued w w') = true.
Proof.
  intros (w1 & (_ & _ & Hinit) & Hcreate & ->) (new & Hnew).
  destruct (tame_initializeContainer host config cfg dc (announced w))
    as [[_ (ic & Hc1 & Hic)] _].
  rewrite Hinit in Hc1. simpl in Hc1.
  apply (created_after host w ic w1 (createCall host config cfg dc)
           {| calls := calls w'; logs := logs w';
              tasks := tasks (record (createCall host config cfg dc) w1) |});
    try done.
  split; [done|]. exists new. split; [exact Hnew|]. by apply Forall_forall.
Qed.

(** The paths by what became of the container: never created with
    success, or created. *)
Lemma StartTask_path_classes cfg w r w' :
  StartTask_path host config cfg w r w' →
  (∃ e, r = Err e ∧ Forall harmless (issued w w') ∧ tasks w' = tasks w)
  ∨ (∃ dc w1 err,
       reached_create host config cfg w dc w1
       ∧ lxc_reply host (calls w1) (createCall host config cfg dc) = Some err
       ∧ r = Err (NewRecoverableError err true)
       ∧ w' = record (createCall host config cfg dc) w1)
  ∨ (∃ dc w2,
       reached_network host config cfg w dc w2
       ∧ (∃ new, calls w' = calls w2 ++ new)
       ∧ ((∃ e, r = Err e ∧ last (calls w')
                             = Some (lxc_method (taskContainer host config cfg) lxc.Destroy))
          ∨ (∃ w3 msg, reached_mounts host config cfg w dc w3
                       ∧ mountVolumes host config (taskContainer host config cfg) cfg dc w3
                         = (Panic msg, w')
                       ∧ r = Panic msg)
          ∨ (∃ handle, r = Ok handle))).
Proof.
  intros Hpath. destruct Hpath as
    [ h Hget | err Hget Hdec | dc e w1 Hget Hdec Hinit | dc w1 err H1 Hcreate
    | dc w2 e w3 w' H2 Hnet Hcl | dc w3 e w4 w' H3 Hmnt Hcl | dc w3 msg w4 H3 Hmnt
    | dc w4 err w' H4 Hstart Hcl | dc w5 e w6 w' H5 Hlim Hcl
    | dc w6 err w' H6 Henc Hcl | dc w6 blob H6 Henc ].
  - left. eexists. split; [done|]. split; [|done]. unfold issued. by rewrite drop_all.
  - left. eexists. split; [done|]. split; [|done]. unfold issued. by rewrite drop_all.
  - left. eexists. split; [done|].
    destruct (tame_initializeContainer host config cfg dc (announced w))
      as [[Ht (ic & Hc & Hic)] _].
    rewrite Hinit in Ht, Hc. simpl in Ht, Hc. split; [|done].
    by rewrite (issued_app w _ ic).
  - right; left. by eexists _, _, _.
  - right; right. exists dc, w2. split; [done|].
    destruct (tame_configureContainerNetwork host config (taskContainer host config cfg)
                dc w2) as [Hadv _].
    rewrite Hnet in Hadv. apply cleanup_from in Hcl. destruct Hcl as [Hadv' Hlast].
    destruct (advances_trans _ _ _ _ Hadv Hadv') as [_ (new & Hnew & _)].
    split; [by exists new|]. left. by eexists.
  - right; right. destruct (after_mounts_from cfg w dc w3 _ w4 H3 Hmnt) as (w2 & H2 & Hadv).
    exists dc, w2. split; [done|].
    apply cleanup_from in Hcl. destruct Hcl as [Hadv' Hlast].
    destruct (advances_trans _ _ _ _ Hadv (advances_trans _ _ _ _
                (advances_relog any_call w4 w4 _ (advances_refl _ _)) Hadv'))
      as [_ (new & Hnew & _)].
    split; [by exists new|]. left. by eexists.
  - right; right. destruct (after_mounts_from cfg w dc w3 _ w4 H3 Hmnt) as (w2 & H2 & Hadv).
    exists dc, w2. split; [done|]. destruct Hadv as [_ (new & Hnew & _)].
    split; [by exists new|]. right; left. by exists w3, msg.
  - right; right. destruct (started_from cfg w dc w4 H4) as (w2 & H2 & Hadv).
    exists dc, w2. split; [done|].
    apply cleanup_from in Hcl. destruct Hcl as [Hadv' Hlast].
    destruct (advances_trans _ _ _ _ Hadv Hadv') as [_ (new & Hnew & _)].
    split; [by exists new|]. left. by eexists.
  - right; right. destruct (after_limits_from cfg w dc w5 _ w6 H5 Hlim) as (w2 & H2 & Hadv).
    exists dc, w2. split; [done|].
    apply cleanup_from in Hcl. destruct Hcl as [Hadv' Hlast].
    destruct (advances_trans _ _ _ _ Hadv Hadv') as [_ (new & Hnew & _)].
    split; [by exists new|]. left. by eexists.
  - right; right. destruct H6 as (w5 & H5 & Hlim).
    destruct (after_limits_from cfg w dc w5 _ w6 H5 Hlim) as (w2 & H2 & Hadv).
    exists dc, w2. split; [done|].
    apply cleanup_from in Hcl. destruct Hcl as [Hadv' Hlast].
    assert (Hm : advances any_call w6
              (logged Error_ "failed to start task, error setting driver state"
                 (measured host config cfg w6))).
    { apply (advances_relog any_call w6). unfold measured.
      eapply advances_trans; by apply advances_record. }
    destruct (advances_trans _ _ _ _ Hadv (advances_trans _ _ _ _ Hm Hadv'))
      as [_ (new & Hnew & _)].
    split; [by exists new|]. left. by eexists.
  - right; right. destruct H6 as (w5 & H5 & Hlim).
    destruct (after_limits_from cfg w dc w5 _ w6 H5 Hlim) as (w2 & H2 & Hadv).
    exists dc, w2. split; [done|]. destruct Hadv as [_ (new & Hnew & _)]. split.
    + exists (new ++ [lxc_method (taskContainer host config cfg) lxc.InitPid; read_clock;
                      spawned_run (startedHandle host config cfg w6)]).
      simpl. rewrite Hnew, <- !app_assoc. done.
    + right; right. by eexists.
Qed.

End Stages.
(** ** The steps of [StartTask] that fail after the create step *)

Section Rollback.

Context {Blob : Type}.
Variable host : Host Blob.
Variable config : Config.t.

(** A run that has created the container goes on from the world after
    the create step. *)
Lemma StartTask_created cfg w dc w2 :
  reached_network host config cfg w dc w2 →
  StartTask host config cfg w
  = (let c := taskContainer host config cfg in
     (orElse (configureContainerNetwork host config c dc)
       (λ err, cleanup host c;; throw err);;
     orElse (mountVolumes host config c cfg dc)
       (λ err, log Error_ "failed to mountVolumes";; cleanup host c;; throw err);;
     orElse (orReturn (on host c (lxc.StartExecute (TaskConfig.Command dc))) id)
       (λ err, cleanup host c;; throw (Errorf "unable to start container: err " err));;
     orElse (setResourceLimits host c cfg)
       (λ err, cleanup host c;; throw err);;
     pid ← InitPid host c;
     now ← time_Now host;
     let h := {| container := c;
                 initPid := pid;
                 taskConfig := cfg;
                 procState := drivers.TaskStateRunning;
                 startedAt := Round now time_Millisecond;
                 exitResult := None |} in
     let driverState := {| ContainerName := lxc.Name c;
                           TaskState_TaskConfig := cfg;
                           StartedAt := startedAt h |} in
     match MsgPackEncode host driverState with
     | inr err =>
         log Error_ "failed to start task, error setting driver state";;
         cleanup host c;;
         throw (Errorf "failed to set driver state: " err)
     | inl blob =>
         let handle := {| drivers.Version := taskHandleVersion;
                          drivers.Config := cfg;
                          drivers.DriverState := Some blob |} in
         taskStore_Set (drivers.ID cfg) h;;
         go_run h;;
         mret handle
     end) : M (drivers.TaskHandle Blob)) w2.
Proof.
  intros (w1 & (Hget & Hdec & Hinit) & Hcreate & ->).
  unfold StartTask. mrun. rewrite Hget, Hdec.
  match goal with
  | |- context [initializeContainer host config cfg dc ?w0] =>
      change w0 with (announced w)
  end.
  rewrite Hinit. cbn [fst snd].
  change (lxc_method (taskContainer host config cfg) (lxc.Create (toLXCCreateOptions dc)))
    with (createCall host config cfg dc).
  rewrite Hcreate. reflexivity.
Qed.

Lemma reached_network_decoded cfg w dc w2 :
  reached_network host config cfg w dc w2 → DecodeDriverConfig host cfg = inl dc.
Proof. by intros (w1 & (_ & Hdec & _) & _). Qed.

(** A failed create step is no created container. *)
Lemma create_failed cfg w dc w1 err :
  reached_create host config cfg w dc w1 →
  lxc_reply host (calls w1) (createCall host config cfg dc) = Some err →
  create_succeeded host (calls w) (issued w (record (createCall host config cfg dc) w1))
  = false.
Proof.
  intros (_ & _ & Hinit) Hcreate.
  destruct (tame_initializeContainer host config cfg dc (announced w))
    as [[_ (ic & Hc1 & Hic)] _].
  rewrite Hinit in Hc1. simpl in Hc1.
  rewrite (issued_app w _ (ic ++ [createCall host config cfg dc])).
  2: { simpl. by rewrite Hc1, <- app_assoc. }
  rewrite create_succeeded_skip by by apply harmless_not_Create.
  rewrite <- Hc1. unfold createCall in *. simpl. by rewrite Hcreate.
Qed.

(** A step that fails after the create step makes [StartTask] roll the
    container back, from the world the step left, and return the error
    of the step. *)
Lemma fails_after_create_run cfg w dc e wf :
  fails_after_create host config cfg w dc e wf →
  (∃ w2, reached_network host config cfg w dc w2 ∧ advances any_call w2 wf)
  ∧ StartTask host config cfg w
    = (Err e, (cleanup host (taskContainer host config cfg) wf).2).
Proof.
  intros [w2 e' w3 H2 Hnet | w3 e' w4 H3 Hmnt | w4 err H4 Hstart
         | w5 e' w6 H5 Hlim | w6 err H6 Henc].
  - split.
    { exists w2. split; [done|].
      destruct (tame_configureContainerNetwork host config (taskContainer host config cfg)
                  dc w2) as [Hadv _].
      by rewrite Hnet in Hadv. }
    rewrite (StartTask_created cfg w dc w2 H2). cbv zeta.
    destruct (cleanup_run host (taskContainer host config cfg) w3) as (w' & Hcl & _).
    mrun. rewrite Hnet. simpl. rewrite Hcl. done.
  - split.
    { destruct (after_mounts_from host config cfg w dc w3 _ w4 H3 Hmnt) as (w2 & H2 & Hadv).
      exists w2. split; [done|]. by apply (advances_relog any_call w2 w4). }
    destruct H3 as (w2 & H2 & Hnet).
    rewrite (StartTask_created cfg w dc w2 H2). cbv zeta.
    destruct (cleanup_run host (taskContainer host config cfg)
                (logged Error_ "failed to mountVolumes" w4)) as (w' & Hcl & _).
    mrun. rewrite Hnet. simpl. rewrite Hmnt. simpl.
    match goal with
    | |- context [cleanup host ?c ?wf] =>
        change wf with (logged Error_ "failed to mountVolumes" w4)
    end.
    rewrite Hcl. done.
  - split; [by apply started_from|].
    destruct H4 as (w3 & (w2 & H2 & Hnet) & Hmnt).
    rewrite (StartTask_created cfg w dc w2 H2). cbv zeta.
    destruct (cleanup_run host (taskContainer host config cfg)
                (record (startCall host config cfg dc) w4)) as (w' & Hcl & _).
    mrun. rewrite Hnet. simpl. rewrite Hmnt. simpl.
    change (lxc_method (taskContainer host config cfg)
              (lxc.StartExecute (TaskConfig.Command dc)))
      with (startCall host config cfg dc).
    rewrite Hstart. simpl.
    match goal with
    | |- context [cleanup host ?c ?wf] =>
        change wf with (record (startCall host config cfg dc) w4)
    end.
    rewrite Hcl. done.
  - split; [by eapply after_limits_from|].
    destruct H5 as (w4 & (w3 & (w2 & H2 & Hnet) & Hmnt) & Hstart & ->).
    rewrite (StartTask_created cfg w dc w2 H2). cbv zeta.
    destruct (cleanup_run host (taskContainer host config cfg) w6) as (w' & Hcl & _).
    mrun. rewrite Hnet. simpl. rewrite Hmnt. simpl.
    change (lxc_method (taskContainer host config cfg)
              (lxc.StartExecute (TaskConfig.Command dc)))
      with (startCall host config cfg dc).
    rewrite Hstart. simpl.
    match goal with
    | |- context [setResourceLimits host ?c cfg ?w5] =>
        change w5 with (record (startCall host config cfg dc) w4)
    end.
    rewrite Hlim. simpl. rewrite Hcl. done.
  - split.
    { destruct H6 as (w5 & H5 & Hlim).
      destruct (after_limits_from host config cfg w dc w5 _ w6 H5 Hlim) as (w2 & H2 & Hadv).
      exists w2. split; [done|]. eapply advances_trans; [exact Hadv|].
      apply (advances_relog any_call w6). unfold measured.
      eapply advances_trans; by apply advances_record. }
    destruct H6 as (w5 & (w4 & (w3 & (w2 & H2 & Hnet) & Hmnt) & Hstart & ->) & Hlim).
    rewrite (StartTask_created cfg w dc w2 H2). cbv zeta.
    destruct (cleanup_run host (taskContainer host config cfg)
                (logged Error_ "failed to start task, error setting driver state"
                   (measured host config cfg w6))) as (w' & Hcl & _).
    mrun. rewrite Hnet. simpl. rewrite Hmnt. simpl.
    change (lxc_method (taskContainer host config cfg)
              (lxc.StartExecute (TaskConfig.Command dc)))
      with (startCall host config cfg dc).
    rewrite Hstart. simpl.
    match goal with
    | |- context [setResourceLimits host ?c cfg ?w5] =>
        change w5 with (record (startCall host config cfg dc) w4)
    end.
    rewrite Hlim. simpl.
    match goal with
    | |- context [MsgPackEncode host ?st] =>
        change st with (startedState host config cfg w6)
    end.
    rewrite Henc. simpl.
    match goal with
    | |- context [cleanup host ?c ?wf] =>
        change wf with
          (logged Error_ "failed to start task, error setting driver state"
             (measured host config cfg w6))
    end.
    rewrite Hcl. done.
Qed.

(** C1: a step of [StartTask] fails after the create step when the run
    has reached it and it returns an error there: the network
    configuration, the mounts and devices, the start of the init
    process, the resource limits or the encoding of the driver state.
    Whenever one does, [StartTask] returns an error, the one of the
    step (after its own words for the start and for the driver state);
    before it returns it rolls the container back from the world the
    step left: it asks whether the container runs, stops it if it does,
    destroys it, and writes one line to the log for a stop or a destroy
    that fails.  The task store is as before the call, and the error is
    the same whatever [Stop] and [Destroy] answer.  Conversely, when
    [StartTask] returns an error after a [Create] that succeeded, one
    of these steps has failed in the run, with that error, and the run
    ends with this rollback. *)
Theorem StartTask_rollback cfg w :
  let c := taskContainer host config cfg in
  (∀ dc e wf,
     fails_after_create host config cfg w dc e wf →
     ∃ w', StartTask host config cfg w = (Err e, w')
           ∧ create_succeeded host (calls w) (issued w w') = true
           ∧ calls w' = calls wf ++ rollback_calls host (calls wf) c
           ∧ logs w' = logs wf ++ rollback_logs host (calls wf) c
           ∧ tasks w' = tasks w
           ∧ ∀ f, (StartTask (with_rollback_replies host f) config cfg w).1 = Err e)
  ∧ (∀ e w',
       StartTask host config cfg w = (Err e, w') →
       create_succeeded host (calls w) (issued w w') = true →
       rolled_back host c w w'
       ∧ tasks w' = tasks w
       ∧ (∃ dc, DecodeDriverConfig host cfg = inl dc
                ∧ failed_step host config cfg dc c e
                ∧ ∃ wf, fails_after_create host config cfg w dc e wf
                        ∧ calls w' = calls wf ++ rollback_calls host (calls wf) c
                        ∧ logs w' = logs wf ++ rollback_logs host (calls wf) c)
       ∧ ∀ f, (StartTask (with_rollback_replies host f) config cfg w).1 = Err e).
Proof.
  intros c.
  assert (Hfwd : ∀ dc e wf,
            fails_after_create host config cfg w dc e wf →
            ∃ w', StartTask host config cfg w = (Err e, w')
                  ∧ create_succeeded host (calls w) (issued w w') = true
                  ∧ calls w' = calls wf ++ rollback_calls host (calls wf) c
                  ∧ logs w' = logs wf ++ rollback_logs host (calls wf) c).
  { intros dc e wf Hf.
    destruct (fails_after_create_run cfg w dc e wf Hf) as [(w2 & H2 & Hadv) Hrun].
    destruct (cleanup_run host c wf) as (w' & Hcl & Hc & Hl & _).
    fold c in Hrun. rewrite Hcl in Hrun. exists w'. split; [exact Hrun|].
    split; [|done].
    apply (reached_network_created host config cfg w dc w2 w' H2).
    destruct Hadv as [_ (new & Hnew & _)].
    exists (new ++ rollback_calls host (calls wf) c). by rewrite Hc, Hnew, <- app_assoc. }
  assert (Herr : ∀ e w', StartTask host config cfg w = (Err e, w') →
            tasks w' = tasks w
            ∧ ∀ f, (StartTask (with_rollback_replies host f) config cfg w).1 = Err e).
  { intros e w' Hrun. split.
    - pose proof (StartTask_outcome host config cfg w) as H. rewrite Hrun in H.
      simpl in H. by destruct H as [Ht _].
    - intros f. by rewrite StartTask_replies, Hrun. }
  split.
  - intros dc e wf Hf. destruct (Hfwd dc e wf Hf) as (w' & Hrun & Hcreated & Hc & Hl).
    destruct (Herr e w' Hrun) as [Ht Hf']. by exists w'.
  - intros e w' Hrun Hcreated. destruct (Herr e w' Hrun) as [Ht Hf'].
    pose proof (StartTask_outcome host config cfg w) as H.
    rewrite Hrun in H. simpl in H. destruct H as [_ [Hharm|(dc & Hdec & _ & Hif)]].
    { rewrite create_succeeded_none in Hcreated by by apply harmless_not_Create. done. }
    rewrite Hcreated in Hif. destruct Hif as [Hback Hstep].
    split; [done|]. split; [done|]. split; [|done].
    exists dc. split; [done|]. split; [done|].
    assert (Hfails : ∃ dc' wf, fails_after_create host config cfg w dc' e wf
                               ∧ cleanup host c wf = (Ok tt, w')).
    { pose proof (StartTask_paths host config cfg w _ _ Hrun) as Hpath.
      inversion Hpath as
        [ h Hget | err Hget Hdec' | dc' e' w1 Hget Hdec' Hinit | dc' w1 err H1 Hcreate
        | dc' w2 e' w3 w0 H2 Hnet Hcl | dc' w3 e' w4 w0 H3 Hmnt Hcl | dc' w3 msg w4 H3 Hmnt
        | dc' w4 err w0 H4 Hstart Hcl | dc' w5 e' w6 w0 H5 Hlim Hcl
        | dc' w6 err w0 H6 Henc Hcl | dc' w6 blob H6 Henc ]; subst.
      - unfold issued in Hcreated. by rewrite drop_all in Hcreated.
      - unfold issued in Hcreated. by rewrite drop_all in Hcreated.
      - destruct (tame_initializeContainer host config cfg dc' (announced w))
          as [[_ (ic & Hc1 & Hic)] _].
        rewrite Hinit in Hc1. simpl in Hc1.
        rewrite (issued_app w _ ic) in Hcreated by done.
        rewrite create_succeeded_none in Hcreated by by apply harmless_not_Create. done.
      - by rewrite (create_failed cfg w dc' w1 err) in Hcreated.
      - eexists dc', _. split; [by eapply fails_network|done].
      - eexists dc', _. split; [by eapply fails_mounts|done].
      - eexists dc', _. split; [by eapply fails_start|done].
      - eexists dc', _. split; [by eapply fails_limits|done].
      - eexists dc', _. split; [by eapply fails_state|done]. }
    destruct Hfails as (dc' & wf & Hf & Hcl).
    assert (dc' = dc) as ->.
    { destruct (fails_after_create_run cfg w dc' e wf Hf) as [(w2 & H2 & _) _].
      apply reached_network_decoded in H2. congruence. }
    exists wf. split; [done|].
    destruct (cleanup_run host c wf) as (w0 & Hcl0 & Hc & Hl & _).
    rewrite Hcl in Hcl0. by injection Hcl0 as <-.
Qed.

End Rollback.

(** C1 on a run: the network mode "none" is undefined, the container runs,
    and both [Stop] and [Destroy] fail.  The network step fails after the
    create step, and [StartTask] returns its error after the three calls
    of the rollback, which leaves two lines in the log. *)
Lemma StartTask_rollback_witness :
  let dc := example_taskConfig "" "" "none" [] in
  let host := unix_host rollback_fails true dc in
  let e := errorString "Network mode is undefined" in
  let w2 := record (createCall host example_config example_cfg dc)
              (initializeContainer host example_config example_cfg dc
                 (announced empty_world)).2 in
  fails_after_create host example_config example_cfg empty_world dc e w2
  ∧ ∃ w', StartTask host example_config example_cfg empty_world = (Err e, w')
          ∧ create_succeeded host [] (calls w') = true
          ∧ calls w' = calls w2 ++ [lxc_method example_container lxc.Running;
                                    lxc_method example_container lxc.Stop;
                                    lxc_method example_container lxc.Destroy]
          ∧ logs w' = logs w2
                      ++ [(Error_, "failed to Stop during clean up from an error in Start");
                          (Error_, "failed to Destroy during clean up from an error in Start")]
          ∧ tasks w' = ∅
          ∧ rolled_back host example_container empty_world w'
          ∧ (StartTask (with_rollback_replies host (λ _ _, None)) example_config example_cfg
               empty_world).1 = Err e.
Proof.
  intros dc host e w2.
  assert (Hf : fails_after_create host example_config example_cfg empty_world dc e w2).
  { apply (fails_network host example_config example_cfg empty_world dc w2 e w2).
    - exists (initializeContainer host example_config example_cfg dc
                (announced empty_world)).2.
      split; [|split; [|reflexivity]].
      + split; [|split]; vm_compute; reflexivity.
      + vm_compute. reflexivity.
    - vm_compute. reflexivity. }
  split; [exact Hf|].
  destruct (StartTask_rollback host example_config example_cfg empty_world) as [Hfwd Hbwd].
  destruct (Hfwd dc e w2 Hf) as (w' & Hrun & Hcreated & Hc & Hl & Ht & Hany).
  destruct (Hbwd e w' Hrun Hcreated) as (Hback & _).
  exists w'. split; [exact Hrun|]. split; [exact Hcreated|]. split; [exact Hc|].
  split; [exact Hl|]. split; [exact Ht|]. split; [exact Hback|]. apply Hany.
Defined.

(** ** Numbers *)

Lemma Round_multiple t d : 0 < d → Round t d mod d = 0.
Proof.
  intros Hd. unfold Round. pose proof (Z.div_mod t d ltac:(lia)) as Hdm.
  destruct (t mod d + t mod d <? d).
  - replace (t - t mod d) with (t / d * d) by lia. apply Z.mod_mul; lia.
  - replace (t + (d - t mod d)) with ((t / d + 1) * d) by lia. apply Z.mod_mul; lia.
Qed.

Lemma Round_nearest t d : 0 < d → 2 * Z.abs (Round t d - t) ≤ d.
Proof.
  intros Hd. unfold Round. pose proof (Z.mod_pos_bound t d Hd).
  destruct (Z.ltb_spec (t mod d + t mod d) d); lia.
Qed.

(** ** The task store *)

Section Store.

Context {Blob : Type}.
Variable host : Host Blob.
Variable config : Config.t.

Lemma DestroyTask_run taskID force w handle :
  tasks w !! taskID = Some handle →
  ∃ w',
    calls w' = calls w
      ++ (if IsRunning host (calls w) handle && negb force then [asked_IsRunning handle]
          else [asked_IsRunning handle; asked_IsRunning handle]
               ++ (if IsRunning host (calls w ++ [asked_IsRunning handle]) handle
                   then [called_shutdown handle time_Minute] else [])
               ++ [lxc_method (container handle) lxc.Destroy])
    ∧ if IsRunning host (calls w) handle && negb force
      then DestroyTask host taskID force w
           = (Err (errorString "cannot destroy running task"), w')
           ∧ tasks w' = tasks w
      else DestroyTask host taskID force w = (Ok tt, w')
           ∧ tasks w' = delete taskID (tasks w).
Proof.
  intros Hget. unfold DestroyTask. mrun. rewrite Hget. simpl.
  destruct (IsRunning host (calls w) handle && negb force); simpl.
  { eexists. split; [|split; [reflexivity|]]; done. }
  destruct (IsRunning host (calls w ++ _) handle); simpl;
    repeat match goal with
           | |- context [lxc_reply host ?h ?x] => destruct (lxc_reply host h x); simpl
           end;
    eexists; (split; [|split; [reflexivity|done]]); simpl;
    rewrite <- ?app_assoc; reflexivity.
Qed.

Lemma DestroyTask_unknown taskID force w :
  tasks w !! taskID = None →
  DestroyTask host taskID force w
  = (Err ErrTaskNotFound, logged Info "destory lxc task" w).
Proof. intros Hget. unfold DestroyTask. mrun. by rewrite Hget. Qed.

Lemma RecoverTask_run handle w :
  drivers.Version handle ≠ 0 →
  RecoverTask host config (Some handle) w =
    let w0 := logged Info "recover lxc task" w in
    match tasks w !! drivers.ID (drivers.Config handle) with
    | Some _ => (Ok tt, w0)
    | None =>
        match handleState host handle with
        | inr err => (Err (Errorf "failed to decode task state from handle: " err), w0)
        | inl st =>
            let h := recoveredHandle host config st (calls w) in
            let new := lxc_NewContainer (ContainerName st) (lxcPath host config) in
            match lxc_reply host (calls w) new with
            | Some err => (Err (Errorf "failed to create container ref: " err), record new w0)
            | None =>
                (Ok tt,
                 record (spawned_run h)
                   (stored (drivers.ID (TaskState_TaskConfig st)) h
                      (record (lxc_method (container h) lxc.InitPid) (record new w0))))
            end
        end
    end.
Proof.
  intros Hv. apply Z.eqb_neq in Hv. unfold RecoverTask, handleState. mrun. rewrite Hv.
  simpl. destruct (tasks w !! _); [done|].
  destruct (match drivers.DriverState handle with
            | Some blob => MsgPackDecode host blob
            | None => inr (errorString "EOF")
            end) as [st|err]; [|done].
  simpl. by destruct (lxc_reply host (calls w) _).
Qed.

End Store.

(** ** The monitor loop *)

Section Monitor.

Variable Signal : Z → nat → option error.

Lemma waitTillStopped_loop_stops k : ∀ fuel pid s e,
  (∀ j, (j < k)%nat → Signal pid (probes s + j) = None) →
  Signal pid (probes s + k) = Some e →
  (k < fuel)%nat →
  waitTillStopped_loop Signal fuel pid s
  = (Some (true, None),
     {| probes := S (probes s + k);
        slept := slept s + Z.of_nat k * containerMonitorIntv |}).
Proof.
  induction k as [|k IH]; intros fuel pid s e Hbefore Hk Hfuel.
  - destruct fuel as [|fuel]; [lia|]. simpl. rewrite Nat.add_0_r in Hk. rewrite Hk.
    rewrite Nat.add_0_r. do 2 f_equal. lia.
  - destruct fuel as [|fuel]; [lia|]. simpl.
    assert (H0 : Signal pid (probes s) = None).
    { rewrite <- (Nat.add_0_r (probes s)). apply Hbefore. lia. }
    rewrite H0.
    rewrite (IH fuel pid {| probes := S (probes s);
                            slept := slept s + containerMonitorIntv |} e); simpl.
    + do 2 f_equal; [f_equal; lia|lia].
    + intros j Hj. replace (S (probes s + j))%nat with (probes s + S j)%nat by lia.
      apply Hbefore. lia.
    + by replace (S (probes s + k))%nat with (probes s + S k)%nat by lia.
    + lia.
Qed.

Lemma waitTillStopped_loop_runs fuel : ∀ pid s,
  (∀ j, (j < fuel)%nat → Signal pid (probes s + j) = None) →
  waitTillStopped_loop Signal fuel pid s
  = (None,
     {| probes := probes s + fuel;
        slept := slept s + Z.of_nat fuel * containerMonitorIntv |}).
Proof.
  induction fuel as [|fuel IH]; intros pid s Hall; simpl.
  - destruct s as [p sl]. simpl. do 2 f_equal; lia.
  - assert (H0 : Signal pid (probes s) = None).
    { rewrite <- (Nat.add_0_r (probes s)). apply Hall. lia. }
    rewrite H0. rewrite IH; simpl.
    + do 2 f_equal; lia.
    + intros j Hj. replace (S (probes s + j))%nat with (probes s + S j)%nat by lia.
      apply Hall. lia.
Qed.

End Monitor.

(** * More properties of the driver *)

Lemma app_two {A} (l : list A) a b : l ++ [a; b] = (l ++ [a]) ++ [b].
Proof. by rewrite <- app_assoc. Qed.

Lemma app_three {A} (l : list A) a b c : l ++ [a; b; c] = ((l ++ [a]) ++ [b]) ++ [c].
Proof. by rewrite <- !app_assoc. Qed.

Section Mounting.

Context {Blob : Type}.
Variable host : Host Blob.
Variable config : Config.t.

(** X1: [formatMount] always returns an entry, makes no call to the
    runtime and leaves the task store alone.  The entry is
    "hostPath target none perm,bind,create=typ": the target is the task
    path without its leading slashes (the task path is some slashes
    followed by the target, and the target does not begin with one, so
    it is never absolute); the permission is "ro" exactly for a
    read-only mount; the type is "file" exactly when the host path is
    found and is not a directory.  A host path that cannot be found is
    mounted as a directory, and is the only case that writes a warning
    to the log. *)
Theorem formatMount_relative_target hostPath taskPath readOnly w :
  ∃ n target typ w',
    formatMount host hostPath taskPath readOnly w
    = (Ok (hostPath +:+ " " +:+ target +:+ " none "
             +:+ (if readOnly then "ro" else "rw") +:+ ",bind,create=" +:+ typ), w')
    ∧ taskPath = string_of_list_ascii (replicate n "/"%char) +:+ target
    ∧ target = GoStrings.TrimLeft taskPath "/"
    ∧ GoFilepath.IsAbs target = false
    ∧ (typ = "file" ∧ os_Stat host hostPath = Some false
       ∨ typ = "dir" ∧ os_Stat host hostPath ≠ Some false)
    ∧ calls w' = calls w
    ∧ tasks w' = tasks w
    ∧ logs w' = logs w
        ++ match os_Stat host hostPath with
           | None =>
               [(Warn, "failed to find mount host path type, defaulting to dir type")]
           | Some _ => []
           end.
Proof.
  rewrite formatMount_entry. destruct (TrimLeft_slashes taskPath) as [n Hn].
  exists n, (GoStrings.TrimLeft taskPath "/"), (mount_type host hostPath). eexists.
  split; [reflexivity|]. split; [exact Hn|]. split; [reflexivity|].
  split; [apply TrimLeft_relative|].
  unfold mount_type. destruct (os_Stat host hostPath) as [[]|]; simpl;
    rewrite ?app_nil_r; repeat split; auto.
Qed.

(** X2: when [mountEntries] succeeds, the list it returns is, in this
    order: the three directories of the task (local, alloc, secrets),
    one entry for each mount of the task, one for each device, one for
    each volume.  Every volume string had its four fields and, with
    volumes disabled, none was refused.  [mountEntries] makes no call to
    the runtime and leaves the task store alone. *)
Theorem mountEntries_Ok_plan cfg tc w ms w' :
  mountEntries host config cfg tc w = (Ok ms, w') →
  ms = fixedMounts cfg ++ taskMountEntries host cfg ++ taskDeviceEntries host cfg
         ++ map (volume_entry host cfg) (TaskConfig.Volumes tc)
  ∧ length ms = (3 + length (drivers.Mounts cfg) + length (drivers.Devices cfg)
                 + length (TaskConfig.Volumes tc))%nat
  ∧ Forall (λ v, wellformed_volume v = true) (TaskConfig.Volumes tc)
  ∧ (Config.AllowVolumes config = false →
     Forall (λ v, volume_refused host cfg v = false) (TaskConfig.Volumes tc))
  ∧ calls w' = calls w
  ∧ tasks w' = tasks w.
Proof.
  intros H. destruct (mountEntries_quiet host config cfg tc w) as [Hc Ht].
  rewrite H in Hc, Ht. destruct (mountEntries_Ok host config cfg tc w ms w' H)
    as (-> & Hwf & Hoff).
  split; [done|]. split; [|done].
  unfold plannedMounts, taskMountEntries, taskDeviceEntries.
  rewrite !length_app, !length_map. simpl. lia.
Qed.

(** X3: with volumes enabled [mountEntries] never returns an error.  It
    returns the mount entries of the task when every volume string has
    at least four fields separated by colons, and panics with an index
    out of range as soon as one has fewer. *)
Theorem mountEntries_with_volumes_enabled cfg tc w :
  Config.AllowVolumes config = true →
  (mountEntries host config cfg tc w).1
  = if forallb wellformed_volume (TaskConfig.Volumes tc)
    then Ok (plannedMounts host cfg tc)
    else Panic "index out of range".
Proof.
  intros Hon. destruct (mountEntries_plan host config cfg tc w) as (w1 & _ & _ & ->).
  rewrite Hon. destruct (forallb wellformed_volume (TaskConfig.Volumes tc)) eqn:Hwf.
  - assert (Hall : Forall (λ v, wellformed_volume v = true) (TaskConfig.Volumes tc)).
    { apply Forall_forall. intros v Hv. apply list_elem_of_In in Hv.
      by apply (proj1 (forallb_forall _ _) Hwf). }
    destruct (mountEntries_volumes_enabled host cfg _
                (fixedMounts cfg ++ taskMountEntries host cfg ++ taskDeviceEntries host cfg)
                w1 Hall) as (w' & -> & _).
    simpl. unfold plannedMounts. by rewrite <- !app_assoc.
  - by apply mountEntries_volumes_malformed.
Qed.

(** X4: with volumes disabled and volume strings of four fields,
    [mountEntries] is decided by the first refused volume: if its
    source is absolute the error is "absolute bind-mount volume in
    config but volumes are disabled", else it is "bind-mount path
    escapes task directory but volumes are disabled"; if no volume is
    refused, the mount entries of the task are returned. *)
Theorem mountEntries_first_refused cfg tc w :
  Config.AllowVolumes config = false →
  Forall (λ v, wellformed_volume v = true) (TaskConfig.Volumes tc) →
  (mountEntries host config cfg tc w).1
  = match find (volume_refused host cfg) (TaskConfig.Volumes tc) with
    | Some v =>
        Err (if GoFilepath.IsAbs (volume_field v 0)
             then absoluteVolumeError else escapingVolumeError)
    | None => Ok (plannedMounts host cfg tc)
    end.
Proof.
  intros Hoff Hwf. destruct (mountEntries_plan host config cfg tc w) as (w1 & _ & _ & ->).
  rewrite Hoff, mountEntries_volumes_disabled by done.
  destruct (find _ _); [done|]. unfold plannedMounts. by rewrite <- !app_assoc.
Qed.

(** X5: [devicesCgroupEntries] is all or nothing and has no effect.
    It returns one cgroup rule for each device of the task, in order,
    when every device resolves; otherwise it returns the error of the
    first device that does not resolve, and no rule.  It never
    panics. *)
Theorem devicesCgroupEntries_all_or_nothing cfg w :
  match devicesCgroupEntries host cfg w with
  | (Ok entries, w') =>
      w' = w
      ∧ Forall2 (device_resolves host) (drivers.Devices cfg) entries
      ∧ length entries = length (drivers.Devices cfg)
  | (Err e, w') =>
      w' = w
      ∧ ∃ pre d post entries,
          drivers.Devices cfg = pre ++ d :: post
          ∧ Forall2 (device_resolves host) pre entries
          ∧ DeviceFromPath host (drivers.device_HostPath d)
              (drivers.device_Permissions d) = inr e
  | (Panic _, _) => False
  end.
Proof.
  unfold devicesCgroupEntries.
  pose proof (devicesCgroupEntries_loop_run host (drivers.Devices cfg) w) as H.
  destruct (devicesCgroupEntries_loop host (drivers.Devices cfg) w) as [[es|e|msg] w'];
    [|done|done].
  destruct H as [-> H]. split; [done|]. split; [done|].
  symmetry. by eapply Forall2_length.
Qed.

(** X6: when [mountVolumes] succeeds it has set, on the container and
    in this order, one "lxc.mount.entry" item for each mount entry of
    the task and then one "lxc.cgroup.devices.allow" item for each
    device, and has made no other call. *)
Theorem mountVolumes_Ok_trace c cfg tc w w' :
  mountVolumes host config c cfg tc w = (Ok tt, w') →
  ∃ ds,
    Forall2 (device_resolves host) (drivers.Devices cfg) ds
    ∧ issued w w'
      = map (mountItem c) (plannedMounts host cfg tc) ++ map (deviceItem c) ds
    ∧ tasks w' = tasks w.
Proof.
  intros H. pose proof (mountVolumes_run host config c cfg tc w) as Hrun.
  rewrite H in Hrun. destruct Hrun as (ds & _ & Hds & Hc & Ht).
  exists ds. split; [done|]. split; [|done]. by apply issued_app.
Qed.

(** X7: when [mountVolumes] returns an error, either the plan failed
    (the error is the one of [mountEntries] or of a device that does
    not resolve) and no call was made to the runtime at all, or the
    runtime refused an item: then that item is the last call made, only
    items were set before it, and the error is the one of the runtime
    after "error setting bind mount", or "error setting cgroup
    permission", and the refused entry as [%q] prints it: between
    double quotes, escaped as [strconv.Quote] does when the entry is
    made of ASCII bytes. *)
Theorem mountVolumes_failure c cfg tc w e w' :
  mountVolumes host config c cfg tc w = (Err e, w') →
  tasks w' = tasks w
  ∧ ((issued w w' = []
      ∧ ((mountEntries host config cfg tc w).1 = Err e
         ∨ ∃ d, d ∈ drivers.Devices cfg
                ∧ DeviceFromPath host (drivers.device_HostPath d)
                    (drivers.device_Permissions d) = inr e))
     ∨ ∃ pre x err,
         issued w w' = pre ++ [x]
         ∧ lxc_reply host (calls w ++ pre) x = Some err
         ∧ Forall (λ y, ∃ k v, y = lxc_method c (lxc.SetConfigItem k v)) (pre ++ [x])
         ∧ ((∃ mnt q, mnt ∈ plannedMounts host cfg tc
                      ∧ x = mountItem c mnt
                      ∧ e = Errorf ("error setting bind mount " +:+ q +:+ " error: ") err
                      ∧ quoted mnt q)
            ∨ ∃ dev q, x = deviceItem c dev
                       ∧ e = Errorf ("error setting cgroup permission " +:+ q
                                       +:+ " error: ") err
                       ∧ quoted dev q)).
Proof.
  intros H. pose proof (mountVolumes_run host config c cfg tc w) as Hrun.
  rewrite H in Hrun. destruct Hrun as [Ht [[Hc Hplan]|(pre & x & err & Hc & Hrest)]].
  - split; [done|]. left. split; [|done]. unfold issued. by rewrite Hc, drop_all.
  - split; [done|]. right. exists pre, x, err. split; [by apply issued_app|].
    destruct Hrest as (Hreply & Hall & [(mnt & Hin & Hx & He)|(dev & Hx & He)]).
    + split; [done|]. split; [done|]. left. by exists mnt, (Sprintf_q mnt).
    + split; [done|]. split; [done|]. right. by exists dev, (Sprintf_q dev).
Qed.

(** X8: once the options of the task are in their tables,
    [initializeContainer] succeeds as soon as the runtime gives the
    container reference and accepts the log level and the log file.
    What the runtime answers to the configuration items and to the load
    of the base file does not matter: all the calls are made, the
    container is returned, and a failed load only leaves one warning
    between the two lines that the function always logs. *)
Theorem initializeContainer_succeeds cfg tc w v l :
  let c := taskContainer host config cfg in
  let new := lxc_NewContainer (lxc.Name c) (lxc.ConfigPath c) in
  let setV := lxc_method c (lxc.SetVerbosity v) in
  let setL := lxc_method c (lxc.SetLogLevel l) in
  let setF := lxc_method c (lxc.SetLogFile
                (filepath_Join host (drivers.Dir (drivers.taskDir cfg))
                               (drivers.Name cfg +:+ "-lxc.log"))) in
  let load := lxc_method c (lxc.LoadConfigFile (baseConfigFile config tc)) in
  verbosityLevels !! TaskConfig.Verbosity tc = Some v →
  logLevels !! TaskConfig.LogLevel tc = Some l →
  lxc_reply host (calls w) new = None →
  lxc_reply host (calls w ++ [new; setV]) setL = None →
  lxc_reply host (calls w ++ [new; setV; setL]) setF = None →
  ∃ w',
    initializeContainer host config cfg tc w = (Ok c, w')
    ∧ calls w' = calls w ++ initItems host config cfg tc v l
    ∧ tasks w' = tasks w
    ∧ logs w' = logs w ++ [(Info, "NewContainer")]
        ++ match lxc_reply host (calls w ++ [new] ++ taskSettings host config cfg tc v l)
                   load with
           | Some _ => [(Warn, "failed to load default config")]
           | None => []
           end
        ++ [(Info, "Done initializeContainer")].
Proof.
  intros c new setV setL setF load Hv Hl Hnew HsetL HsetF.
  subst c new setV setL setF load. unfold initItems, taskSettings, baseConfigFile.
  unfold taskContainer in *. simpl in Hnew, HsetL, HsetF |- *.
  rewrite app_two in HsetL. rewrite app_three in HsetF.
  unfold initializeContainer. mrun.
  rewrite Hnew. simpl. rewrite Hv. simpl. rewrite Hl. simpl.
  rewrite HsetL. simpl. rewrite HsetF. simpl.
  rewrite !setEnvironment_run. simpl.
  repeat match goal with
         | |- context [lxc_reply host ?h1 (lxc_method ?c (lxc.LoadConfigFile ?f))] =>
             match goal with
             | |- context [lxc_reply host ?h2 (lxc_method c (lxc.LoadConfigFile f))] =>
                 tryif constr_eq h1 h2 then fail
                 else replace h1 with h2 by (by rewrite <- !app_assoc)
             end
         end.
  destruct (lxc_reply host _ (lxc_method _ (lxc.LoadConfigFile _))); simpl;
    eexists; (split; [reflexivity|]); simpl; rewrite <- !app_assoc; done.
Qed.

End Mounting.

Section Starting.

Context {Blob : Type}.
Variable host : Host Blob.
Variable config : Config.t.

Lemma harmless_no_Create l : Forall harmless l → existsb is_Create l = false.
Proof.
  induction 1 as [|x l [Hx _] _ IH]; simpl; [done|]. by rewrite Hx, IH.
Qed.

Lemma setting_not_rollback c m :
  is_setting m = true → is_rollback (lxc_method c m) = false.
Proof. by destruct m. Qed.

(** The path of a run that succeeded. *)
Lemma StartTask_started cfg w handle w' :
  StartTask host config cfg w = (Ok handle, w') →
  ∃ dc w6 blob,
    reached_state host config cfg w dc w6
    ∧ MsgPackEncode host (startedState host config cfg w6) = inl blob
    ∧ handle = {| drivers.Version := taskHandleVersion;
                  drivers.Config := cfg;
                  drivers.DriverState := Some blob |}
    ∧ w' = record (spawned_run (startedHandle host config cfg w6))
             (stored (drivers.ID cfg) (startedHandle host config cfg w6)
                (measured host config cfg w6)).
Proof.
  intros H. apply StartTask_paths in H.
  remember (Ok handle) as r eqn:Hr.
  destruct H as
    [ h Hget | err Hget Hdec | dc e w1 Hget Hdec Hinit | dc w1 err H1 Hcreate
    | dc w2 e w3 w' H2 Hnet Hcl | dc w3 e w4 w' H3 Hmnt Hcl | dc w3 msg w4 H3 Hmnt
    | dc w4 err w' H4 Hstart Hcl | dc w5 e w6 w' H5 Hlim Hcl
    | dc w6 err w' H6 Henc Hcl | dc w6 blob H6 Henc ]; try discriminate.
  injection Hr as <-. by exists dc, w6, blob.
Qed.

Lemma reached_state_free cfg w dc w6 :
  reached_state host config cfg w dc w6 →
  tasks w !! drivers.ID cfg = None ∧ DecodeDriverConfig host cfg = inl dc.
Proof.
  intros (w5 & (w4 & (w3 & (w2 & (w1 & (Hget & Hdec & _) & _) & _) & _) & _) & _). done.
Qed.

(** X9: the calls of a successful [StartTask], in order: the container
    reference, the settings of the task and the load of the base file;
    [Create]; the network items of the mode in force; one mount item
    for each mount entry and one device item for each device;
    [StartExecute] with the command of the task; the calls of the
    resource limits; the process identifier, the clock, and the start
    of the monitor of the handle that is registered. *)
Theorem StartTask_success_trace cfg w handle w' :
  StartTask host config cfg w = (Ok handle, w') →
  ∃ dc v l ds h,
    DecodeDriverConfig host cfg = inl dc
    ∧ verbosityLevels !! TaskConfig.Verbosity dc = Some v
    ∧ logLevels !! TaskConfig.LogLevel dc = Some l
    ∧ Forall2 (device_resolves host) (drivers.Devices cfg) ds
    ∧ tasks w' !! drivers.ID cfg = Some h
    ∧ issued w w'
      = setupItems host config cfg dc v l ds
        ++ limitItems host (taskContainer host config cfg) cfg
             (calls w ++ setupItems host config cfg dc v l ds)
        ++ [lxc_method (taskContainer host config cfg) lxc.InitPid;
            read_clock;
            spawned_run h].
Proof.
  intros H. destruct (StartTask_started cfg w handle w' H) as (dc & w6 & blob & H6 & _ & _ & ->).
  destruct (reached_state_trace host config cfg w dc w6 H6)
    as (v & l & ds & Hv & Hl & _ & Hds & Hc & _).
  destruct (reached_state_free cfg w dc w6 H6) as [_ Hdec].
  exists dc, v, l, ds, (startedHandle host config cfg w6).
  split; [done|]. split; [done|]. split; [done|]. split; [done|].
  split; [apply lookup_insert_eq|].
  apply issued_app. unfold measured, stored, record. cbn [calls].
  rewrite Hc, <- !app_assoc. done.
Qed.

(** X10: after a successful [StartTask] the task store is the one
    before the call with one more entry, under the ID of the task.  The
    handle registered there is in state Running, holds the container of
    the task and the process identifier the runtime gave after the
    limits were set, and its start time is the clock reading rounded to
    the nearest millisecond.  The handle returned to the caller has
    version 1, the task configuration, and the encoding of the
    container name, the task configuration and that same start time.
    The last call of the run starts the monitor of the registered
    handle. *)
Theorem StartTask_registered_handle cfg w handle w' :
  StartTask host config cfg w = (Ok handle, w') →
  ∃ h blob hist,
    tasks w !! drivers.ID cfg = None
    ∧ tasks w' = <[ drivers.ID cfg := h ]> (tasks w)
    ∧ calls w' = hist ++ [lxc_method (container h) lxc.InitPid; read_clock; spawned_run h]
    ∧ container h = taskContainer host config cfg
    ∧ taskConfig h = cfg
    ∧ procState h = drivers.TaskStateRunning
    ∧ exitResult h = None
    ∧ initPid h = lxc_InitPid host hist (container h)
    ∧ startedAt h mod time_Millisecond = 0
    ∧ 2 * Z.abs (startedAt h - Now host (hist ++ [lxc_method (container h) lxc.InitPid]))
      ≤ time_Millisecond
    ∧ handle = {| drivers.Version := 1;
                  drivers.Config := cfg;
                  drivers.DriverState := Some blob |}
    ∧ MsgPackEncode host {| TaskState_TaskConfig := cfg;
                            ContainerName := lxc.Name (container h);
                            StartedAt := startedAt h |} = inl blob.
Proof.
  intros H.
  destruct (StartTask_started cfg w handle w' H) as (dc & w6 & blob & H6 & Henc & -> & ->).
  destruct (reached_state_trace host config cfg w dc w6 H6)
    as (v & l & ds & _ & _ & _ & _ & _ & Ht).
  destruct (reached_state_free cfg w dc w6 H6) as [Hget _].
  exists (startedHandle host config cfg w6), blob, (calls w6).
  split; [done|]. split; [simpl; by rewrite Ht|].
  split; [simpl; by rewrite <- !app_assoc|].
  repeat (split; [reflexivity|]).
  split; [by apply Round_multiple|]. split; [by apply Round_nearest|].
  split; [done|]. exact Henc.
Qed.

(** X11: once a task is started, every further [StartTask] for the
    same task ID is refused with "task with ID ... already started",
    without any call to the runtime and without a change of the
    driver.  The message has the task ID as [%q] prints it: between
    double quotes, escaped as [strconv.Quote] does when the ID is made
    of ASCII bytes. *)
Theorem StartTask_twice cfg cfg' w handle w1 :
  StartTask host config cfg w = (Ok handle, w1) →
  drivers.ID cfg' = drivers.ID cfg →
  ∃ q, StartTask host config cfg' w1
       = (Err (errorString ("task with ID " +:+ q +:+ " already started")), w1)
       ∧ quoted (drivers.ID cfg') q.
Proof.
  intros H Hid.
  destruct (StartTask_started cfg w handle w1 H) as (dc & w6 & blob & _ & _ & _ & ->).
  exists (Sprintf_q (drivers.ID cfg')). split; [|done].
  unfold StartTask. mrun. rewrite Hid, lookup_insert_eq. done.
Qed.

(** X12: a forced [DestroyTask] undoes the registration of a
    successful [StartTask]: it returns nil, its last call destroys the
    container of the task, and the task store is again the one before
    the start. *)
Theorem StartTask_then_DestroyTask cfg w handle w1 :
  StartTask host config cfg w = (Ok handle, w1) →
  ∃ w2,
    DestroyTask host (drivers.ID cfg) true w1 = (Ok tt, w2)
    ∧ tasks w2 = tasks w
    ∧ last (calls w2) = Some (lxc_method (taskContainer host config cfg) lxc.Destroy).
Proof.
  intros H.
  destruct (StartTask_started cfg w handle w1 H) as (dc & w6 & blob & H6 & _ & _ & ->).
  destruct (reached_state_trace host config cfg w dc w6 H6)
    as (v & l & ds & _ & _ & _ & _ & _ & Ht).
  destruct (reached_state_free cfg w dc w6 H6) as [Hget _].
  match goal with
  | |- ∃ w2, DestroyTask host ?id true ?w1 = _ ∧ _ =>
      destruct (DestroyTask_run host id true w1 (startedHandle host config cfg w6))
        as (w2 & Hc & Hrun)
  end.
  { apply lookup_insert_eq. }
  rewrite andb_false_r in Hc, Hrun. destruct Hrun as [Hrun Ht2].
  exists w2. split; [done|]. split.
  - rewrite Ht2. simpl. rewrite Ht. by apply delete_insert_id.
  - rewrite Hc.
    match goal with
    | |- last (?a ++ ?b ++ ?c ++ [?x]) = _ =>
        rewrite (app_assoc b), (app_assoc a); apply last_snoc
    end.
Qed.

(** X13: when [StartTask] called [Create] and it did not succeed, the
    run stopped there: [Create] is its last call, the error returned is
    the one of [Create] marked recoverable, nothing is stopped or
    destroyed and the task store is as before. *)
Theorem StartTask_create_failure cfg w e w' :
  StartTask host config cfg w = (Err e, w') →
  existsb is_Create (issued w w') = true →
  create_succeeded host (calls w) (issued w w') = false →
  ∃ dc err,
    DecodeDriverConfig host cfg = inl dc
    ∧ last (calls w') = Some (createCall host config cfg dc)
    ∧ lxc_reply host (removelast (calls w')) (createCall host config cfg dc) = Some err
    ∧ e = NewRecoverableError err true
    ∧ Forall (λ x, is_rollback x = false) (issued w w')
    ∧ tasks w' = tasks w.
Proof.
  intros H Hcalled Hfailed. apply StartTask_paths, StartTask_path_classes in H.
  destruct H as [(e' & _ & Hharm & _)|[(dc & w1 & err & H1 & Hreply & He & ->)
                                      |(dc & w2 & H2 & Hnew & _)]].
  - by rewrite harmless_no_Create in Hcalled.
  - injection He as ->. exists dc, err.
    destruct H1 as (Hget & Hdec & Hinit). split; [done|].
    simpl. split; [apply last_snoc|]. rewrite removelast_last. split; [done|].
    split; [done|].
    assert (Hadv : advances (λ x, is_rollback x = false) w
                     (record (createCall host config cfg dc) w1)).
    { eapply advances_trans; [|by apply advances_record].
      apply (reached_create_advances host config (λ x, is_rollback x = false)
               (λ _, True) (λ _ _ _, eq_refl) (λ c m _, setting_not_rollback c m)
               cfg I w dc w1).
      by split. }
    destruct Hadv as [Ht (new & Hc & Hall)]. split; [|done].
    by rewrite (issued_app _ _ new).
  - by rewrite (reached_network_created host config cfg w dc w2 w') in Hfailed.
Qed.

(** X14: [StartTask] panics only with an index out of range, on a
    volume string with fewer than four fields.  When it does, the
    container was created already and is left behind: nothing is
    stopped or destroyed, and nothing is registered. *)
Theorem StartTask_panic_leaves_container cfg w msg w' :
  StartTask host config cfg w = (Panic msg, w') →
  msg = "index out of range"
  ∧ create_succeeded host (calls w) (issued w w') = true
  ∧ Forall (λ x, is_rollback x = false) (issued w w')
  ∧ tasks w' = tasks w
  ∧ ∃ dc, DecodeDriverConfig host cfg = inl dc
          ∧ ¬ Forall (λ v, wellformed_volume v = true) (TaskConfig.Volumes dc).
Proof.
  intros H. apply StartTask_paths, StartTask_path_classes in H.
  destruct H as [(e' & ? & _)|[(dc & w1 & err & _ & _ & ? & _)
                              |(dc & w2 & H2 & Hnew & Hcase)]]; try done.
  destruct Hcase as [(e' & ? & _)|[(w3 & msg' & H3 & Hmnt & Hmsg)|(h & ?)]]; try done.
  injection Hmsg as <-.
  pose proof (mountVolumes_run host config (taskContainer host config cfg) cfg dc w3)
    as Hrun.
  rewrite Hmnt in Hrun. destruct Hrun as (-> & Hnwf & _ & _).
  split; [done|]. split; [by eapply reached_network_created|].
  assert (Hadv : advances (λ x, is_rollback x = false) w w').
  { exact (after_mounts host config (λ x, is_rollback x = false) (λ _, True)
             (λ _ _ _, eq_refl) (λ c m _, setting_not_rollback c m) (λ _ _ _, eq_refl)
             cfg I w dc w3 _ w' H3 Hmnt). }
  destruct Hadv as [Ht (new & Hc & Hall)].
  split; [by rewrite (issued_app _ _ new)|]. split; [done|].
  exists dc. split; [|done].
  by destruct H2 as (w1 & (_ & Hdec & _) & _).
Qed.

(** X15: [StartTask] changes the task store only when it succeeds, and
    then only by the entry of the task, which was not there before; the
    monitor of a handle is started only when [StartTask] succeeds, as
    its last call.  A run that returns an error or panics leaves the
    task store as it was and starts no monitor. *)
Theorem StartTask_registers_on_success_only cfg w :
  let run := StartTask host config cfg w in
  match run.1 with
  | Ok _ =>
      ∃ h, tasks w !! drivers.ID cfg = None
           ∧ tasks run.2 = <[ drivers.ID cfg := h ]> (tasks w)
           ∧ last (calls run.2) = Some (spawned_run h)
  | _ =>
      tasks run.2 = tasks w
      ∧ Forall (λ x, is_spawn x = false) (issued w run.2)
  end.
Proof.
  intros run. subst run.
  assert (Hfail : ∀ r w', StartTask host config cfg w = (r, w') →
                          (∀ handle, r ≠ Ok handle) →
                          tasks w' = tasks w
                          ∧ Forall (λ x, is_spawn x = false) (issued w w')).
  { intros r w' H Hr. apply StartTask_paths in H.
    apply (failed_advances host config (λ x, is_spawn x = false) (λ _, True)) in H;
      try done.
    destruct H as [Ht (new & Hc & Hall)]. split; [done|].
    by rewrite (issued_app _ _ new). }
  destruct (StartTask host config cfg w) as [[handle|e|msg] w'] eqn:H; simpl.
  - destruct (StartTask_started cfg w handle w' H) as (dc & w6 & blob & H6 & _ & _ & ->).
    destruct (reached_state_trace host config cfg w dc w6 H6)
      as (v & l & ds & _ & _ & _ & _ & _ & Ht).
    destruct (reached_state_free cfg w dc w6 H6) as [Hget _].
    exists (startedHandle host config cfg w6). split; [done|].
    split; [simpl; by rewrite Ht|]. apply last_snoc.
  - by apply (Hfail _ _ eq_refl).
  - by apply (Hfail _ _ eq_refl).
Qed.

(** X26: whatever [StartTask] returns, every call it makes is about the
    container of the task, the one named after the task name and the
    allocation ID in the LXC path of the driver: the reference that is
    taken, every method that is called (the rollback included) and the
    handle whose monitor is started.  No other container is touched. *)
Theorem StartTask_own_container cfg w :
  Forall (targets (taskContainer host config cfg))
    (issued w (StartTask host config cfg w).2).
Proof.
  set (c := taskContainer host config cfg).
  assert (Hm : ∀ c' m, c' = c → targets c (lxc_method c' m)) by (by intros c' m ->).
  destruct (StartTask host config cfg w) as [[handle|e|msg] w'] eqn:H; simpl.
  - destruct (StartTask_started cfg w handle w' H)
      as (dc & w6 & blob & (w5 & H5 & Hlim) & _ & _ & ->).
    destruct (after_limits host config (targets c) (λ c', c' = c)) with
      (cfg := cfg) (w := w) (dc := dc) (w5 := w5) (r := Ok tt) (w6 := w6)
      as [_ (new & Hc & Hall)]; try done; try (by intros; apply Hm).
    { by intros name lxcpath <-. }
    rewrite (issued_app w _ (new ++ [lxc_method c lxc.InitPid; read_clock;
                                     spawned_run (startedHandle host config cfg w6)])).
    + apply Forall_app. split; [done|]. by repeat constructor.
    + simpl. rewrite Hc, <- !app_assoc. done.
  - apply StartTask_paths in H.
    apply (failed_advances host config (targets c) (λ c', c' = c)) in H;
      try done; try (by intros; apply Hm).
    + destruct H as [_ (new & Hc & Hall)]. by rewrite (issued_app w _ new).
    + by intros name lxcpath <-.
  - apply StartTask_paths in H.
    apply (failed_advances host config (targets c) (λ c', c' = c)) in H;
      try done; try (by intros; apply Hm).
    + destruct H as [_ (new & Hc & Hall)]. by rewrite (issued_app w _ new).
    + by intros name lxcpath <-.
Qed.

(** X27: [StartTask] reads the task options only through the fields it
    passes on.  The options image_variant, image_server, gpg_key_id,
    gpg_key_server, force_cache and portmap have no effect: two option
    sets that differ in these only give the same result, the same calls
    and the same task store. *)
Theorem StartTask_ignored_options dc dc' cfg w :
  consulted dc = consulted dc' →
  let run := StartTask (with_decoded host dc) config cfg w in
  let run' := StartTask (with_decoded host dc') config cfg w in
  run.1 = run'.1 ∧ calls run.2 = calls run'.2 ∧ tasks run.2 = tasks run'.2.
Proof.
  intros Heq run run'. subst run run'.
  assert (Hsame : ∀ d, StartTask (with_decoded host d) config cfg w
                       = StartTask (with_decoded host (consulted d)) config cfg w).
  { intros d. reflexivity. }
  by rewrite (Hsame dc), (Hsame dc'), Heq.
Qed.

(** X28: neither [StartTask] nor [RecoverTask] looks at the switch
    "enabled" or at the option "gc" of the driver: a disabled driver
    starts and recovers tasks exactly as an enabled one does. *)
Theorem StartTask_ignores_enabled config' cfg handle w :
  consulted_config config' = consulted_config config →
  StartTask host config' cfg w = StartTask host config cfg w
  ∧ RecoverTask host config' handle w = RecoverTask host config handle w.
Proof.
  intros Heq.
  assert (Hstart : ∀ k, StartTask host k cfg w = StartTask host (consulted_config k) cfg w).
  { intros k. reflexivity. }
  assert (Hrec : ∀ k, RecoverTask host k handle w
                      = RecoverTask host (consulted_config k) handle w).
  { intros k. reflexivity. }
  by rewrite (Hstart config'), (Hstart config), (Hrec config'), (Hrec config), Heq.
Qed.

End Starting.

Section Tasks.

Context {Blob : Type}.
Variable host : Host Blob.
Variable config : Config.t.

(** X16: [RecoverTask] on a handle of the current version whose task
    is not registered, whose state decodes and whose container
    reference the runtime gives, makes exactly three calls: the
    container reference by the name stored in the state, the process
    identifier, and the start of the monitor.  It registers a handle in
    state Running with the container name, task configuration and start
    time of the state, and an empty exit result.  The entry is made
    under the task ID stored in the state: if that differs from the ID
    of the handle's configuration, the latter stays unregistered. *)
Theorem RecoverTask_recovers handle st w :
  drivers.Version handle ≠ 0 →
  tasks w !! drivers.ID (drivers.Config handle) = None →
  handleState host handle = inl st →
  lxc_reply host (calls w) (lxc_NewContainer (ContainerName st) (lxcPath host config))
  = None →
  ∃ h w',
    RecoverTask host config (Some handle) w = (Ok tt, w')
    ∧ issued w w' = [lxc_NewContainer (ContainerName st) (lxcPath host config);
                     lxc_method (container h) lxc.InitPid;
                     spawned_run h]
    ∧ tasks w' = <[ drivers.ID (TaskState_TaskConfig st) := h ]> (tasks w)
    ∧ container h = {| lxc.Name := ContainerName st;
                       lxc.ConfigPath := lxcPath host config |}
    ∧ initPid h
      = lxc_InitPid host
          (calls w ++ [lxc_NewContainer (ContainerName st) (lxcPath host config)])
          (container h)
    ∧ taskConfig h = TaskState_TaskConfig st
    ∧ startedAt h = StartedAt st
    ∧ procState h = drivers.TaskStateRunning
    ∧ exitResult h = Some drivers.emptyExitResult
    ∧ (drivers.ID (TaskState_TaskConfig st) ≠ drivers.ID (drivers.Config handle) →
       tasks w' !! drivers.ID (drivers.Config handle) = None).
Proof.
  intros Hv Hget Hst Hnew. rewrite RecoverTask_run by done. cbv zeta.
  rewrite Hget, Hst, Hnew.
  exists (recoveredHandle host config st (calls w)). eexists. split; [reflexivity|].
  split.
  { apply issued_app. simpl. by rewrite <- !app_assoc. }
  split; [done|]. repeat (split; [reflexivity|]).
  intros Hne. simpl. by rewrite lookup_insert_ne.
Qed.

(** X17: the errors of [RecoverTask], for a nil handle and for a
    handle of the current version that carries its task configuration.
    A nil handle gives "error: handle cannot be nil".  For a task that
    is not registered, a driver state that cannot be decoded gives the
    decoding error after no call at all, and a container reference that
    cannot be obtained gives its error after that one call.  These are
    the only errors: when [RecoverTask] returns one, it is one of the
    three, the task store is as before and no monitor was started. *)
Theorem RecoverTask_failure handle w :
  (∀ h, handle = Some h → drivers.Version h ≠ 0) →
  let run := RecoverTask host config handle w in
  (handle = None → run.1 = Err (errorString "error: handle cannot be nil"))
  ∧ (∀ h err,
       handle = Some h →
       tasks w !! drivers.ID (drivers.Config h) = None →
       handleState host h = inr err →
       run.1 = Err (Errorf "failed to decode task state from handle: " err))
  ∧ (∀ h st err,
       handle = Some h →
       tasks w !! drivers.ID (drivers.Config h) = None →
       handleState host h = inl st →
       lxc_reply host (calls w)
         (lxc_NewContainer (ContainerName st) (lxcPath host config)) = Some err →
       run.1 = Err (Errorf "failed to create container ref: " err))
  ∧ ∀ e, run.1 = Err e →
      tasks run.2 = tasks w
      ∧ Forall (λ x, is_spawn x = false) (issued w run.2)
      ∧ ((handle = None ∧ e = errorString "error: handle cannot be nil"
          ∧ issued w run.2 = [])
         ∨ (∃ h err, handle = Some h ∧ handleState host h = inr err
                     ∧ tasks w !! drivers.ID (drivers.Config h) = None
                     ∧ e = Errorf "failed to decode task state from handle: " err
                     ∧ issued w run.2 = [])
         ∨ (∃ h st err,
              handle = Some h ∧ handleState host h = inl st
              ∧ tasks w !! drivers.ID (drivers.Config h) = None
              ∧ lxc_reply host (calls w)
                  (lxc_NewContainer (ContainerName st) (lxcPath host config)) = Some err
              ∧ e = Errorf "failed to create container ref: " err
              ∧ issued w run.2
                = [lxc_NewContainer (ContainerName st) (lxcPath host config)])).
Proof.
  intros Hv run. subst run. destruct handle as [h|].
  2: { split; [done|]. split; [done|]. split; [done|].
       intros e He. injection He as <-. simpl.
       unfold issued. simpl. rewrite drop_all. split; [done|]. split; [done|].
       by left. }
  rewrite RecoverTask_run by by apply Hv. cbv zeta.
  split; [done|]. split; [|split].
  - intros h' err Hh Hget Hst. injection Hh as <-. by rewrite Hget, Hst.
  - intros h' st err Hh Hget Hst Hnew. injection Hh as <-. by rewrite Hget, Hst, Hnew.
  - destruct (tasks w !! _) eqn:Hget; [done|].
    destruct (handleState host h) as [st|err] eqn:Hst.
    2: { intros e He. injection He as <-. simpl.
         unfold issued. simpl. rewrite drop_all. split; [done|]. split; [done|].
         right; left. by exists h, err. }
    destruct (lxc_reply host (calls w) _) as [err|] eqn:Hnew; [|done].
    intros e He. injection He as <-. simpl.
    unfold issued. simpl. rewrite drop_app_length. split; [done|].
    split; [by repeat constructor|]. right; right. by exists h, st, err.
Qed.

(** X18: recovery is idempotent for handles whose state carries the
    task ID of their configuration: after a successful [RecoverTask],
    recovering the same handle again returns nil without a call to the
    runtime, without a second monitor and without a change of the task
    store. *)
Theorem RecoverTask_twice handle w w1 :
  drivers.Version handle ≠ 0 →
  (∀ st, handleState host handle = inl st →
         drivers.ID (TaskState_TaskConfig st) = drivers.ID (drivers.Config handle)) →
  RecoverTask host config (Some handle) w = (Ok tt, w1) →
  ∃ w2, RecoverTask host config (Some handle) w1 = (Ok tt, w2)
        ∧ calls w2 = calls w1
        ∧ tasks w2 = tasks w1.
Proof.
  intros Hv Hid H. rewrite RecoverTask_run in H by done. cbv zeta in H.
  assert (Hreg : is_Some (tasks w1 !! drivers.ID (drivers.Config handle))).
  { destruct (tasks w !! _) as [h0|] eqn:Hget.
    - injection H as <-. by exists h0.
    - destruct (handleState host handle) as [st|err] eqn:Hst; [|done].
      destruct (lxc_reply host (calls w) _); [done|]. injection H as <-. simpl.
      rewrite (Hid st eq_refl), lookup_insert_eq. by eexists. }
  destruct Hreg as [h1 Hreg]. rewrite RecoverTask_run by done. cbv zeta.
  rewrite Hreg. by eexists.
Qed.

(** X19: the calls of [DestroyTask] on a registered task.  The handle
    is asked twice whether the task runs.  If the first answer is yes
    and force is not set, nothing else is done.  Otherwise the second
    answer alone decides whether the task is shut down first, with a
    grace period of one minute, whether force is set or not; the
    container is destroyed last. *)
Theorem DestroyTask_trace taskID force w handle :
  tasks w !! taskID = Some handle →
  let first := IsRunning host (calls w) handle in
  let second := IsRunning host (calls w ++ [asked_IsRunning handle]) handle in
  issued w (DestroyTask host taskID force w).2
  = if first && negb force then [asked_IsRunning handle]
    else [asked_IsRunning handle; asked_IsRunning handle]
         ++ (if second then [called_shutdown handle 60000000000] else [])
         ++ [lxc_method (container handle) lxc.Destroy].
Proof.
  intros Hget first second. subst first second.
  destruct (DestroyTask_run host taskID force w handle Hget) as (w' & Hc & Hrun).
  apply issued_app.
  destruct (IsRunning host (calls w) handle && negb force);
    destruct Hrun as [-> _]; exact Hc.
Qed.

(** X20: [DestroyTask] never panics and never touches the entry of
    another task.  On an ID that is not registered it returns "task not
    found" without any call.  When it returns nil the task is no longer
    registered, so that destroying it again returns "task not
    found". *)
Theorem DestroyTask_frame taskID force w :
  let run := DestroyTask host taskID force w in
  (∀ msg, run.1 ≠ Panic msg)
  ∧ (∀ id, id ≠ taskID → tasks run.2 !! id = tasks w !! id)
  ∧ (tasks w !! taskID = None →
     run.1 = Err ErrTaskNotFound ∧ calls run.2 = calls w ∧ tasks run.2 = tasks w)
  ∧ (run.1 = Ok tt →
     tasks run.2 !! taskID = None
     ∧ ∀ force', (DestroyTask host taskID force' run.2).1 = Err ErrTaskNotFound).
Proof.
  intros run. subst run. destruct (tasks w !! taskID) as [handle|] eqn:Hget.
  - destruct (DestroyTask_run host taskID force w handle Hget) as (w' & _ & Hrun).
    destruct (IsRunning host (calls w) handle && negb force).
    + destruct Hrun as [-> Ht]. simpl. split; [done|]. split; [by rewrite Ht|]. done.
    + destruct Hrun as [-> Ht]. simpl. split; [done|].
      split; [intros id Hid; by rewrite Ht, lookup_delete_ne|].
      split; [done|]. intros _.
      assert (Hgone : tasks w' !! taskID = None) by (by rewrite Ht, lookup_delete_eq).
      split; [done|]. intros force'. by rewrite DestroyTask_unknown.
  - rewrite DestroyTask_unknown by done. simpl. done.
Qed.

(** X21: [StopTask] never changes the task store and ignores the
    signal it is given.  On an ID that is not registered it returns
    "task not found" without any call.  On a registered task its only
    call is the shutdown of the handle with the timeout it was given;
    an error of the shutdown is returned after the words "executor
    Shutdown failed: ".  The task stays registered whatever the
    shutdown returned: a forced [DestroyTask] afterwards finds it and
    removes it. *)
Theorem StopTask_keeps_task taskID timeout signal w :
  let run := StopTask host taskID timeout signal w in
  tasks run.2 = tasks w
  ∧ (∀ msg, run.1 ≠ Panic msg)
  ∧ (∀ signal', StopTask host taskID timeout signal' w = run)
  ∧ match tasks w !! taskID with
    | None => run.1 = Err ErrTaskNotFound ∧ calls run.2 = calls w
    | Some h =>
        calls run.2 = calls w ++ [called_shutdown h timeout]
        ∧ run.1 = match lxc_reply host (calls w) (called_shutdown h timeout) with
                  | None => Ok tt
                  | Some e => Err (Errorf "executor Shutdown failed: " e)
                  end
        ∧ ∃ w', DestroyTask host taskID true run.2 = (Ok tt, w')
                ∧ tasks w' = delete taskID (tasks w)
    end.
Proof.
  intros run. subst run. unfold StopTask. mrun.
  destruct (tasks w !! taskID) as [h|] eqn:Hget; simpl; [|done].
  assert (Hdestroy : ∀ w1, tasks w1 = tasks w →
            ∃ w', DestroyTask host taskID true w1 = (Ok tt, w')
                  ∧ tasks w' = delete taskID (tasks w)).
  { intros w1 Ht. destruct (DestroyTask_run host taskID true w1 h) as (w' & _ & Hrun).
    { by rewrite Ht. }
    rewrite andb_false_r in Hrun. destruct Hrun as [-> Ht']. exists w'.
    by rewrite Ht', Ht. }
  destruct (lxc_reply host (calls w) _); simpl;
    (split; [done|]); (split; [done|]); (split; [done|]); (split; [done|]);
    (split; [done|]); by apply Hdestroy.
Qed.

(** X29: a recovered task blocks a new start.  After a successful
    [RecoverTask] of a task that was not registered, [StartTask] for the
    task ID stored in the recovered state is refused with "task with ID
    ... already started", without any call to the runtime and without a
    change of the driver.  The message has the task ID as [%q] prints
    it: between double quotes, escaped as [strconv.Quote] does when
    the ID is made of ASCII bytes. *)
Theorem RecoverTask_then_StartTask handle st cfg w w1 :
  drivers.Version handle ≠ 0 →
  tasks w !! drivers.ID (drivers.Config handle) = None →
  handleState host handle = inl st →
  RecoverTask host config (Some handle) w = (Ok tt, w1) →
  drivers.ID cfg = drivers.ID (TaskState_TaskConfig st) →
  ∃ q, StartTask host config cfg w1
       = (Err (errorString ("task with ID " +:+ q +:+ " already started")), w1)
       ∧ quoted (drivers.ID cfg) q.
Proof.
  intros Hv Hget Hst H Hid. rewrite RecoverTask_run in H by done. cbv zeta in H.
  rewrite Hget, Hst in H.
  destruct (lxc_reply host (calls w) _); [done|]. injection H as <-.
  exists (Sprintf_q (drivers.ID cfg)). split; [|done].
  unfold StartTask. mrun. by rewrite Hid, lookup_insert_eq.
Qed.

(** X30: in the driver that started it, a task needs no recovery:
    [RecoverTask] on the handle returned by a successful [StartTask]
    returns nil without any call to the runtime, without a second
    monitor and without a change of the task store. *)
Theorem StartTask_then_RecoverTask cfg w handle w1 :
  StartTask host config cfg w = (Ok handle, w1) →
  ∃ w2, RecoverTask host config (Some handle) w1 = (Ok tt, w2)
        ∧ calls w2 = calls w1
        ∧ tasks w2 = tasks w1.
Proof.
  intros H.
  destruct (StartTask_started host config cfg w handle w1 H)
    as (dc & w6 & blob & _ & _ & -> & ->).
  rewrite RecoverTask_run by done. cbv zeta. simpl.
  rewrite lookup_insert_eq. by eexists.
Qed.

End Tasks.

Section Fingerprinting.

Variable config : Config.t.

(** X22: the fingerprint is healthy exactly when the driver is enabled
    and the LXC library reports a version; otherwise it is undetected,
    never unhealthy.  The description is "ready" when healthy and
    "disabled" otherwise.  The attribute "driver.lxc" (true) and
    "driver.lxc.version" (the version) are present exactly when the
    fingerprint is healthy. *)
Theorem buildFingerprint_health lxcVersion :
  let fp := buildFingerprint config lxcVersion in
  let detected := Config.Enabled config = true ∧ lxcVersion ≠ "" in
  (Health fp = HealthStateHealthy ↔ detected)
  ∧ (Health fp = HealthStateUndetected ↔ ¬ detected)
  ∧ Health fp ≠ HealthStateUnhealthy
  ∧ (HealthDescription fp = "ready" ↔ detected)
  ∧ (HealthDescription fp = "disabled" ↔ ¬ detected)
  ∧ (Attributes fp !! "driver.lxc" = Some (NewBoolAttribute true) ↔ detected)
  ∧ (Attributes fp !! "driver.lxc" = None ↔ ¬ detected)
  ∧ (Attributes fp !! "driver.lxc.version" = Some (NewStringAttribute lxcVersion)
     ↔ detected)
  ∧ (Attributes fp !! "driver.lxc.version" = None ↔ ¬ detected).
Proof.
  intros fp detected. subst fp detected. unfold buildFingerprint.
  destruct (Config.Enabled config); simpl.
  - destruct (String.eqb_spec lxcVersion "") as [->|Hne]; simpl;
      destruct (Config.AllowVolumes config); simpl;
      rewrite ?lookup_insert_ne, ?lookup_insert_eq, ?lookup_empty by done;
      naive_solver.
  - destruct (Config.AllowVolumes config); simpl;
      rewrite ?lookup_insert_ne, ?lookup_insert_eq, ?lookup_empty by done;
      naive_solver.
Qed.

(** X23: the attribute "driver.lxc.volumes.enabled" follows the volume
    switch alone: it is present (true) exactly when volumes are
    allowed, also when the driver is disabled or undetected.  The
    fingerprint has no other attributes than that one, "driver.lxc" and
    "driver.lxc.version". *)
Theorem buildFingerprint_volumes lxcVersion :
  let fp := buildFingerprint config lxcVersion in
  Attributes fp !! "driver.lxc.volumes.enabled"
  = (if Config.AllowVolumes config then Some (NewBoolAttribute true) else None)
  ∧ ∀ key, is_Some (Attributes fp !! key) →
           key ∈ ["driver.lxc"; "driver.lxc.version"; "driver.lxc.volumes.enabled"].
Proof.
  intros fp. subst fp. unfold buildFingerprint.
  destruct (Config.Enabled config && negb (lxcVersion =? "")%string),
    (Config.AllowVolumes config); simpl;
    rewrite ?lookup_insert_ne, ?lookup_insert_eq, ?lookup_empty by done;
    (split; [done|]); intros key;
    rewrite ?lookup_insert_is_Some, lookup_empty, is_Some_alt; set_solver.
Qed.

End Fingerprinting.

Section Monitoring.

Context {Blob : Type}.
Variable host : Host Blob.
Variable FindProcess : Z → option error.
Variable Signal : Z → nat → option error.

(** X24: [waitTillStopped] returns (true, nil) at the first signal that
    fails.  It has then slept the monitor interval of two seconds once
    for each signal that succeeded before, and has asked the runtime
    for the process identifier once, at the start. *)
Theorem waitTillStopped_returns fuel c w k e :
  let pid := lxc_InitPid host (calls w) c in
  FindProcess pid = None →
  (∀ j, (j < k)%nat → Signal pid j = None) →
  Signal pid k = Some e →
  (k < fuel)%nat →
  waitTillStopped host FindProcess Signal fuel c w
  = (Ok (Some (true, None),
         {| probes := S k; slept := Z.of_nat k * 2000000000 |}),
     record (lxc_method c lxc.InitPid) w).
Proof.
  intros pid Hfind Hbefore Hk Hfuel. unfold waitTillStopped. mrun. fold pid.
  rewrite Hfind. simpl.
  rewrite (waitTillStopped_loop_stops Signal k fuel pid _ e); try done.
Qed.

(** X25: [waitTillStopped] returns false only with the error of
    [os.FindProcess], before any signal is sent.  While every signal
    succeeds it does not return: after any number of rounds it is still
    looping, having slept two seconds for each. *)
Theorem waitTillStopped_blocks fuel c w :
  let pid := lxc_InitPid host (calls w) c in
  let run := waitTillStopped host FindProcess Signal fuel c w in
  run.2 = record (lxc_method c lxc.InitPid) w
  ∧ (∀ err s, run.1 = Ok (Some (false, err), s) →
              FindProcess pid = err ∧ is_Some err ∧ probes s = 0%nat)
  ∧ (∀ err s, run.1 = Ok (Some (true, err), s) →
              err = None ∧ FindProcess pid = None ∧ (0 < probes s)%nat
              ∧ is_Some (Signal pid (probes s - 1)))
  ∧ (FindProcess pid = None →
     (∀ j, (j < fuel)%nat → Signal pid j = None) →
     run.1 = Ok (None, {| probes := fuel; slept := Z.of_nat fuel * 2000000000 |})).
Proof.
  intros pid run. subst run. unfold waitTillStopped. mrun. fold pid.
  destruct (FindProcess pid) as [err0|] eqn:Hfind; simpl.
  { split; [done|]. split; [|split; [|done]].
    - intros err s H. injection H as <- <-. by eauto.
    - intros err s H. discriminate. }
  split; [done|].
  assert (Hloop : ∀ n s0 r s,
    waitTillStopped_loop Signal n pid s0 = (Some r, s) →
    r = (true, None) ∧ (probes s0 < probes s)%nat
    ∧ is_Some (Signal pid (probes s - 1))).
  { induction n as [|n IH]; intros s0 r s H; simpl in H; [done|].
    destruct (Signal pid (probes s0)) as [e|] eqn:Hs.
    - injection H as <- <-. split; [done|]. split; [simpl; lia|]. cbn [probes].
      replace (S (probes s0) - 1)%nat with (probes s0) by lia. by rewrite Hs.
    - apply IH in H. simpl in H. destruct H as (-> & Hlt & Hsig).
      split; [done|]. split; [lia|done]. }
  split; [|split].
  - intros err s H. injection H as H. apply Hloop in H. by destruct H as [? _].
  - intros err s H. injection H as H. apply Hloop in H.
    destruct H as (Hr & Hlt & Hsig). injection Hr as <-.
    split; [done|]. split; [done|]. split; [simpl in Hlt; lia|done].
  - intros _ Hall. by rewrite waitTillStopped_loop_runs.
Qed.

End Monitoring.

(** ** The other properties on concrete runs *)

(** X2 on a run: a task with one mount, one device and one volume. *)
Lemma mountEntries_Ok_plan_witness :
  let tc := example_taskConfig "" "" "" ["data:/data:rw:dir"] in
  let host := unix_host never_fails false tc in
  let run := mountEntries host example_config example_cfg_devices tc empty_world in
  run.1 = Ok ["/alloc/123/web/local local none rw,bind,create=dir";
              "/alloc/123/alloc alloc none rw,bind,create=dir";
              "/alloc/123/web/secrets secrets none rw,bind,create=dir";
              "/srv/data data none ro,bind,create=dir";
              "/dev/null dev/null none rw,bind,create=dir";
              "/alloc/123/web/data data none rw,bind,create=dir"]
  ∧ calls run.2 = []
  ∧ tasks run.2 = ∅.
Proof.
  intros tc host run.
  destruct run as [[ms| |] w'] eqn:Hrun; try (vm_compute in Hrun; discriminate).
  destruct (mountEntries_Ok_plan host example_config example_cfg_devices tc empty_world
              ms w' Hrun) as (Hms & _ & _ & _ & Hc & Ht).
  split; [|by split]. simpl. rewrite Hms. vm_compute. reflexivity.
Defined.

(** X3 on a run: with volumes enabled a volume string of two fields makes
    [mountEntries] panic. *)
Lemma mountEntries_with_volumes_enabled_witness :
  let tc := example_taskConfig "" "" "" ["/srv/data:/data"] in
  let host := unix_host never_fails false tc in
  (mountEntries host (volumes_enabled example_config) example_cfg tc empty_world).1
  = Panic "index out of range".
Proof.
  intros tc host.
  rewrite (mountEntries_with_volumes_enabled host (volumes_enabled example_config)
             example_cfg tc empty_world eq_refl).
  vm_compute. reflexivity.
Defined.

(** X4 on a run: the first volume is accepted, the second is absolute and
    the third climbs out of the task directory; the error is the one of the
    second. *)
Lemma mountEntries_first_refused_witness :
  let tc := example_taskConfig "" "" ""
              ["logs:/logs:rw:dir"; "/etc:/mnt/etc:ro:dir"; "../x:/x:rw:dir"] in
  let host := unix_host never_fails false tc in
  (mountEntries host example_config example_cfg tc empty_world).1
  = Err (errorString "absolute bind-mount volume in config but volumes are disabled").
Proof.
  intros tc host.
  rewrite (mountEntries_first_refused host example_config example_cfg tc empty_world
             eq_refl).
  - vm_compute. reflexivity.
  - repeat constructor.
Defined.

(** X6 on a run: the items of the example task with a mount and a
    device. *)
Lemma mountVolumes_Ok_trace_witness :
  let tc := example_taskConfig "" "" "" [] in
  let host := unix_host never_fails false tc in
  let run := mountVolumes host example_config example_container example_cfg_devices tc
               empty_world in
  ∃ ds,
    Forall2 (device_resolves host) (drivers.Devices example_cfg_devices) ds
    ∧ issued empty_world run.2
      = map (mountItem example_container) (plannedMounts host example_cfg_devices tc)
        ++ map (deviceItem example_container) ds
    ∧ tasks run.2 = tasks empty_world.
Proof.
  intros tc host run.
  destruct run as [[[]| |] w'] eqn:Hrun; try (vm_compute in Hrun; discriminate).
  exact (mountVolumes_Ok_trace host example_config example_container example_cfg_devices
           tc empty_world w' Hrun).
Defined.

(** X7 on a run: the runtime refuses the cgroup rule of the device, after
    the five mount entries were set. *)
Lemma mountVolumes_failure_witness :
  let tc := example_taskConfig "" "" "" [] in
  let host := unix_host device_items_fail false tc in
  let run := mountVolumes host example_config example_container example_cfg_devices tc
               empty_world in
  run.1 = Err (deviceError "c 1:3 rw" (errorString "invalid argument"))
  ∧ length (issued empty_world run.2) = 6%nat
  ∧ last (calls run.2) = Some (deviceItem example_container "c 1:3 rw")
  ∧ tasks run.2 = tasks empty_world.
Proof.
  intros tc host run.
  destruct run as [[[]|e|] w] eqn:Hrun; try (vm_compute in Hrun; discriminate).
  destruct (mountVolumes_failure host example_config example_container
              example_cfg_devices tc empty_world e w Hrun) as [Ht _].
  split; [|split; [|split; [|exact Ht]]].
  - vm_compute in Hrun. injection Hrun as <- _. reflexivity.
  - vm_compute in Hrun. injection Hrun as _ <-. reflexivity.
  - vm_compute in Hrun. injection Hrun as _ <-. reflexivity.
Defined.

(** X8 on a run: the runtime refuses every configuration item and cannot
    load the base file; [initializeContainer] still returns the
    container. *)
Lemma initializeContainer_succeeds_witness :
  let tc := example_taskConfig "" "" "" [] in
  let host := unix_host items_fail false tc in
  ∃ w',
    initializeContainer host example_config example_cfg tc empty_world
    = (Ok example_container, w')
    ∧ calls w' = initItems host example_config example_cfg tc lxc.Quiet lxc.ERROR
    ∧ tasks w' = ∅
    ∧ logs w' = [(Info, "NewContainer");
                 (Warn, "failed to load default config");
                 (Info, "Done initializeContainer")].
Proof.
  intros tc host.
  exact (initializeContainer_succeeds host example_config example_cfg tc empty_world
           lxc.Quiet lxc.ERROR eq_refl eq_refl eq_refl eq_refl eq_refl).
Defined.

(** X9 on a run: the calls of a successful start of the example task. *)
Lemma StartTask_success_trace_witness :
  let dc := example_taskConfig "" "" "" [] in
  let host := unix_host never_fails true dc in
  let run := StartTask host example_config example_cfg empty_world in
  ∃ handle h,
    run.1 = Ok handle
    ∧ tasks run.2 !! drivers.ID example_cfg = Some h
    ∧ issued empty_world run.2
      = setupItems host example_config example_cfg dc lxc.Quiet lxc.ERROR []
        ++ [cgroupItem example_container "memory.max" "268435456";
            cgroupItem example_container "cpu.weight" "512";
            lxc_method example_container lxc.InitPid;
            read_clock;
            spawned_run h].
Proof.
  intros dc host run.
  destruct run as [[handle| |] w1] eqn:Hrun; try (vm_compute in Hrun; discriminate).
  destruct (StartTask_success_trace host example_config example_cfg empty_world
              handle w1 Hrun) as (dc' & v & l & ds & h & Hdec & Hv & Hl & Hds & Hh & Htrace).
  exists handle, h. split; [reflexivity|]. split; [exact Hh|].
  injection Hdec as <-. injection Hv as <-. injection Hl as <-.
  inversion Hds. subst ds. exact Htrace.
Defined.

(** X10 on a run: the clock reads 1700000000123456789 nanoseconds, the
    handle is registered with the start time 1700000000123000000. *)
Lemma StartTask_registered_handle_witness :
  let host := unix_host never_fails true (example_taskConfig "" "" "" []) in
  let run := StartTask host example_config example_cfg empty_world in
  ∃ handle h,
    run.1 = Ok handle
    ∧ tasks run.2 = <[ drivers.ID example_cfg := h ]> ∅
    ∧ last (calls run.2) = Some (spawned_run h)
    ∧ container h = example_container
    ∧ initPid h = 4242
    ∧ procState h = drivers.TaskStateRunning
    ∧ startedAt h mod 1000000 = 0
    ∧ drivers.DriverState handle
      = Some {| TaskState_TaskConfig := example_cfg;
                ContainerName := "web-123";
                StartedAt := startedAt h |}.
Proof.
  intros host run.
  destruct run as [[handle| |] w1] eqn:Hrun; try (vm_compute in Hrun; discriminate).
  destruct (StartTask_registered_handle host example_config example_cfg empty_world
              handle w1 Hrun)
    as (h & blob & hist & _ & Ht & Hc & Hcont & _ & Hstate & _ & Hpid & Hmod & _ & Hh & Henc).
  exists handle, h. split; [reflexivity|]. split; [exact Ht|].
  split; [simpl; rewrite Hc, app_three; apply last_snoc|].
  split; [exact Hcont|]. split; [exact Hpid|]. split; [exact Hstate|].
  split; [exact Hmod|]. rewrite Hh. simpl. simpl in Henc. rewrite Hcont in Henc.
  by injection Henc as <-.
Defined.

(** X11 on a run: the example task is started twice. *)
Lemma StartTask_twice_witness :
  let host := unix_host never_fails true (example_taskConfig "" "" "" []) in
  let w1 := (StartTask host example_config example_cfg empty_world).2 in
  StartTask host example_config example_cfg_devices w1
  = (Err (errorString
            ("task with ID " +:+ Sprintf_q "alloc-123/web" +:+ " already started")),
     w1).
Proof.
  intros host w1. subst w1.
  destruct (StartTask host example_config example_cfg empty_world)
    as [[handle| |] w1] eqn:Hrun; try (vm_compute in Hrun; discriminate).
  destruct (StartTask_twice host example_config example_cfg example_cfg_devices empty_world
              handle w1 Hrun eq_refl) as (q & Hq & Hquoted).
  rewrite (Hquoted eq_refl) in Hq. exact Hq.
Defined.

(** X12 on a run: the example task is started and destroyed. *)
Lemma StartTask_then_DestroyTask_witness :
  let host := unix_host never_fails true (example_taskConfig "" "" "" []) in
  let w1 := (StartTask host example_config example_cfg empty_world).2 in
  ∃ w2,
    DestroyTask host (drivers.ID example_cfg) true w1 = (Ok tt, w2)
    ∧ tasks w2 = ∅
    ∧ last (calls w2) = Some (lxc_method example_container lxc.Destroy).
Proof.
  intros host w1. subst w1.
  destruct (StartTask host example_config example_cfg empty_world)
    as [[handle| |] w1] eqn:Hrun; try (vm_compute in Hrun; discriminate).
  exact (StartTask_then_DestroyTask host example_config example_cfg empty_world
           handle w1 Hrun).
Defined.

(** X13 on a run: the template of the example task is not found. *)
Lemma StartTask_create_failure_witness :
  let dc := example_taskConfig "" "" "" [] in
  let host := unix_host create_fails true dc in
  let run := StartTask host example_config example_cfg empty_world in
  run.1 = Err (RecoverableError "template not found" true)
  ∧ last (calls run.2) = Some (createCall host example_config example_cfg dc)
  ∧ Forall (λ x, is_rollback x = false) (issued empty_world run.2)
  ∧ tasks run.2 = ∅.
Proof.
  intros dc host run.
  destruct run as [[|e|] w1] eqn:Hrun; try (vm_compute in Hrun; discriminate).
  assert (Hcalled : existsb is_Create (issued empty_world w1) = true).
  { vm_compute in Hrun. injection Hrun as _ <-. reflexivity. }
  assert (Hfailed : create_succeeded host (calls empty_world) (issued empty_world w1)
                    = false).
  { vm_compute in Hrun. injection Hrun as _ <-. reflexivity. }
  destruct (StartTask_create_failure host example_config example_cfg empty_world e w1
              Hrun Hcalled Hfailed)
    as (dc' & err & Hdec & Hlast & Hreply & He & Hall & Ht).
  injection Hdec as <-.
  split; [|split; [exact Hlast|split; [exact Hall|exact Ht]]].
  vm_compute in Hrun. injection Hrun as <- _. reflexivity.
Defined.

(** X14 on a run: volumes are disabled and the volume string "logs:/logs"
    has a relative source inside the task directory, so it is accepted,
    and two fields only. *)
Lemma StartTask_panic_leaves_container_witness :
  let dc := example_taskConfig "" "" "" ["logs:/logs"] in
  let host := unix_host never_fails true dc in
  let run := StartTask host example_config example_cfg empty_world in
  (∃ w', run = (Panic "index out of range", w'))
  ∧ create_succeeded host [] (issued empty_world run.2) = true
  ∧ Forall (λ x, is_rollback x = false) (issued empty_world run.2)
  ∧ tasks run.2 = ∅.
Proof.
  intros dc host run.
  destruct run as [[| |msg] w1] eqn:Hrun; try (vm_compute in Hrun; discriminate).
  destruct (StartTask_panic_leaves_container host example_config example_cfg empty_world
              msg w1 Hrun) as (-> & Hcreated & Hall & Ht & _).
  split; [by exists w1|]. split; [exact Hcreated|]. split; [exact Hall|exact Ht].
Defined.

(** X16 on a run: the example task is recovered in a fresh driver. *)
Lemma RecoverTask_recovers_witness :
  let host := unix_host never_fails true (example_taskConfig "" "" "" []) in
  ∃ h w',
    RecoverTask host example_config (Some example_recoverable) empty_world = (Ok tt, w')
    ∧ issued empty_world w'
      = [lxc_NewContainer "web-123" "/var/lib/lxc";
         lxc_method example_container lxc.InitPid;
         spawned_run h]
    ∧ tasks w' = <[ "alloc-123/web" := h ]> ∅
    ∧ startedAt h = 1700000000123000000
    ∧ exitResult h = Some drivers.emptyExitResult.
Proof.
  intros host.
  destruct (RecoverTask_recovers host example_config example_recoverable example_TaskState
              empty_world)
    as (h & w' & Hrun & Hcalls & Ht & Hcont & _ & _ & Hstart & _ & Hexit & _).
  - vm_compute. discriminate.
  - reflexivity.
  - reflexivity.
  - reflexivity.
  - exists h, w'. split; [exact Hrun|]. split; [by rewrite Hcalls, Hcont|].
    split; [exact Ht|]. split; [exact Hstart|exact Hexit].
Defined.

(** X17 on a run: the container reference of the example task cannot be
    obtained. *)
Lemma RecoverTask_failure_witness :
  let fails := λ x, match x with
                    | lxc_NewContainer _ _ => Some (errorString "no such container")
                    | _ => None
                    end in
  let host := unix_host fails true (example_taskConfig "" "" "" []) in
  let run := RecoverTask host example_config (Some example_recoverable) empty_world in
  run.1 = Err (errorString "failed to create container ref: no such container")
  ∧ tasks run.2 = ∅
  ∧ Forall (λ x, is_spawn x = false) (issued empty_world run.2).
Proof.
  intros fails host run.
  destruct (RecoverTask_failure host example_config (Some example_recoverable)
              empty_world) as (_ & _ & Hnew & Herr).
  { intros h Hh. injection Hh as <-. vm_compute. discriminate. }
  assert (H1 : run.1 = Err (errorString "failed to create container ref: no such container")).
  { apply (Hnew example_recoverable example_TaskState (errorString "no such container"));
      vm_compute; reflexivity. }
  destruct (Herr _ H1) as (Ht & Hall & _).
  split; [exact H1|]. split; [exact Ht|exact Hall].
Defined.

(** X18 on a run: the example task is recovered twice. *)
Lemma RecoverTask_twice_witness :
  let host := unix_host never_fails true (example_taskConfig "" "" "" []) in
  let w1 := (RecoverTask host example_config (Some example_recoverable) empty_world).2 in
  ∃ w2, RecoverTask host example_config (Some example_recoverable) w1 = (Ok tt, w2)
        ∧ calls w2 = calls w1
        ∧ tasks w2 = tasks w1.
Proof.
  intros host w1. subst w1.
  destruct (RecoverTask host example_config (Some example_recoverable) empty_world)
    as [[[]| |] w1] eqn:Hrun; try (vm_compute in Hrun; discriminate).
  apply (RecoverTask_twice host example_config example_recoverable empty_world w1).
  - vm_compute. discriminate.
  - intros st Hst. vm_compute in Hst. by injection Hst as <-.
  - exact Hrun.
Defined.

(** X19 on a run: the example task runs and force is set. *)
Lemma DestroyTask_trace_witness :
  let host := unix_host never_fails true (example_taskConfig "" "" "" []) in
  issued world_with_task
    (DestroyTask host (drivers.ID example_cfg) true world_with_task).2
  = [asked_IsRunning example_handle;
     asked_IsRunning example_handle;
     called_shutdown example_handle 60000000000;
     lxc_method example_container lxc.Destroy].
Proof.
  intros host.
  exact (DestroyTask_trace host (drivers.ID example_cfg) true world_with_task
           example_handle eq_refl).
Defined.

(** X24 on a run: the process answers three signals and is gone at the
    fourth: the monitor has slept six seconds. *)
Lemma waitTillStopped_returns_witness :
  let host := unix_host never_fails true (example_taskConfig "" "" "" []) in
  waitTillStopped host example_FindProcess example_Signal 10 example_container empty_world
  = (Ok (Some (true, None), {| probes := 4; slept := 6000000000 |}),
     record (lxc_method example_container lxc.InitPid) empty_world).
Proof.
  intros host.
  apply (waitTillStopped_returns host example_FindProcess example_Signal 10
           example_container empty_world 3
           (errorString "os: process already finished")).
  - reflexivity.
  - intros j Hj. unfold example_Signal. by destruct (Nat.ltb_spec j 3); [|lia].
  - reflexivity.
  - lia.
Defined.

(** X27 on a run: the example task with and without an image server, a
    variant, a key, a forced cache and a port map. *)
Lemma StartTask_ignored_options_witness :
  let host := unix_host never_fails true (example_taskConfig "" "" "" []) in
  let run := StartTask (with_decoded host (example_taskConfig "" "" "" []))
               example_config example_cfg empty_world in
  let run' := StartTask (with_decoded host example_taskConfig_image)
                example_config example_cfg empty_world in
  run.1 = run'.1 ∧ calls run.2 = calls run'.2 ∧ tasks run.2 = tasks run'.2.
Proof.
  intros host.
  exact (StartTask_ignored_options host example_config (example_taskConfig "" "" "" [])
           example_taskConfig_image example_cfg empty_world eq_refl).
Defined.

(** X28 on a run: the example task on a disabled driver. *)
Lemma StartTask_ignores_enabled_witness :
  let host := unix_host never_fails true (example_taskConfig "" "" "" []) in
  StartTask host example_config_disabled example_cfg empty_world
  = StartTask host example_config example_cfg empty_world
  ∧ RecoverTask host example_config_disabled (Some example_recoverable) empty_world
    = RecoverTask host example_config (Some example_recoverable) empty_world.
Proof.
  intros host.
  exact (StartTask_ignores_enabled host example_config example_config_disabled example_cfg
           (Some example_recoverable) empty_world eq_refl).
Defined.

(** X29 on a run: the example task is recovered, then started again. *)
Lemma RecoverTask_then_StartTask_witness :
  let host := unix_host never_fails true (example_taskConfig "" "" "" []) in
  let w1 := (RecoverTask host example_config (Some example_recoverable) empty_world).2 in
  StartTask host example_config example_cfg w1
  = (Err (errorString
            ("task with ID " +:+ Sprintf_q "alloc-123/web" +:+ " already started")),
     w1).
Proof.
  intros host w1. subst w1.
  destruct (RecoverTask host example_config (Some example_recoverable) empty_world)
    as [[[]| |] w1] eqn:Hrun; try (vm_compute in Hrun; discriminate).
  destruct (RecoverTask_then_StartTask host example_config example_recoverable
              example_TaskState example_cfg empty_world w1) as (q & Hq & Hquoted).
  - vm_compute. discriminate.
  - reflexivity.
  - reflexivity.
  - exact Hrun.
  - reflexivity.
  - rewrite (Hquoted eq_refl) in Hq. exact Hq.
Defined.

(** X30 on a run: the example task is started, then recovered in the same
    driver. *)
Lemma StartTask_then_RecoverTask_witness :
  let host := unix_host never_fails true (example_taskConfig "" "" "" []) in
  let run := StartTask host example_config example_cfg empty_world in
  ∃ handle w2,
    run.1 = Ok handle
    ∧ RecoverTask host example_config (Some handle) run.2 = (Ok tt, w2)
    ∧ calls w2 = calls run.2
    ∧ tasks w2 = tasks run.2.
Proof.
  intros host run.
  destruct run as [[handle| |] w1] eqn:Hrun; try (vm_compute in Hrun; discriminate).
  destruct (StartTask_then_RecoverTask host example_config example_cfg empty_world
              handle w1 Hrun) as (w2 & H).
  exists handle, w2. split; [reflexivity|exact H].
Defined.
